(** * simpleipmi web panel: the camera capture-to-stream pipeline

    A shallow embedding of [webpanel/backend/camera_module.py] (the
    function-based module), of [webpanel/backend/module1.py] (the
    [CameraManager] class and its script) and of the routes of
    [webpanel/backend/test2.py], followed by the properties of the
    device enumerator and of the frame pipeline.

    OpenCV, [platform] and the hardware are outside the repository.  They
    appear as a [Backend]: a description of what every external call answers.
    The Python functions are written in a writer monad whose log records, in
    program order, every external call they issue.

    What the model takes for granted: a device delivers finitely many
    frames before its first failed read (the loop leaves at that read, so
    nothing after it is observable); [cap.get] values are taken after
    [int()].  A generator is the state machine of the Python protocol:
    created without running, advanced by [next], ended by [close].

    The generators are embedded for the identifiers their authors had in
    mind: a value [int()] sorts out for the function, an integer for the
    class; there every integer is printed in full and every OpenCV call
    answers.  What happens outside that domain (a float, an object that
    is no integer handed to the class, an integer of more digits than
    the interpreter converts or beyond the C [int] of the binding) is
    decided in the first lines of [generate_frames]; [first_lines] embeds
    those lines for such objects too. *)

From Stdlib Require Import ZArith List String Ascii Bool Lia Sorted FinFun.
From Stdlib Require Import Strings.Byte DecimalString DecimalPos.
From Stdlib Require DecimalFacts.
Import ListNotations.

Local Open Scope string_scope.
Local Open Scope list_scope.
Local Open Scope Z_scope.

(** ** Python values that reach the pipeline *)

(** [bytes] objects. *)
Definition bytes : Type := list byte.

(** A bytes literal without escapes. *)
Definition b (s : string) : bytes := list_byte_of_string s.

(** The bytes literal [b'\r\n']. *)
Definition CRLF : bytes := [x0d; x0a].

(** The values [int()] sorts out by their type alone: [None], a [bool],
    an [int], a [str].  A [PyStr] carries one character per code point;
    code points stay below 256.  Floats come with [PyObj]. *)
Inductive PyVal : Type :=
| PyNone
| PyBool (v : bool)
| PyInt (v : Z)
| PyStr (v : string).

(** The two exception classes that [int()] raises on these values. *)
Inductive PyExc : Type :=
| ValueError
| TypeError.

(** The decimal writing of an integer: digits, a leading minus sign.
    It is what [str(n)] and an f-string field give up to the digit limit
    of the interpreter; [str_limited] is the conversion with its limit. *)
Definition str (n : Z) : string := NilZero.string_of_int (Z.to_int n).

(** An f-string: its literal pieces and formatted fields, joined. *)
Definition f (parts : list string) : string := String.concat "" parts.

(** What an f-string replacement field prints for a value. *)
Definition format (v : PyVal) : string :=
  match v with
  | PyNone => "None"
  | PyBool true => "True"
  | PyBool false => "False"
  | PyInt n => str n
  | PyStr s => s
  end.

(** *** The builtin [int()] *)

(** Characters that [int()] skips around the number: tab to carriage return,
    space, and the two non-ASCII blanks below 256 (NEL and NBSP). *)
Definition is_space (c : ascii) : bool :=
  let n := nat_of_ascii c in
  ((9 <=? n)%nat && (n <=? 13)%nat) || (n =? 32)%nat || (n =? 133)%nat || (n =? 160)%nat.

Definition is_digit (c : ascii) : bool :=
  let n := nat_of_ascii c in (48 <=? n)%nat && (n <=? 57)%nat.

Definition digit_value (c : ascii) : Z := Z.of_nat (nat_of_ascii c) - 48.

Fixpoint lstrip (s : list ascii) : list ascii :=
  match s with
  | c :: rest => if is_space c then lstrip rest else s
  | [] => []
  end.

Definition strip (s : list ascii) : list ascii := rev (lstrip (rev (lstrip s))).

(** Decimal digits in which single underscores may separate digits.
    [after_digit] tells whether the previous character was a digit. *)
Fixpoint digits (acc : Z) (after_digit : bool) (s : list ascii) : option Z :=
  match s with
  | [] => if after_digit then Some acc else None
  | c :: rest =>
      if is_digit c then digits (10 * acc + digit_value c) true rest
      else if Ascii.eqb c "_"%char then
             if after_digit then digits acc false rest else None
      else None
  end.

(** The integer a text denotes: blanks around it, an optional sign, then
    the digits. *)
Definition int_literal (s : string) : option Z :=
  match strip (list_ascii_of_string s) with
  | c :: rest =>
      if Ascii.eqb c "-"%char then option_map Z.opp (digits 0 false rest)
      else if Ascii.eqb c "+"%char then digits 0 false rest
      else digits 0 false (c :: rest)
  | [] => None
  end.

(** The default of [sys.int_max_str_digits] (CPython 3.11 and later): a
    conversion between [int] and [str] in base 10 that involves more
    decimal digits raises [ValueError], in [int(text)] and in [str(n)]
    alike. *)
Definition int_max_str_digits : Z := 4300.

(** The decimal digits of a text; sign, blanks and underscores do not
    count, leading zeros do. *)
Definition digit_count (s : string) : Z :=
  Z.of_nat (List.length (filter is_digit (list_ascii_of_string s))).

Definition within_limit (s : string) : bool := digit_count s <=? int_max_str_digits.

(** [int(s)] for a [str]: [None] stands for [ValueError], which is raised
    for a text that is no integer literal and for one with too many
    digits. *)
Definition int_of_str (s : string) : option Z :=
  if within_limit s then int_literal s else None.

(** [int(v)]: the integer, or the exception raised. *)
Definition int (v : PyVal) : Z + PyExc :=
  match v with
  | PyNone => inr TypeError
  | PyBool true => inl 1
  | PyBool false => inl 0
  | PyInt n => inl n
  | PyStr s => match int_of_str s with
               | Some n => inl n
               | None => inr ValueError
               end
  end.

(** Python's [range(n)]. *)
Definition range (n : nat) : list Z := map Z.of_nat (seq 0 n).

(** A [dict] keeps its keys in insertion order: an association list.
    [dict_set d k v] is [d[k] = v]. *)
Definition dict (K V : Type) : Type := list (K * V).

Fixpoint dict_set {V : Type} (d : dict Z V) (k : Z) (v : V) : dict Z V :=
  match d with
  | [] => [(k, v)]
  | (k', v') :: rest =>
      if k' =? k then (k, v) :: rest else (k', v') :: dict_set rest k v
  end.

Definition keys {K V : Type} (d : dict K V) : list K := map fst d.

(** ** Calls that leave the program *)

(** One raw image sample. *)
Definition Frame : Type := list byte.

Inductive Event : Type :=
| Print (text : string)
| Sleep (seconds : Z)
| Open (index : Z) (api : option Z) (opened : bool)
| SetProp (index prop value : Z)
| GetProp (index prop value : Z)
| Read (index : Z) (success : bool)
| Encode (ext : string) (params : list Z) (ret : bool)
| Release (index : Z).

(** The writer monad: a result and the calls issued to compute it. *)
Definition W (A : Type) : Type := A * list Event.

Definition ret {A : Type} (a : A) : W A := (a, []).

Definition bind {A B : Type} (m : W A) (k : A -> W B) : W B :=
  (fst (k (fst m)), snd m ++ snd (k (fst m))).

Definition emit (e : Event) : W unit := (tt, [e]).

Definition value {A : Type} (m : W A) : A := fst m.
Definition trace {A : Type} (m : W A) : list Event := snd m.

Notation "x <- m ;; k" := (bind m (fun x => k))
  (at level 61, m at next level, right associativity).
Notation "m ;; k" := (bind m (fun _ => k))
  (at level 61, right associativity).

Definition print (text : string) : W unit := emit (Print text).

(** A [for] loop that threads the variables it assigns. *)
Fixpoint for_ {A S : Type} (xs : list A) (body : A -> S -> W S) (s : S) : W S :=
  match xs with
  | [] => ret s
  | x :: rest => s' <- body x s ;; for_ rest body s'
  end.

(** ** The backend *)

(** What one capture device does once constructed: whether it reports
    open, what [get] answers for a property after the listed [set] calls
    (oldest first, already truncated by [int()]), and the frames [read]
    delivers before its first failure. *)
Record Device : Type := {
  dev_opened : bool;
  dev_get : list (Z * Z) -> Z -> Z;
  dev_frames : list Frame
}.

Record Backend : Type := {
  platform_system : string;
  device : Z -> option Z -> Device;
  encoder : string -> Frame -> list Z -> bool * bytes
}.

(** The handle a [cv2.VideoCapture] object stands for. *)
Record Capture : Type := {
  cap_index : Z;
  cap_device : Device;
  cap_set : list (Z * Z)
}.

Module cv2.

Definition CAP_ANY : Z := 0.
Definition CAP_DSHOW : Z := 700.
Definition CAP_PROP_FRAME_WIDTH : Z := 3.
Definition CAP_PROP_FRAME_HEIGHT : Z := 4.
Definition IMWRITE_JPEG_QUALITY : Z := 1.

(** [cv2.VideoCapture(index)] and [cv2.VideoCapture(index, api)] for
    integers the binding takes; it raises for one outside the C [int]
    (see [c_int] and [first_lines]). *)
Definition VideoCapture (be : Backend) (index : Z) (api : option Z) : W Capture :=
  let dev := device be index api in
  emit (Open index api (dev_opened dev)) ;;
  ret {| cap_index := index; cap_device := dev; cap_set := [] |}.

Definition isOpened (cap : Capture) : bool := dev_opened (cap_device cap).

(** [cap.set(prop, value)] *)
Definition set (cap : Capture) (prop value : Z) : W Capture :=
  emit (SetProp (cap_index cap) prop value) ;;
  ret {| cap_index := cap_index cap;
         cap_device := cap_device cap;
         cap_set := cap_set cap ++ [(prop, value)] |}.

(** [int(cap.get(prop))] *)
Definition get (cap : Capture) (prop : Z) : W Z :=
  let v := dev_get (cap_device cap) (cap_set cap) prop in
  emit (GetProp (cap_index cap) prop v) ;; ret v.

(** [cap.read()] against the frames the device has still to deliver:
    [(success, frame)] and what remains afterwards. *)
Definition read (cap : Capture) (pending : list Frame)
  : W (bool * option Frame * list Frame) :=
  match pending with
  | [] => emit (Read (cap_index cap) false) ;; ret (false, None, [])
  | frame :: rest => emit (Read (cap_index cap) true) ;; ret (true, Some frame, rest)
  end.

(** [cap.release()] *)
Definition release (cap : Capture) : W unit := emit (Release (cap_index cap)).

(** [cv2.imencode(ext, frame[, params])], with [buffer.tobytes()] applied. *)
Definition imencode (be : Backend) (ext : string) (frame : Frame) (params : list Z)
  : W (bool * bytes) :=
  let r := encoder be ext frame params in
  emit (Encode ext params (fst r)) ;; ret r.

End cv2.

(** ** Generator objects

    Calling a generator function runs none of its body: it returns a
    generator object.  [next] runs the body up to the next [yield];
    [close] (which discarding the object performs) raises [GeneratorExit]
    at the [yield] where the body is suspended, so the enclosing [finally]
    blocks run. *)

Inductive Step (L : Type) : Type :=
| Yielded (chunk : bytes) (locals : L)
| Returned.
Arguments Yielded {L} chunk locals.
Arguments Returned {L}.

Inductive Generator (A L : Type) : Type :=
| Fresh (args : A)
| Suspended (locals : L)
| Done.
Arguments Fresh {A L} args.
Arguments Suspended {A L} locals.
Arguments Done {A L}.

(** A generator function's body, cut at its suspension points: from the
    first line on, from a [yield] on, and what runs when [GeneratorExit]
    arrives at a [yield]. *)
Record Body (A L : Type) : Type := {
  enter : A -> W (Step L);
  resume : L -> W (Step L);
  unwind : L -> W unit
}.
Arguments enter {A L} _ _.
Arguments resume {A L} _ _.
Arguments unwind {A L} _ _.

(** What [next(g)] gives its caller. *)
Inductive Pulled : Type :=
| Chunk (data : bytes)
| StopIteration.

Definition settle {A L : Type} (step : Step L) : Pulled * Generator A L :=
  match step with
  | Yielded chunk locals => (Chunk chunk, Suspended locals)
  | Returned => (StopIteration, Done)
  end.

Definition next {A L : Type} (body : Body A L) (g : Generator A L)
  : W (Pulled * Generator A L) :=
  match g with
  | Fresh args => step <- enter body args ;; ret (settle step)
  | Suspended locals => step <- resume body locals ;; ret (settle step)
  | Done => ret (StopIteration, Done)
  end.

Definition close {A L : Type} (body : Body A L) (g : Generator A L)
  : W (Generator A L) :=
  match g with
  | Fresh _ => ret Done
  | Suspended locals => unwind body locals ;; ret Done
  | Done => ret Done
  end.

(** What a consumer does with a generator, one operation at a time. *)
Inductive Op : Type :=
| Next
| Close.

(** The consumer's operations in order: what each [Next] received, and
    the generator afterwards. *)
Fixpoint run {A L : Type} (body : Body A L) (ops : list Op) (g : Generator A L)
  : W (list Pulled * Generator A L) :=
  match ops with
  | [] => ret ([], g)
  | Next :: rest =>
      r <- next body g ;;
      rs <- run body rest (snd r) ;;
      ret (fst r :: fst rs, snd rs)
  | Close :: rest =>
      g' <- close body g ;;
      run body rest g'
  end.

(** ** camera_module.py *)

Module camera_module.

Definition get_available_cameras (be : Backend) : W (dict Z string) :=
  let available_cameras := [] in
  for_ (range 10) (fun i available_cameras =>
    cap <- (if String.eqb (platform_system be) "Windows"
            then cv2.VideoCapture be i (Some cv2.CAP_DSHOW)
            else cv2.VideoCapture be i None) ;;
    if cv2.isOpened cap then
      let available_cameras := dict_set available_cameras i (f ["Device "; str i]) in
      cv2.release cap ;;
      ret available_cameras
    else ret available_cameras) available_cameras.

(** The variables alive at the [yield], and the frames the device behind
    [cap] has still to deliver. *)
Record Locals : Type := {
  device_id : PyVal;
  cap : Capture;
  pending : list Frame
}.

(** The [finally] block. *)
Definition finally_ (device_id : PyVal) (cap : Capture) : W unit :=
  print (f ["Releasing device "; format device_id; "..."]) ;;
  cv2.release cap.

(** The [while True] loop inside [try], from its top to the next [yield]
    or to the end of the function; [cap.read()] is written out as the
    match on [pending]. *)
Fixpoint streaming (be : Backend) (device_id : PyVal) (cap : Capture)
         (pending : list Frame) : W (Step Locals) :=
  match pending with
  | [] =>
      emit (Read (cap_index cap) false) ;;
      print (f ["Cannot read frame from device "; format device_id;
                ". It might be disconnected."]) ;;
      finally_ device_id cap ;;
      ret Returned
  | frame :: pending =>
      emit (Read (cap_index cap) true) ;;
      r <- cv2.imencode be ".jpg" frame [] ;;
      if negb (fst r) then
        print "Failed to encode frame." ;;
        streaming be device_id cap pending
      else
        let frame_bytes := snd r in
        ret (Yielded (b "--frame" ++ CRLF ++
                      b "Content-Type: image/jpeg" ++ CRLF ++ CRLF ++
                      frame_bytes ++ CRLF)
                     {| device_id := device_id; cap := cap; pending := pending |})
  end.

Definition generate_frames_body (be : Backend) : Body (PyVal * (Z * Z)) Locals := {|
  enter := fun args =>
    let device_id := fst args in
    let resolution := snd args in
    print (f ["Attempting to open device "; format device_id; " with resolution ";
              str (fst resolution); "x"; str (snd resolution); "..."]) ;;
    match int device_id with
    | inr ValueError | inr TypeError =>
        print (f ["Error: Invalid device ID '"; format device_id;
                  "'. It must be an integer."]) ;;
        ret Returned
    | inl device_id_int =>
        cap <- (if String.eqb (platform_system be) "Windows"
                then cv2.VideoCapture be device_id_int (Some cv2.CAP_DSHOW)
                else cv2.VideoCapture be device_id_int None) ;;
        if negb (cv2.isOpened cap) then
          print (f ["Error: Could not open video device "; format device_id; "."]) ;;
          ret Returned
        else
          cap <- cv2.set cap cv2.CAP_PROP_FRAME_WIDTH (fst resolution) ;;
          cap <- cv2.set cap cv2.CAP_PROP_FRAME_HEIGHT (snd resolution) ;;
          emit (Sleep 1) ;;
          actual_width <- cv2.get cap cv2.CAP_PROP_FRAME_WIDTH ;;
          actual_height <- cv2.get cap cv2.CAP_PROP_FRAME_HEIGHT ;;
          print (f ["Actual resolution for device "; format device_id; ": ";
                    str actual_width; "x"; str actual_height]) ;;
          streaming be device_id cap (dev_frames (cap_device cap))
    end;
  resume := fun l => streaming be (device_id l) (cap l) (pending l);
  unwind := fun l => finally_ (device_id l) (cap l)
|}.

(** The call [generate_frames(device_id, resolution)]. *)
Definition generate_frames (device_id : PyVal) (resolution : Z * Z)
  : Generator (PyVal * (Z * Z)) Locals :=
  Fresh (device_id, resolution).

End camera_module.

(** ** module1.py *)

Module CameraManager.

Record Self : Type := { backend : Z }.

Definition __init__ (be : Backend) (backend : option Z) : W Self :=
  let self_backend :=
    match backend with
    | None => if String.eqb (platform_system be) "Windows"
              then cv2.CAP_DSHOW else cv2.CAP_ANY
    | Some backend => backend
    end in
  print (f ["CameraManager initialized using backend: "; str self_backend]) ;;
  ret {| backend := self_backend |}.

Definition get_available_cameras (be : Backend) (self : Self) : W (dict Z string) :=
  let available_cameras := [] in
  for_ (range 10) (fun i available_cameras =>
    cap <- cv2.VideoCapture be i (Some (backend self)) ;;
    if cv2.isOpened cap then
      let available_cameras := dict_set available_cameras i (f ["Device "; str i]) in
      cv2.release cap ;;
      ret available_cameras
    else ret available_cameras) available_cameras.

Record Locals : Type := {
  device_id : Z;
  cap : Capture;
  pending : list Frame
}.

(** The [finally] block. *)
Definition finally_ (device_id : Z) (cap : Capture) : W unit :=
  print (f ["Releasing device "; str device_id; "..."]) ;;
  cv2.release cap.

(** The [while True] loop inside [try], from its top to the next [yield]
    or to the end of the function; [cap.read()] is written out as the
    match on [pending]. *)
Fixpoint streaming (be : Backend) (device_id : Z) (cap : Capture)
         (pending : list Frame) : W (Step Locals) :=
  match pending with
  | [] =>
      emit (Read (cap_index cap) false) ;;
      print (f ["Cannot read frame from device "; str device_id;
                ". It might be disconnected."]) ;;
      finally_ device_id cap ;;
      ret Returned
  | frame :: pending =>
      emit (Read (cap_index cap) true) ;;
      r <- cv2.imencode be ".jpg" frame [cv2.IMWRITE_JPEG_QUALITY; 80] ;;
      if negb (fst r) then
        print "Failed to encode frame." ;;
        streaming be device_id cap pending
      else
        let frame_bytes := snd r in
        ret (Yielded (b "--frame" ++ CRLF ++
                      b "Content-Type: image/jpeg" ++ CRLF ++ CRLF ++
                      frame_bytes ++ CRLF)
                     {| device_id := device_id; cap := cap; pending := pending |})
  end.

Definition generate_frames_body (be : Backend) (self : Self)
  : Body (Z * (Z * Z)) Locals := {|
  enter := fun args =>
    let device_id := fst args in
    let resolution := snd args in
    print (f ["Attempting to open device "; str device_id; " with resolution ";
              str (fst resolution); "x"; str (snd resolution); "..."]) ;;
    cap <- cv2.VideoCapture be device_id (Some (backend self)) ;;
    if negb (cv2.isOpened cap) then
      print (f ["Error: Could not open video device "; str device_id; "."]) ;;
      ret Returned
    else
      cap <- cv2.set cap cv2.CAP_PROP_FRAME_WIDTH (fst resolution) ;;
      cap <- cv2.set cap cv2.CAP_PROP_FRAME_HEIGHT (snd resolution) ;;
      actual_width <- cv2.get cap cv2.CAP_PROP_FRAME_WIDTH ;;
      actual_height <- cv2.get cap cv2.CAP_PROP_FRAME_HEIGHT ;;
      print (f ["Actual resolution for device "; str device_id; ": ";
                str actual_width; "x"; str actual_height]) ;;
      (if negb (actual_width =? fst resolution) || negb (actual_height =? snd resolution)
       then print "Warning: The camera does not support the requested resolution. Using default."
       else ret tt) ;;
      streaming be device_id cap (dev_frames (cap_device cap));
  resume := fun l => streaming be (device_id l) (cap l) (pending l);
  unwind := fun l => finally_ (device_id l) (cap l)
|}.

(** The call [self.generate_frames(device_id, resolution)] with an
    integer, as the annotation [device_id: int] asks; Python does not
    enforce it, and [first_lines.CameraManager_generate_frames] tells
    what the first lines do with any object. *)
Definition generate_frames (device_id : Z) (resolution : Z * Z)
  : Generator (Z * (Z * Z)) Locals :=
  Fresh (device_id, resolution).

End CameraManager.

(** ** Names for what the prologues compute *)

(** The [api] argument [camera_module] passes to [cv2.VideoCapture] on
    this platform; [None] is the one-argument call. *)
Definition platform_api (be : Backend) : option Z :=
  if String.eqb (platform_system be) "Windows" then Some cv2.CAP_DSHOW else None.

(** The [set] calls both prologues make, oldest first. *)
Definition requested (resolution : Z * Z) : list (Z * Z) :=
  [(cv2.CAP_PROP_FRAME_WIDTH, fst resolution); (cv2.CAP_PROP_FRAME_HEIGHT, snd resolution)].

(** The handle once the resolution has been requested. *)
Definition configured (index : Z) (dev : Device) (resolution : Z * Z) : Capture :=
  {| cap_index := index; cap_device := dev; cap_set := requested resolution |}.

(** The resolution the device reports back after the request. *)
Definition negotiated (dev : Device) (resolution : Z * Z) : Z * Z :=
  (dev_get dev (requested resolution) cv2.CAP_PROP_FRAME_WIDTH,
   dev_get dev (requested resolution) cv2.CAP_PROP_FRAME_HEIGHT).

(** ** Reading a log *)

Definition count (p : Event -> bool) (log : list Event) : nat :=
  List.length (filter p log).

Definition is_open_call (e : Event) : bool :=
  match e with Open _ _ _ => true | _ => false end.

Definition is_opened (e : Event) : bool :=
  match e with Open _ _ opened => opened | _ => false end.

Definition is_release (e : Event) : bool :=
  match e with Release _ => true | _ => false end.

Definition is_read_ok (e : Event) : bool :=
  match e with Read _ success => success | _ => false end.

Definition is_encode (e : Event) : bool :=
  match e with Encode _ _ _ => true | _ => false end.

(** Constructions of a capture object, those that reported open, and
    [release()] calls. *)
Definition open_calls (log : list Event) : nat := count is_open_call log.
Definition opens (log : list Event) : nat := count is_opened log.
Definition releases (log : list Event) : nat := count is_release log.

(** The [params] argument of every [imencode] call, in call order. *)
Definition encode_params (log : list Event) : list (list Z) :=
  flat_map (fun e => match e with Encode _ params _ => [params] | _ => [] end) log.

(** Every printed line, in order. *)
Definition printed (log : list Event) : list string :=
  flat_map (fun e => match e with Print text => [text] | _ => [] end) log.

(** Every [imencode] call in the log passes [params], and there is one
    such call for every frame read. *)
Definition encodes_with (params : list Z) (log : list Event) : Prop :=
  Forall (fun p => p = params) (encode_params log)
  /\ count is_encode log = count is_read_ok log.

(** The line [CameraManager.generate_frames] prints on a mismatch. *)
Definition mismatch_warning : string :=
  "Warning: The camera does not support the requested resolution. Using default.".

(** A call other than the printing of that line. *)
Definition silent (e : Event) : Prop := e <> Print mismatch_warning.

(** The device indices whose handle is open at the end of a log. *)
Fixpoint remove_handle (i : Z) (held : list Z) : list Z :=
  match held with
  | [] => []
  | j :: rest => if j =? i then rest else j :: remove_handle i rest
  end.

Definition track (held : list Z) (e : Event) : list Z :=
  match e with
  | Open i _ true => held ++ [i]
  | Release i => remove_handle i held
  | _ => held
  end.

Definition open_handles (log : list Event) : list Z := fold_left track log [].

(** ** Reading a session *)

Definition pulled {A L : Type} (r : W (list Pulled * Generator A L)) : list Pulled :=
  fst (value r).

Definition final {A L : Type} (r : W (list Pulled * Generator A L)) : Generator A L :=
  snd (value r).

(** Handles a generator object holds: one while it is suspended inside
    [try], none before its body starts or after it has ended. *)
Definition holds {A L : Type} (g : Generator A L) : nat :=
  match g with Suspended _ => 1%nat | _ => 0%nat end.

Definition unstarted {A L : Type} (g : Generator A L) : nat :=
  match g with Fresh _ => 1%nat | _ => 0%nat end.

(** The chunks a generator has still to give, when [chunks_left] tells
    them for a suspended body. *)
Definition chunks_ahead {A L : Type} (body : Body A L) (chunks_left : L -> list bytes)
           (g : Generator A L) : list bytes :=
  match g with
  | Fresh args =>
      match value (enter body args) with
      | Yielded chunk locals => chunk :: chunks_left locals
      | Returned => []
      end
  | Suspended locals => chunks_left locals
  | Done => []
  end.

(** Pulled until it ends and beyond, the generator gives exactly [chunks],
    in order, then only [StopIteration]; by then it has ended and one
    [release()] has been issued in all. *)
Definition exhausts {A L : Type} (body : Body A L) (g : Generator A L)
           (chunks : list bytes) : Prop :=
  forall extra : nat,
    let r := run body (repeat Next (List.length chunks + 1 + extra)) g in
    pulled r = map Chunk chunks ++ repeat StopIteration (1 + extra)
    /\ final r = Done
    /\ releases (trace r) = 1%nat.

(** However the consumer drives it, the generator gives no chunk: every
    pull ends in [StopIteration]. *)
Definition empty_sequence {A L : Type} (body : Body A L) (g : Generator A L) : Prop :=
  forall ops : list Op,
    Forall (fun p => p = StopIteration) (pulled (run body ops g))
    /\ pulled (run body (Next :: ops) g) <> [].

(** ** The wire format and the encoder, as the specification words them *)

(** One unit of the multipart stream: the boundary line, the content-type
    header, an empty line, the JPEG bytes, and a closing line break. *)
Definition multipart_unit (jpeg : bytes) : bytes :=
  [x2d; x2d; x66; x72; x61; x6d; x65; x0d; x0a] ++
  [x43; x6f; x6e; x74; x65; x6e; x74; x2d; x54; x79; x70; x65; x3a; x20;
   x69; x6d; x61; x67; x65; x2f; x6a; x70; x65; x67; x0d; x0a; x0d; x0a] ++
  jpeg ++ [x0d; x0a].

(** Whether a frame compresses, and to which bytes, under [params]. *)
Definition compresses (be : Backend) (params : list Z) (frame : Frame) : bool :=
  fst (encoder be ".jpg" frame params).

Definition jpeg (be : Backend) (params : list Z) (frame : Frame) : bytes :=
  snd (encoder be ".jpg" frame params).

(** One unit per frame that compresses, in frame order. *)
Definition chunks_of (be : Backend) (params : list Z) (frames : list Frame) : list bytes :=
  map (fun frame => multipart_unit (jpeg be params frame))
      (filter (compresses be params) frames).

(** The label of a device, as the specification words it. *)
Definition label (index : Z) : string := String.append "Device " (str index).

(** The mapping that holds exactly the listed indices that open, in the
    order listed, each with its label. *)
Definition found (be : Backend) (api : option Z) (indices : list Z) : dict Z string :=
  map (fun i => (i, label i))
      (filter (fun i => dev_opened (device be i api)) indices).

(** What probing one index issues: the open call and, when the device
    reported open, its release. *)
Definition probe_log (be : Backend) (api : option Z) (i : Z) : list Event :=
  Open i api (dev_opened (device be i api))
  :: (if dev_opened (device be i api) then [Release i] else []).

(** The JPEG quality a [params] list of flag/value pairs asks for. *)
Fixpoint quality_of (params : list Z) : option Z :=
  match params with
  | flag :: v :: rest =>
      if flag =? cv2.IMWRITE_JPEG_QUALITY then Some v else quality_of rest
  | _ => None
  end.

(** The encoder parameters each implementation passes. *)
Definition no_params : list Z := [].
Definition quality_80 : list Z := [cv2.IMWRITE_JPEG_QUALITY; 80].

(** ** Backends used as concrete instances *)

(** An encoder that refuses the empty image and otherwise frames the
    sample between the JPEG start and end markers. *)
Definition marker_encoder (ext : string) (frame : Frame) (params : list Z) : bool * bytes :=
  match frame with
  | [] => (false, [])
  | _ => (true, [xff; xd8] ++ frame ++ [xff; xd9])
  end.

(** A device that answers every resolution request with 1280x720. *)
Definition hd_only (sets : list (Z * Z)) (prop : Z) : Z :=
  if prop =? cv2.CAP_PROP_FRAME_WIDTH then 1280
  else if prop =? cv2.CAP_PROP_FRAME_HEIGHT then 720
  else 0.

Definition camera (frames : list Frame) : Device :=
  {| dev_opened := true; dev_get := hd_only; dev_frames := frames |}.

Definition absent : Device :=
  {| dev_opened := false; dev_get := fun _ _ => 0; dev_frames := [] |}.

(** A Linux host whose slot 0 holds [dev] and whose other slots are empty. *)
Definition bench (dev : Device) : Backend :=
  {| platform_system := "Linux";
     device := fun index _ => if index =? 0 then dev else absent;
     encoder := marker_encoder |}.

(** A Linux host on which every slot opens. *)
Definition crowded : Backend :=
  {| platform_system := "Linux";
     device := fun _ _ => camera [];
     encoder := marker_encoder |}.

(** ** module1.py, the script run as [__main__] *)

(** The line break an escape stands for in the script's literals. *)
Definition LF : string := String (ascii_of_nat 10) EmptyString.

(** [repr] of a [str] without quotes, backslashes or control characters,
    which the labels of the enumeration are. *)
Definition repr_plain (s : string) : string := f ["'"; s; "'"].

(** [str(cameras)] for a mapping of indices to such labels. *)
Definition repr_cameras (cameras : dict Z string) : string :=
  f ["{";
     String.concat ", "
       (map (fun kv => f [str (fst kv); ": "; repr_plain (snd kv)]) cameras);
     "}"].

Module module1.

(** The [for i in range(5)] loop inside [try]: [true] when it ran to its
    end, [false] when [next] raised [StopIteration]; with the generator
    as it is afterwards. *)
Fixpoint demo_loop {A L : Type} (body : Body A L) (indices : list Z)
         (frame_generator : Generator A L) : W (bool * Generator A L) :=
  match indices with
  | [] => ret (true, frame_generator)
  | i :: indices =>
      r <- next body frame_generator ;;
      match fst r with
      | StopIteration => ret (false, snd r)
      | Chunk frame =>
          print (f ["Generated frame "; str (i + 1); ", length: ";
                    str (Z.of_nat (List.length frame)); " bytes"]) ;;
          demo_loop body indices (snd r)
      end
  end.

(** The statements of the script; it returns the globals
    [camera_manager] and [frame_generator] as its last statement leaves
    them, [None] when [frame_generator] was never bound. *)
Definition main (be : Backend)
  : W (CameraManager.Self * option (Generator (Z * (Z * Z)) CameraManager.Locals)) :=
  camera_manager <- CameraManager.__init__ be None ;;
  print "Searching for available cameras..." ;;
  cameras <- CameraManager.get_available_cameras be camera_manager ;;
  match keys cameras with
  | [] =>
      print "No cameras found." ;;
      ret (camera_manager, None)
  | first_camera_id :: _ =>
      print (f ["Available cameras: "; repr_cameras cameras]) ;;
      let resolution := (640, 480) in
      print (f [LF; "--- Starting stream from camera "; str first_camera_id; " ---"]) ;;
      print "--- (This is a generator, in a real app you would use it in a streaming response) ---" ;;
      let frame_generator := CameraManager.generate_frames first_camera_id resolution in
      r <- demo_loop (CameraManager.generate_frames_body be camera_manager)
                     (range 5) frame_generator ;;
      (if fst r then
         print (f [LF; "Successfully generated a few frames. The generator is ready for integration."])
       else
         print "Could not generate frames. The camera may have been disconnected or an error occurred.") ;;
      ret (camera_manager, Some (snd r))
  end.

(** A run of [python module1.py]: the statements, then the exit of the
    interpreter.  On exit CPython drops the globals of [__main__]; a
    generator object that loses its last reference while suspended is
    finalised, which is [close()]: [GeneratorExit] is raised at the
    [yield] and the [finally] block runs.  The result is the generator
    as the run leaves it. *)
Definition script (be : Backend)
  : W (option (Generator (Z * (Z * Z)) CameraManager.Locals)) :=
  globals <- main be ;;
  match snd globals with
  | None => ret None
  | Some frame_generator =>
      g <- close (CameraManager.generate_frames_body be (fst globals)) frame_generator ;;
      ret (Some g)
  end.

End module1.

(** ** test2.py, the Flask application *)

(** [str.split(sep)] for a one-character separator. *)
Fixpoint split (sep : ascii) (s : string) : list string :=
  match s with
  | EmptyString => [EmptyString]
  | String c rest =>
      if Ascii.eqb c sep then EmptyString :: split sep rest
      else match split sep rest with
           | first :: others => String c first :: others
           | [] => [String c EmptyString]
           end
  end.

(** [width, height = map(int, parts)]: the items are converted one by
    one as the unpacking asks for them; a missing or a third item raises
    [ValueError]. *)
Definition unpack_two (items : list (Z + PyExc)) : (Z * Z) + PyExc :=
  match items with
  | [] => inr ValueError
  | inr e :: _ => inr e
  | [inl _] => inr ValueError
  | inl _ :: inr e :: _ => inr e
  | [inl width; inl height] => inl (width, height)
  | inl _ :: inl _ :: inr e :: _ => inr e
  | inl _ :: inl _ :: inl _ :: _ => inr ValueError
  end.

(** [test2.py] imports the name [CameraManager] from [camera_module],
    which its own header describes as holding that class; in the
    repository only [module1.py] defines it, so as the files stand the
    import fails.  The routes are embedded with the class of
    [module1.py] in its place.  [video_feed] only calls its
    [generate_frames], which being a generator function runs nothing;
    [index] takes the enumeration it calls as an argument. *)
Module test2.

(** The query parameters of a request, in the order received;
    [request.args.get] answers with the first value of a key. *)
Definition Args : Type := list (string * string).

Fixpoint args_get (args : Args) (key : string) : option string :=
  match args with
  | [] => None
  | (k, v) :: rest => if String.eqb k key then Some v else args_get rest key
  end.

(** [request.args.get(key)], whose default is [None]. *)
Definition get (args : Args) (key : string) : PyVal :=
  match args_get args key with
  | Some v => PyStr v
  | None => PyNone
  end.

(** [request.args.get(key, default)] with a [str] default. *)
Definition get_default (args : Args) (key default : string) : string :=
  match args_get args key with
  | Some v => v
  | None => default
  end.

(** The module-level [camera_manager = CameraManager()], for the class
    of [module1.py]. *)
Definition camera_manager (be : Backend) : W CameraManager.Self :=
  CameraManager.__init__ be None.

(** What [index] hands to [render_template]. *)
Record Rendered : Type := {
  template : string;
  cameras : dict Z string;
  resolutions : list string;
  selected_device : option Z;
  selected_res : PyVal
}.

(** [index]; [get_available_cameras] is the bound method
    [camera_manager.get_available_cameras]. *)
Definition index (get_available_cameras : W (dict Z string)) (args : Args)
  : W Rendered :=
  let selected_device_str := get args "device" in
  let selected_res_str := get args "resolution" in
  let selected_device_int :=
    match int selected_device_str with
    | inl n => Some n
    | inr ValueError | inr TypeError => None
    end in
  available_cameras <- get_available_cameras ;;
  let resolutions :=
    [("640x480", (640, 480)); ("800x600", (800, 600));
     ("1280x720", (1280, 720)); ("1920x1080", (1920, 1080))] in
  ret {| template := "index.html";
         cameras := available_cameras;
         resolutions := keys resolutions;
         selected_device := selected_device_int;
         selected_res := selected_res_str |}.

(** What [video_feed] hands to [Response]. *)
Record Response : Type := {
  response : Generator (Z * (Z * Z)) CameraManager.Locals;
  mimetype : string
}.

(** The body of [try] in [video_feed]: the identifier first, then the
    resolution. *)
Definition parse (device_id_str res_str : string) : (Z * (Z * Z)) + PyExc :=
  match int (PyStr device_id_str) with
  | inr e => inr e
  | inl device_id =>
      match unpack_two (map (fun part => int (PyStr part)) (split "x"%char res_str)) with
      | inr e => inr e
      | inl (width, height) => inl (device_id, (width, height))
      end
  end.

(** [video_feed]; an exception its [except] clause does not name leaves
    the function. *)
Definition video_feed (args : Args) : W (Response + PyExc) :=
  let device_id_str := get_default args "device" "0" in
  let res_str := get_default args "resolution" "640x480" in
  parsed <-
    match parse device_id_str res_str with
    | inl parsed => ret (inl parsed)
    | inr ValueError =>
        print "Invalid parameters received. Using defaults." ;;
        ret (inl (0, (640, 480)))
    | inr e => ret (inr e)
    end ;;
  match parsed with
  | inl (device_id, resolution) =>
      ret (inl {| response := CameraManager.generate_frames device_id resolution;
                  mimetype := "multipart/x-mixed-replace; boundary=frame" |})
  | inr e => ret (inr e)
  end.

End test2.

(** ** More ways to read a log *)

Definition is_sleep (e : Event) : bool :=
  match e with Sleep _ => true | _ => false end.

Definition is_set (e : Event) : bool :=
  match e with SetProp _ _ _ => true | _ => false end.

(** A call that goes to the capture backend, as opposed to a print or a
    sleep. *)
Definition is_device_call (e : Event) : bool :=
  match e with Print _ | Sleep _ => false | _ => true end.

(** The [api] argument of every open call is [api]. *)
Definition opens_with (api : option Z) (e : Event) : Prop :=
  match e with Open _ a _ => a = api | _ => True end.

(** The largest number of handles open at once while the log unfolds,
    starting with [held] open. *)
Fixpoint peak (held : list Z) (log : list Event) : nat :=
  match log with
  | [] => List.length held
  | e :: rest => Nat.max (List.length held) (peak (track held e) rest)
  end.

(** Nothing follows a release in the log. *)
Definition release_is_last (log : list Event) : Prop :=
  forall before after i, log = before ++ Release i :: after -> after = [].

(** A call the streaming loop and its [finally] block can issue. *)
Definition is_loop_event (e : Event) : bool :=
  match e with
  | Read _ _ | Encode _ _ _ | Print _ | Release _ => true
  | _ => false
  end.

Definition is_read (e : Event) : bool :=
  match e with Read _ _ => true | _ => false end.

Definition is_encode_failure (e : Event) : bool :=
  match e with Encode _ _ ret => negb ret | _ => false end.

(** How many times the consumer asks for a chunk. *)
Definition pulls_asked (ops : list Op) : nat :=
  List.length (filter (fun op => match op with Next => true | Close => false end) ops).

(** How many times the consumer asks for a chunk before it first
    discards the generator. *)
Fixpoint pulls_before_close (ops : list Op) : nat :=
  match ops with
  | Next :: rest => S (pulls_before_close rest)
  | _ => 0%nat
  end.

(** The handles a generator object keeps open: that of the capture in
    its locals while it is suspended inside [try], none before its body
    starts or after it has ended. *)
Definition held_by {A L : Type} (handle_of : L -> Z) (g : Generator A L) : list Z :=
  match g with
  | Suspended locals => [handle_of locals]
  | _ => []
  end.

(** A property of a generator's arguments before it starts, and of its
    locals while it is suspended. *)
Definition kept {A L : Type} (P : A -> Prop) (I : L -> Prop) (g : Generator A L) : Prop :=
  match g with
  | Fresh args => P args
  | Suspended locals => I locals
  | Done => True
  end.

(** ** The first lines of [generate_frames], for whatever is passed

    Python checks neither the annotation [device_id: int] nor the size
    of an integer.  The embeddings above take [device_id] among the
    values of [PyVal] (or as an integer, in [CameraManager]), print
    every integer in full and let [cv2.VideoCapture] answer for every
    index.  Here the lines up to the [isOpened] test are embedded once
    more, for floats and for objects that are no integers as well, and
    with the two limits that lie outside the repository: the digit limit
    of the interpreter and the C [int] the OpenCV binding converts its
    arguments to. *)

(** A [float], by the two observations the pipeline makes of one: what
    an f-string writes for it and what [int()] truncates it to. *)
Inductive PyFloat : Type :=
| Finite (text : string) (truncated : Z)
| Infinity (negative : bool)
| NaN.

(** The objects considered as [device_id]: those of [PyVal], and floats. *)
Inductive PyObj : Type :=
| Val (v : PyVal)
| Float (x : PyFloat).

(** The exception classes that occur: those of [PyExc], [OverflowError]
    and [cv2.error]. *)
Inductive Exc : Type :=
| Builtin (e : PyExc)
| OverflowError
| cv2_error.

(** An integer field of an f-string: [str(n)], which raises beyond the
    digit limit. *)
Definition str_limited (n : Z) : string + Exc :=
  if within_limit (str n) then inl (str n) else inr (Builtin ValueError).

(** The field [{device_id}]. *)
Definition format_obj (o : PyObj) : string + Exc :=
  match o with
  | Val (PyInt n) => str_limited n
  | Val v => inl (format v)
  | Float (Finite text _) => inl text
  | Float (Infinity negative) => inl (if negative then "-inf" else "inf")
  | Float NaN => inl "nan"
  end.

(** The fields of an f-string are evaluated from left to right; the
    first that raises ends the evaluation. *)
Fixpoint fields (parts : list (string + Exc)) : list string + Exc :=
  match parts with
  | [] => inl []
  | inr e :: _ => inr e
  | inl s :: rest =>
      match fields rest with
      | inl texts => inl (s :: texts)
      | inr e => inr e
      end
  end.

Definition f_fields (parts : list (string + Exc)) : string + Exc :=
  match fields parts with
  | inl texts => inl (f texts)
  | inr e => inr e
  end.

(** [int(device_id)] for these objects. *)
Definition int_obj (o : PyObj) : Z + Exc :=
  match o with
  | Val v =>
      match int v with
      | inl n => inl n
      | inr e => inr (Builtin e)
      end
  | Float (Finite _ truncated) => inl truncated
  | Float (Infinity _) => inr OverflowError
  | Float NaN => inr (Builtin ValueError)
  end.

(** The integers the binding can convert to a C [int]. *)
Definition c_int (n : Z) : bool := (- 2 ^ 31 <=? n) && (n <? 2 ^ 31).

(** What [cv2.VideoCapture] answers when its first argument is not a
    plain [int] ([None], a [bool], a [str], a [float]): the binding
    refuses it and raises, or builds a capture (a [str] names a file or a
    stream) that is open or not.  Which one is the backend's matter. *)
Inductive Built : Type :=
| Refused
| Unopened
| Opened.

Definition Binding : Type := PyObj -> option Z -> Built.

(** A call these lines issue: one of the calls above, or a construction
    [cv2.VideoCapture(arg, api)] that is no open by an index the binding
    accepts. *)
Inductive Call : Type :=
| Logged (e : Event)
| Construct (arg : PyObj) (api : option Z).

(** Where the first [next()] stands after the [isOpened] test: an
    exception has left the generator, the function has returned (the
    pull raises [StopIteration]), or a capture is open and the function
    goes on to request the resolution. *)
Inductive Opening : Type :=
| Raises (e : Exc)
| Ends
| Holds (cap : Capture)
| HoldsOther (arg : PyObj).

Module first_lines.

(** [camera_module.generate_frames], lines 43 to 60. *)
Definition camera_module_generate_frames (be : Backend) (device_id : PyObj)
           (resolution : Z * Z) : Opening * list Call :=
  match f_fields [inl "Attempting to open device "; format_obj device_id;
                  inl " with resolution "; str_limited (fst resolution); inl "x";
                  str_limited (snd resolution); inl "..."] with
  | inr e => (Raises e, [])
  | inl attempting =>
      match int_obj device_id with
      | inr (Builtin _) =>
          match f_fields [inl "Error: Invalid device ID '"; format_obj device_id;
                          inl "'. It must be an integer."] with
          | inr e => (Raises e, [Logged (Print attempting)])
          | inl invalid => (Ends, [Logged (Print attempting); Logged (Print invalid)])
          end
      | inr e => (Raises e, [Logged (Print attempting)])
      | inl device_id_int =>
          let api := if String.eqb (platform_system be) "Windows"
                     then Some cv2.CAP_DSHOW else None in
          if negb (c_int device_id_int) then
            (Raises cv2_error,
             [Logged (Print attempting); Construct (Val (PyInt device_id_int)) api])
          else
            let dev := device be device_id_int api in
            if negb (dev_opened dev) then
              match f_fields [inl "Error: Could not open video device ";
                              format_obj device_id; inl "."] with
              | inr e =>
                  (Raises e,
                   [Logged (Print attempting); Logged (Open device_id_int api false)])
              | inl could_not =>
                  (Ends,
                   [Logged (Print attempting); Logged (Open device_id_int api false);
                    Logged (Print could_not)])
              end
            else
              (Holds {| cap_index := device_id_int; cap_device := dev; cap_set := [] |},
               [Logged (Print attempting); Logged (Open device_id_int api true)])
      end
  end.

(** [CameraManager.generate_frames], lines 70 to 76. *)
Definition CameraManager_generate_frames (be : Backend) (binding : Binding)
           (self : CameraManager.Self) (device_id : PyObj) (resolution : Z * Z)
  : Opening * list Call :=
  match f_fields [inl "Attempting to open device "; format_obj device_id;
                  inl " with resolution "; str_limited (fst resolution); inl "x";
                  str_limited (snd resolution); inl "..."] with
  | inr e => (Raises e, [])
  | inl attempting =>
      let api := Some (CameraManager.backend self) in
      let could_not :=
        f_fields [inl "Error: Could not open video device "; format_obj device_id;
                  inl "."] in
      match device_id with
      | Val (PyInt index) =>
          if negb (c_int index && c_int (CameraManager.backend self)) then
            (Raises cv2_error, [Logged (Print attempting); Construct device_id api])
          else
            let dev := device be index api in
            if negb (dev_opened dev) then
              match could_not with
              | inr e =>
                  (Raises e, [Logged (Print attempting); Logged (Open index api false)])
              | inl could_not =>
                  (Ends,
                   [Logged (Print attempting); Logged (Open index api false);
                    Logged (Print could_not)])
              end
            else
              (Holds {| cap_index := index; cap_device := dev; cap_set := [] |},
               [Logged (Print attempting); Logged (Open index api true)])
      | _ =>
          match binding device_id api with
          | Refused =>
              (Raises cv2_error, [Logged (Print attempting); Construct device_id api])
          | Unopened =>
              match could_not with
              | inr e => (Raises e, [Logged (Print attempting); Construct device_id api])
              | inl could_not =>
                  (Ends,
                   [Logged (Print attempting); Construct device_id api;
                    Logged (Print could_not)])
              end
          | Opened =>
              (HoldsOther device_id,
               [Logged (Print attempting); Construct device_id api])
          end
      end
  end.

End first_lines.

(** Constructions of a capture object among such calls, by index or
    otherwise. *)
Definition is_construction (c : Call) : bool :=
  match c with
  | Logged e => is_open_call e
  | Construct _ _ => true
  end.

Definition constructions (log : list Call) : nat :=
  List.length (filter is_construction log).

(** A text of [n] digits, all of them 7. *)
Definition sevens (n : nat) : string := String.concat "" (repeat "7" n).

(** ** Theorems *)

Example str_examples : str 0 = "0" /\ str 7 = "7" /\ str (-5) = "-5" /\ str 120 = "120".
Proof. repeat split; reflexivity. Qed.

Example int_examples :
  int (PyStr " 12 ") = inl 12 /\ int (PyStr "1_000") = inl 1000 /\
  int (PyStr "-3") = inl (-3) /\ int (PyStr "007") = inl 7 /\
  int (PyStr "abc") = inr ValueError /\ int (PyStr "") = inr ValueError /\
  int (PyStr "1__0") = inr ValueError /\ int (PyStr "_1") = inr ValueError /\
  int (PyStr "1_") = inr ValueError /\ int (PyStr "- 3") = inr ValueError /\
  int (PyStr "0x10") = inr ValueError /\ int PyNone = inr TypeError.
Proof. repeat split; reflexivity. Qed.

(** The digit limit: a text of 4300 digits is within it, one of 4301
    is not and [int()] raises; a leading zero counts as a digit, a sign
    and blanks do not. *)
Example int_limit_examples :
  within_limit (sevens 4300) = true
  /\ within_limit (String.append " -" (sevens 4300)) = true
  /\ int (PyStr (sevens 4301)) = inr ValueError
  /\ int (PyStr (String.append "0" (sevens 4300))) = inr ValueError.
Proof. split; [|split; [|split]]; vm_compute; reflexivity. Qed.

(** *** The writer monad and counting *)

Lemma value_bind {A B : Type} (m : W A) (k : A -> W B) :
  value (bind m k) = value (k (value m)).
Proof. reflexivity. Qed.

Lemma trace_bind {A B : Type} (m : W A) (k : A -> W B) :
  trace (bind m k) = trace m ++ trace (k (value m)).
Proof. reflexivity. Qed.

Lemma count_app (p : Event -> bool) (l1 l2 : list Event) :
  count p (l1 ++ l2) = (count p l1 + count p l2)%nat.
Proof. unfold count. now rewrite filter_app, length_app. Qed.

Lemma opens_app (l1 l2 : list Event) : opens (l1 ++ l2) = (opens l1 + opens l2)%nat.
Proof. apply count_app. Qed.

Lemma releases_app (l1 l2 : list Event) :
  releases (l1 ++ l2) = (releases l1 + releases l2)%nat.
Proof. apply count_app. Qed.

Lemma open_calls_app (l1 l2 : list Event) :
  open_calls (l1 ++ l2) = (open_calls l1 + open_calls l2)%nat.
Proof. apply count_app. Qed.

(** *** The generator protocol *)

Section Protocol.

Context {A L : Type} (body : Body A L).

Lemma next_done : next body Done = ret (StopIteration, Done).
Proof. reflexivity. Qed.

Lemma run_next (ops : list Op) (g : Generator A L) :
  pulled (run body (Next :: ops) g)
    = fst (value (next body g)) :: pulled (run body ops (snd (value (next body g))))
  /\ final (run body (Next :: ops) g)
    = final (run body ops (snd (value (next body g))))
  /\ trace (run body (Next :: ops) g)
    = trace (next body g) ++ trace (run body ops (snd (value (next body g)))).
Proof.
  unfold pulled, final, value, trace; simpl. rewrite app_nil_r. auto.
Qed.

Lemma run_close (ops : list Op) (g : Generator A L) :
  pulled (run body (Close :: ops) g) = pulled (run body ops (value (close body g)))
  /\ final (run body (Close :: ops) g) = final (run body ops (value (close body g)))
  /\ trace (run body (Close :: ops) g)
    = trace (close body g) ++ trace (run body ops (value (close body g))).
Proof. unfold pulled, final, value, trace; simpl. auto. Qed.

Lemma run_app (ops1 ops2 : list Op) (g : Generator A L) :
  pulled (run body (ops1 ++ ops2) g)
    = pulled (run body ops1 g) ++ pulled (run body ops2 (final (run body ops1 g)))
  /\ final (run body (ops1 ++ ops2) g)
    = final (run body ops2 (final (run body ops1 g)))
  /\ trace (run body (ops1 ++ ops2) g)
    = trace (run body ops1 g) ++ trace (run body ops2 (final (run body ops1 g))).
Proof.
  revert g. induction ops1 as [|op ops1 IH]; intro g.
  - repeat split; reflexivity.
  - destruct op;
      [ change ((Next :: ops1) ++ ops2) with (Next :: (ops1 ++ ops2))
      | change ((Close :: ops1) ++ ops2) with (Close :: (ops1 ++ ops2)) ].
    + destruct (run_next (ops1 ++ ops2) g) as (-> & -> & ->).
      destruct (run_next ops1 g) as (-> & -> & ->).
      destruct (IH (snd (value (next body g)))) as (-> & -> & ->).
      now rewrite app_assoc.
    + destruct (run_close (ops1 ++ ops2) g) as (-> & -> & ->).
      destruct (run_close ops1 g) as (-> & -> & ->).
      destruct (IH (value (close body g))) as (-> & -> & ->).
      now rewrite app_assoc.
Qed.

(** A relation between the generator before, the calls issued, and the
    generator after that holds of every step and composes holds of every
    session. *)
Lemma run_invariant (R : Generator A L -> list Event -> Generator A L -> Prop) :
  (forall g, R g [] g) ->
  (forall g1 t1 g2 t2 g3, R g1 t1 g2 -> R g2 t2 g3 -> R g1 (t1 ++ t2) g3) ->
  (forall g, R g (trace (next body g)) (snd (value (next body g)))) ->
  (forall g, R g (trace (close body g)) (value (close body g))) ->
  forall ops g, R g (trace (run body ops g)) (final (run body ops g)).
Proof.
  intros Hnil Hcat Hnext Hclose. induction ops as [|op ops IH]; intro g.
  - apply Hnil.
  - destruct op.
    + destruct (run_next ops g) as (_ & -> & ->). eapply Hcat; [apply Hnext | apply IH].
    + destruct (run_close ops g) as (_ & -> & ->). eapply Hcat; [apply Hclose | apply IH].
Qed.

End Protocol.

(** Once a generator has ended, nothing a consumer does reaches the device. *)
Lemma run_done {A L : Type} (body : Body A L) (ops : list Op) :
  trace (run body ops Done) = []
  /\ final (run body ops Done) = Done
  /\ Forall (fun r => r = StopIteration) (pulled (run body ops Done)).
Proof.
  induction ops as [|op ops (IHt & IHf & IHp)].
  - repeat split. constructor.
  - destruct op.
    + destruct (run_next body ops Done) as (-> & -> & ->). simpl.
      repeat split; auto.
    + destruct (run_close body ops Done) as (-> & -> & ->). simpl.
      repeat split; auto.
Qed.

(** Discarding the generator ends it, whatever happened before. *)
Lemma run_then_close {A L : Type} (body : Body A L) (ops : list Op) (g : Generator A L) :
  final (run body (ops ++ [Close]) g) = Done.
Proof.
  destruct (run_app body ops [Close] g) as (_ & -> & _).
  destruct (final (run body ops g)); reflexivity.
Qed.

Section Chunks.

Context {A L : Type} (body : Body A L) (chunks_left : L -> list bytes).

Hypothesis resume_chunks : forall l,
  match value (resume body l) with
  | Yielded c l' => chunks_left l = c :: chunks_left l'
  | Returned => chunks_left l = []
  end.

Lemma next_ahead (g : Generator A L) :
  match fst (value (next body g)) with
  | Chunk c =>
      chunks_ahead body chunks_left g
        = c :: chunks_ahead body chunks_left (snd (value (next body g)))
      /\ holds (snd (value (next body g))) = 1%nat
  | StopIteration =>
      chunks_ahead body chunks_left g = [] /\ snd (value (next body g)) = Done
  end.
Proof.
  destruct g as [args | l |]; unfold next; rewrite ?value_bind; simpl.
  - destruct (value (enter body args)); simpl; auto.
  - specialize (resume_chunks l).
    destruct (value (resume body l)); simpl; auto.
  - auto.
Qed.

(** [n] pulls give the first [n] chunks ahead, then [StopIteration]. *)
Lemma pulls (n : nat) (g : Generator A L) :
  pulled (run body (repeat Next n) g)
    = map Chunk (firstn n (chunks_ahead body chunks_left g))
      ++ repeat StopIteration (n - List.length (chunks_ahead body chunks_left g)).
Proof.
  revert g. induction n as [|n IH]; intro g; [reflexivity|].
  simpl repeat. destruct (run_next body (repeat Next n) g) as (-> & _ & _).
  rewrite IH. pose proof (next_ahead g) as H.
  destruct (fst (value (next body g))) as [c|].
  - destruct H as (-> & _). reflexivity.
  - destruct H as (-> & ->). simpl. now rewrite Nat.sub_0_r, firstn_nil.
Qed.

Lemma pulls_final (n : nat) (g : Generator A L) :
  chunks_ahead body chunks_left (final (run body (repeat Next n) g)) = skipn n (chunks_ahead body chunks_left g)
  /\ (List.length (chunks_ahead body chunks_left g) < n -> final (run body (repeat Next n) g) = Done)%nat
  /\ (0 < n <= List.length (chunks_ahead body chunks_left g) ->
      holds (final (run body (repeat Next n) g)) = 1)%nat.
Proof.
  revert g. induction n as [|n IH]; intro g.
  - repeat split; intros; lia.
  - simpl repeat. destruct (run_next body (repeat Next n) g) as (_ & -> & _).
    pose proof (next_ahead g) as H.
    destruct (IH (snd (value (next body g)))) as (IHa & IHd & IHh).
    destruct (fst (value (next body g))) as [c|].
    + destruct H as (Hc & Hh). rewrite Hc. simpl. repeat split.
      * exact IHa.
      * intro. apply IHd. lia.
      * intro. destruct n as [|n]; [exact Hh | apply IHh; lia].
    + destruct H as (Hc & Hd). rewrite Hc, Hd in *. simpl. repeat split.
      * now rewrite IHa, skipn_nil.
      * intro. apply (proj1 (proj2 (run_done body (repeat Next n)))).
      * intro. lia.
Qed.

End Chunks.

Section Handles.

Context {A L : Type} (body : Body A L).

Hypothesis enter_handles : forall args,
  (opens (trace (enter body args))
     = releases (trace (enter body args))
       + holds (snd (settle (A:=A) (value (enter body args))))
   /\ opens (trace (enter body args)) <= 1)%nat.

Hypothesis resume_handles : forall l,
  (opens (trace (resume body l)) = 0
   /\ releases (trace (resume body l))
      + holds (snd (settle (A:=A) (value (resume body l)))) = 1)%nat.

Hypothesis unwind_handles : forall l,
  (opens (trace (unwind body l)) = 0 /\ releases (trace (unwind body l)) = 1)%nat.

(** Every handle opened is either released or still held. *)
Lemma handles_conserved (ops : list Op) (g : Generator A L) :
  (holds g + opens (trace (run body ops g))
   = releases (trace (run body ops g)) + holds (final (run body ops g)))%nat.
Proof.
  revert ops g.
  apply (run_invariant body (fun g t g' =>
           (holds g + opens t = releases t + holds g')%nat)).
  - intro g. cbn. lia.
  - intros g1 t1 g2 t2 g3 H1 H2. rewrite opens_app, releases_app. lia.
  - intros [args | l |]; unfold next; rewrite ?trace_bind, ?value_bind;
      simpl trace; rewrite ?app_nil_r.
    + destruct (enter_handles args). simpl holds at 1. simpl value. lia.
    + destruct (resume_handles l). simpl holds at 1. simpl value. lia.
    + reflexivity.
  - intros [args | l |]; unfold close; rewrite ?trace_bind, ?value_bind;
      simpl trace; rewrite ?app_nil_r; simpl value.
    + reflexivity.
    + destruct (unwind_handles l). simpl holds. lia.
    + reflexivity.
Qed.

(** Only the first entry into the body opens a device, and only once. *)
Lemma opens_once (ops : list Op) (g : Generator A L) :
  (opens (trace (run body ops g)) + unstarted (final (run body ops g))
   <= unstarted g)%nat.
Proof.
  revert ops g.
  apply (run_invariant body (fun g t g' =>
           (opens t + unstarted g' <= unstarted g)%nat)).
  - intro g. cbn. lia.
  - intros g1 t1 g2 t2 g3 H1 H2. rewrite opens_app. lia.
  - intros [args | l |]; unfold next; rewrite ?trace_bind, ?value_bind;
      simpl trace; rewrite ?app_nil_r; simpl value.
    + destruct (enter_handles args).
      destruct (value (enter body args)); simpl; lia.
    + destruct (resume_handles l) as (-> & _).
      destruct (value (resume body l)); simpl; lia.
    + simpl. lia.
  - intros [args | l |]; unfold close; rewrite ?trace_bind, ?value_bind;
      simpl trace; rewrite ?app_nil_r; simpl value.
    + simpl. lia.
    + destruct (unwind_handles l) as (-> & _). simpl. lia.
    + simpl. lia.
Qed.

(** From a fresh generator: at most one open, never more releases than
    opens, and as many once the generator has ended. *)
Lemma session_handles (ops : list Op) (args : A) :
  let r := run body ops (Fresh args) in
  (opens (trace r) <= 1
   /\ releases (trace r) <= opens (trace r)
   /\ (final r = Done -> releases (trace r) = opens (trace r)))%nat.
Proof.
  intro r. pose proof (handles_conserved ops (Fresh args)) as Hc.
  pose proof (opens_once ops (Fresh args)) as Ho.
  fold r in Hc, Ho. simpl in Hc, Ho. repeat split; try lia.
  intro Hd. rewrite Hd in Hc. simpl in Hc. lia.
Qed.

End Handles.

Lemma chunks_of_cons be params frame frames :
  chunks_of be params (frame :: frames)
  = if fst (encoder be ".jpg" frame params)
    then multipart_unit (snd (encoder be ".jpg" frame params)) :: chunks_of be params frames
    else chunks_of be params frames.
Proof.
  unfold chunks_of, compresses, jpeg. simpl.
  destruct (fst (encoder be ".jpg" frame params)); reflexivity.
Qed.

(** *** The streaming loop of [camera_module.generate_frames] *)

(** The chunk the code assembles is the unit of the wire format. *)
Lemma chunk_is_multipart_unit (frame_bytes : bytes) :
  b "--frame" ++ CRLF ++ b "Content-Type: image/jpeg" ++ CRLF ++ CRLF ++ frame_bytes ++ CRLF
  = multipart_unit frame_bytes.
Proof. reflexivity. Qed.

(** What each call returns and what it logs. *)
Lemma W_ext {A : Type} (m : W A) (a : A) (log : list Event) :
  value m = a -> trace m = log -> m = (a, log).
Proof. destruct m. simpl. congruence. Qed.

Lemma value_ret {A : Type} (a : A) : value (ret a) = a.
Proof. reflexivity. Qed.

Lemma trace_ret {A : Type} (a : A) : trace (ret a) = [].
Proof. reflexivity. Qed.

Lemma trace_emit (e : Event) : trace (emit e) = [e].
Proof. reflexivity. Qed.

Lemma trace_print (text : string) : trace (print text) = [Print text].
Proof. reflexivity. Qed.

Lemma value_VideoCapture be index api :
  value (cv2.VideoCapture be index api)
  = {| cap_index := index; cap_device := device be index api; cap_set := [] |}.
Proof. reflexivity. Qed.

Lemma trace_VideoCapture be index api :
  trace (cv2.VideoCapture be index api)
  = [Open index api (dev_opened (device be index api))].
Proof. reflexivity. Qed.

Lemma value_set cap prop v :
  value (cv2.set cap prop v)
  = {| cap_index := cap_index cap; cap_device := cap_device cap;
       cap_set := cap_set cap ++ [(prop, v)] |}.
Proof. reflexivity. Qed.

Lemma trace_set cap prop v :
  trace (cv2.set cap prop v) = [SetProp (cap_index cap) prop v].
Proof. reflexivity. Qed.

Lemma value_get cap prop :
  value (cv2.get cap prop) = dev_get (cap_device cap) (cap_set cap) prop.
Proof. reflexivity. Qed.

Lemma trace_get cap prop :
  trace (cv2.get cap prop)
  = [GetProp (cap_index cap) prop (dev_get (cap_device cap) (cap_set cap) prop)].
Proof. reflexivity. Qed.

Lemma trace_release cap : trace (cv2.release cap) = [Release (cap_index cap)].
Proof. reflexivity. Qed.

Lemma value_imencode be ext frame params :
  value (cv2.imencode be ext frame params) = encoder be ext frame params.
Proof. reflexivity. Qed.

Lemma trace_imencode be ext frame params :
  trace (cv2.imencode be ext frame params)
  = [Encode ext params (fst (encoder be ext frame params))].
Proof. reflexivity. Qed.

Create Rewrite HintDb pipeline.
#[local] Hint Rewrite @value_bind @trace_bind @value_ret @trace_ret trace_emit trace_print
  value_VideoCapture trace_VideoCapture value_set trace_set value_get trace_get
  trace_release value_imencode trace_imencode : pipeline.

(** Runs straight-line code: each call is replaced by its result and its
    log entry. *)
Ltac straight_line :=
  repeat (autorewrite with pipeline; unfold cv2.isOpened;
          cbn [cap_device cap_index cap_set negb fst snd app]).

(** The loop, with [cap.read()] as a call. *)
Lemma camera_module_streaming_unfold be device_id cap pending :
  camera_module.streaming be device_id cap pending
  = (r <- cv2.read cap pending ;;
     match r with
     | (true, Some frame, pending) =>
         r <- cv2.imencode be ".jpg" frame [] ;;
         if negb (fst r) then
           print "Failed to encode frame." ;;
           camera_module.streaming be device_id cap pending
         else
           ret (Yielded (b "--frame" ++ CRLF ++ b "Content-Type: image/jpeg"
                         ++ CRLF ++ CRLF ++ snd r ++ CRLF)
                        {| camera_module.device_id := device_id;
                           camera_module.cap := cap;
                           camera_module.pending := pending |})
     | _ =>
         print (f ["Cannot read frame from device "; format device_id;
                   ". It might be disconnected."]) ;;
         camera_module.finally_ device_id cap ;;
         ret Returned
     end).
Proof. destruct pending; reflexivity. Qed.

Lemma camera_module_streaming_chunks be device_id cap pending :
  match value (camera_module.streaming be device_id cap pending) with
  | Yielded c l' =>
      chunks_of be no_params pending = c :: chunks_of be no_params (camera_module.pending l')
  | Returned => chunks_of be no_params pending = []
  end.
Proof.
  induction pending as [|frame pending IH]; [reflexivity|].
  rewrite chunks_of_cons. unfold no_params in *.
  simpl camera_module.streaming. rewrite !value_bind.
  change (value (cv2.imencode be ".jpg" frame [])) with (encoder be ".jpg" frame []).
  destruct (fst (encoder be ".jpg" frame [])); simpl negb; cbv iota.
  - reflexivity.
  - rewrite value_bind. exact IH.
Qed.

Lemma camera_module_streaming_handles be device_id cap pending :
  let r := camera_module.streaming be device_id cap pending in
  (opens (trace r) = 0
   /\ releases (trace r)
      + holds (snd (settle (A:=PyVal * (Z * Z)) (value r))) = 1)%nat.
Proof.
  induction pending as [|frame pending IH]; [split; reflexivity|].
  simpl camera_module.streaming. cbv zeta in *.
  rewrite !trace_bind, !value_bind, !opens_app, !releases_app. simpl value at 1 3 4 6.
  destruct (fst (encoder be ".jpg" frame [])) eqn:E; simpl negb; cbv iota.
  - split; reflexivity.
  - rewrite !trace_bind, !value_bind, !opens_app, !releases_app.
    destruct IH as (-> & IH). split; [reflexivity|]. exact IH.
Qed.

(** *** The prologue of [camera_module.generate_frames] *)

Lemma camera_module_enter_invalid be device_id resolution e :
  int device_id = inr e ->
  enter (camera_module.generate_frames_body be) (device_id, resolution)
  = (Returned,
     [Print (f ["Attempting to open device "; format device_id; " with resolution ";
                str (fst resolution); "x"; str (snd resolution); "..."]);
      Print (f ["Error: Invalid device ID '"; format device_id;
                "'. It must be an integer."])]).
Proof.
  intro H. apply W_ext; cbn [enter camera_module.generate_frames_body fst snd];
    rewrite H; destruct e; straight_line; reflexivity.
Qed.

Lemma camera_module_enter_closed be device_id resolution z :
  int device_id = inl z ->
  dev_opened (device be z (platform_api be)) = false ->
  enter (camera_module.generate_frames_body be) (device_id, resolution)
  = (Returned,
     [Print (f ["Attempting to open device "; format device_id; " with resolution ";
                str (fst resolution); "x"; str (snd resolution); "..."]);
      Open z (platform_api be) false;
      Print (f ["Error: Could not open video device "; format device_id; "."])]).
Proof.
  intros H Hc. unfold platform_api in *.
  apply W_ext; cbn [enter camera_module.generate_frames_body fst snd]; rewrite H;
    destruct (String.eqb (platform_system be) "Windows");
    straight_line; rewrite Hc; straight_line; reflexivity.
Qed.

Lemma camera_module_enter_open be device_id resolution z :
  int device_id = inl z ->
  dev_opened (device be z (platform_api be)) = true ->
  let dev := device be z (platform_api be) in
  let loop := camera_module.streaming be device_id (configured z dev resolution)
                (dev_frames dev) in
  value (enter (camera_module.generate_frames_body be) (device_id, resolution))
  = value loop
  /\ trace (enter (camera_module.generate_frames_body be) (device_id, resolution))
  = [Print (f ["Attempting to open device "; format device_id; " with resolution ";
               str (fst resolution); "x"; str (snd resolution); "..."]);
     Open z (platform_api be) true;
     SetProp z cv2.CAP_PROP_FRAME_WIDTH (fst resolution);
     SetProp z cv2.CAP_PROP_FRAME_HEIGHT (snd resolution);
     Sleep 1;
     GetProp z cv2.CAP_PROP_FRAME_WIDTH (fst (negotiated dev resolution));
     GetProp z cv2.CAP_PROP_FRAME_HEIGHT (snd (negotiated dev resolution));
     Print (f ["Actual resolution for device "; format device_id; ": ";
               str (fst (negotiated dev resolution)); "x";
               str (snd (negotiated dev resolution))])]
    ++ trace loop.
Proof.
  intros H Ho. unfold platform_api in *.
  split; cbn [enter camera_module.generate_frames_body fst snd]; rewrite H;
    destruct (String.eqb (platform_system be) "Windows");
    straight_line; rewrite Ho; straight_line; reflexivity.
Qed.

Lemma camera_module_enter_handles be args :
  (opens (trace (enter (camera_module.generate_frames_body be) args))
   = releases (trace (enter (camera_module.generate_frames_body be) args))
     + holds (snd (settle (A:=PyVal * (Z * Z))
                     (value (enter (camera_module.generate_frames_body be) args))))
   /\ opens (trace (enter (camera_module.generate_frames_body be) args)) <= 1)%nat.
Proof.
  destruct args as (device_id, resolution).
  destruct (int device_id) as [z|e] eqn:Hint.
  - destruct (dev_opened (device be z (platform_api be))) eqn:Ho.
    + destruct (camera_module_enter_open be device_id resolution z Hint Ho) as (-> & ->).
      pose proof (camera_module_streaming_handles be device_id
                    (configured z (device be z (platform_api be)) resolution)
                    (dev_frames (device be z (platform_api be)))) as (H0 & H1).
      cbv zeta in H0, H1. rewrite opens_app, releases_app, H0. cbn. lia.
    + rewrite (camera_module_enter_closed be device_id resolution z Hint Ho). cbn. lia.
  - rewrite (camera_module_enter_invalid be device_id resolution e Hint). cbn. lia.
Qed.

Lemma camera_module_unwind_handles be l :
  (opens (trace (unwind (camera_module.generate_frames_body be) l)) = 0
   /\ releases (trace (unwind (camera_module.generate_frames_body be) l)) = 1)%nat.
Proof. split; reflexivity. Qed.

(** Every [imencode] call of the loop passes no parameters, and there is
    one call per frame read. *)
Lemma camera_module_streaming_encodes be device_id cap pending :
  let r := camera_module.streaming be device_id cap pending in
  Forall (fun params => params = no_params) (encode_params (trace r))
  /\ count is_encode (trace r) = count is_read_ok (trace r).
Proof.
  induction pending as [|frame pending IH]; [split; [constructor | reflexivity]|].
  simpl camera_module.streaming. cbv zeta in *.
  rewrite !trace_bind, ?value_bind, !count_app.
  change (value (cv2.imencode be ".jpg" frame [])) with (encoder be ".jpg" frame []).
  unfold encode_params in *. rewrite !flat_map_app.
  destruct (fst (encoder be ".jpg" frame [])); simpl negb; cbv iota.
  - split; [repeat constructor | reflexivity].
  - destruct IH as (IH1 & IH2). rewrite !trace_bind, !count_app, !flat_map_app, IH2.
    split; [|reflexivity]. constructor; [reflexivity | exact IH1].
Qed.

(** *** The streaming loop and the prologue of [CameraManager.generate_frames] *)

Lemma CameraManager_streaming_unfold be device_id cap pending :
  CameraManager.streaming be device_id cap pending
  = (r <- cv2.read cap pending ;;
     match r with
     | (true, Some frame, pending) =>
         r <- cv2.imencode be ".jpg" frame [cv2.IMWRITE_JPEG_QUALITY; 80] ;;
         if negb (fst r) then
           print "Failed to encode frame." ;;
           CameraManager.streaming be device_id cap pending
         else
           ret (Yielded (b "--frame" ++ CRLF ++ b "Content-Type: image/jpeg"
                         ++ CRLF ++ CRLF ++ snd r ++ CRLF)
                        {| CameraManager.device_id := device_id;
                           CameraManager.cap := cap;
                           CameraManager.pending := pending |})
     | _ =>
         print (f ["Cannot read frame from device "; str device_id;
                   ". It might be disconnected."]) ;;
         CameraManager.finally_ device_id cap ;;
         ret Returned
     end).
Proof. destruct pending; reflexivity. Qed.

Lemma CameraManager_streaming_chunks be device_id cap pending :
  match value (CameraManager.streaming be device_id cap pending) with
  | Yielded c l' =>
      chunks_of be quality_80 pending
      = c :: chunks_of be quality_80 (CameraManager.pending l')
  | Returned => chunks_of be quality_80 pending = []
  end.
Proof.
  induction pending as [|frame pending IH]; [reflexivity|].
  rewrite chunks_of_cons. unfold quality_80 in *.
  simpl CameraManager.streaming. rewrite !value_bind.
  change (value (cv2.imencode be ".jpg" frame [cv2.IMWRITE_JPEG_QUALITY; 80]))
    with (encoder be ".jpg" frame [cv2.IMWRITE_JPEG_QUALITY; 80]).
  destruct (fst (encoder be ".jpg" frame [cv2.IMWRITE_JPEG_QUALITY; 80]));
    simpl negb; cbv iota.
  - reflexivity.
  - rewrite value_bind. exact IH.
Qed.

Lemma CameraManager_streaming_handles be device_id cap pending :
  let r := CameraManager.streaming be device_id cap pending in
  (opens (trace r) = 0
   /\ releases (trace r)
      + holds (snd (settle (A:=Z * (Z * Z)) (value r))) = 1)%nat.
Proof.
  induction pending as [|frame pending IH]; [split; reflexivity|].
  simpl CameraManager.streaming. cbv zeta in *.
  rewrite !trace_bind, !value_bind, !opens_app, !releases_app. simpl value at 1 3 4 6.
  destruct (fst (encoder be ".jpg" frame [cv2.IMWRITE_JPEG_QUALITY; 80]));
    simpl negb; cbv iota.
  - split; reflexivity.
  - rewrite !trace_bind, !value_bind, !opens_app, !releases_app.
    destruct IH as (-> & IH). split; [reflexivity|]. exact IH.
Qed.

(** Every [imencode] call of the loop passes JPEG quality 80, and there
    is one call per frame read. *)
Lemma CameraManager_streaming_encodes be device_id cap pending :
  let r := CameraManager.streaming be device_id cap pending in
  Forall (fun params => params = quality_80) (encode_params (trace r))
  /\ count is_encode (trace r) = count is_read_ok (trace r).
Proof.
  induction pending as [|frame pending IH]; [split; [constructor | reflexivity]|].
  simpl CameraManager.streaming. cbv zeta in *.
  rewrite !trace_bind, ?value_bind, !count_app.
  change (value (cv2.imencode be ".jpg" frame [cv2.IMWRITE_JPEG_QUALITY; 80]))
    with (encoder be ".jpg" frame [cv2.IMWRITE_JPEG_QUALITY; 80]).
  unfold encode_params in *. rewrite !flat_map_app.
  destruct (fst (encoder be ".jpg" frame [cv2.IMWRITE_JPEG_QUALITY; 80]));
    simpl negb; cbv iota.
  - split; [repeat constructor | reflexivity].
  - destruct IH as (IH1 & IH2). rewrite !trace_bind, !count_app, !flat_map_app, IH2.
    split; [|reflexivity]. constructor; [reflexivity | exact IH1].
Qed.

Lemma CameraManager_enter_closed be self device_id resolution :
  dev_opened (device be device_id (Some (CameraManager.backend self))) = false ->
  enter (CameraManager.generate_frames_body be self) (device_id, resolution)
  = (Returned,
     [Print (f ["Attempting to open device "; str device_id; " with resolution ";
                str (fst resolution); "x"; str (snd resolution); "..."]);
      Open device_id (Some (CameraManager.backend self)) false;
      Print (f ["Error: Could not open video device "; str device_id; "."])]).
Proof.
  intro Hc.
  apply W_ext; cbn [enter CameraManager.generate_frames_body fst snd];
    straight_line; rewrite Hc; straight_line; reflexivity.
Qed.

Lemma CameraManager_enter_open be self device_id resolution :
  dev_opened (device be device_id (Some (CameraManager.backend self))) = true ->
  let dev := device be device_id (Some (CameraManager.backend self)) in
  let loop := CameraManager.streaming be device_id (configured device_id dev resolution)
                (dev_frames dev) in
  value (enter (CameraManager.generate_frames_body be self) (device_id, resolution))
  = value loop
  /\ trace (enter (CameraManager.generate_frames_body be self) (device_id, resolution))
  = [Print (f ["Attempting to open device "; str device_id; " with resolution ";
               str (fst resolution); "x"; str (snd resolution); "..."]);
     Open device_id (Some (CameraManager.backend self)) true;
     SetProp device_id cv2.CAP_PROP_FRAME_WIDTH (fst resolution);
     SetProp device_id cv2.CAP_PROP_FRAME_HEIGHT (snd resolution);
     GetProp device_id cv2.CAP_PROP_FRAME_WIDTH (fst (negotiated dev resolution));
     GetProp device_id cv2.CAP_PROP_FRAME_HEIGHT (snd (negotiated dev resolution));
     Print (f ["Actual resolution for device "; str device_id; ": ";
               str (fst (negotiated dev resolution)); "x";
               str (snd (negotiated dev resolution))])]
    ++ (if negb (fst (negotiated dev resolution) =? fst resolution)
           || negb (snd (negotiated dev resolution) =? snd resolution)
        then [Print "Warning: The camera does not support the requested resolution. Using default."]
        else [])
    ++ trace loop.
Proof.
  intro Ho.
  split; cbn [enter CameraManager.generate_frames_body fst snd];
    straight_line; rewrite Ho; straight_line;
    unfold negotiated, requested; cbn [fst snd];
    try destruct (negb _ || negb _); straight_line; reflexivity.
Qed.

Lemma CameraManager_enter_handles be self args :
  (opens (trace (enter (CameraManager.generate_frames_body be self) args))
   = releases (trace (enter (CameraManager.generate_frames_body be self) args))
     + holds (snd (settle (A:=Z * (Z * Z))
                     (value (enter (CameraManager.generate_frames_body be self) args))))
   /\ opens (trace (enter (CameraManager.generate_frames_body be self) args)) <= 1)%nat.
Proof.
  destruct args as (device_id, resolution).
  destruct (dev_opened (device be device_id (Some (CameraManager.backend self)))) eqn:Ho.
  - destruct (CameraManager_enter_open be self device_id resolution Ho) as (-> & ->).
    pose proof (CameraManager_streaming_handles be device_id
                  (configured device_id
                     (device be device_id (Some (CameraManager.backend self))) resolution)
                  (dev_frames (device be device_id (Some (CameraManager.backend self)))))
      as (H0 & H1).
    cbv zeta in H0, H1. rewrite !opens_app, !releases_app, H0.
    destruct (negb _ || negb _); cbn; lia.
  - rewrite (CameraManager_enter_closed be self device_id resolution Ho). cbn. lia.
Qed.

Lemma CameraManager_unwind_handles be self l :
  (opens (trace (unwind (CameraManager.generate_frames_body be self) l)) = 0
   /\ releases (trace (unwind (CameraManager.generate_frames_body be self) l)) = 1)%nat.
Proof. split; reflexivity. Qed.

(** *** Sessions of a generator that opens one handle *)

(** A body that returns at once never gives a chunk, and all it ever
    issues is what its first entry issues. *)
Lemma run_returned {A L : Type} (body : Body A L) (args : A) :
  value (enter body args) = Returned ->
  forall ops,
    let r := run body ops (Fresh args) in
    Forall (fun p => p = StopIteration) (pulled r)
    /\ (trace r = [] \/ trace r = trace (enter body args))
    /\ (final r = Fresh args \/ final r = Done).
Proof.
  intros Hret ops. induction ops as [|op ops IH]; cbv zeta in *.
  - repeat split; auto.
  - destruct (run_done body ops) as (Ht & Hf & Hp). destruct op.
    + destruct (run_next body ops (Fresh args)) as (-> & -> & ->).
      unfold next. rewrite !value_bind, trace_bind, Hret. simpl settle.
      simpl value. simpl trace. simpl fst. simpl snd.
      rewrite Ht, Hf, !app_nil_r. repeat split; auto.
    + destruct (run_close body ops (Fresh args)) as (-> & -> & ->).
      simpl close. simpl value. simpl trace. rewrite Ht, Hf.
      repeat split; auto.
Qed.

Lemma returned_empty_sequence {A L : Type} (body : Body A L) (args : A) :
  value (enter body args) = Returned -> empty_sequence body (Fresh args).
Proof.
  intros Hret ops. split.
  - apply (run_returned body args Hret ops).
  - destruct (run_next body ops (Fresh args)) as (-> & _). discriminate.
Qed.

Section Sessions.

Context {A L : Type} (body : Body A L) (chunks_left : L -> list bytes).

Hypothesis resume_chunks : forall l,
  match value (resume body l) with
  | Yielded c l' => chunks_left l = c :: chunks_left l'
  | Returned => chunks_left l = []
  end.

Hypothesis enter_handles : forall args,
  (opens (trace (enter body args))
     = releases (trace (enter body args))
       + holds (snd (settle (A:=A) (value (enter body args))))
   /\ opens (trace (enter body args)) <= 1)%nat.

Hypothesis resume_handles : forall l,
  (opens (trace (resume body l)) = 0
   /\ releases (trace (resume body l))
      + holds (snd (settle (A:=A) (value (resume body l)))) = 1)%nat.

Hypothesis unwind_handles : forall l,
  (opens (trace (unwind body l)) = 0 /\ releases (trace (unwind body l)) = 1)%nat.

(** Whatever follows, the opens of a session are those of its first pull. *)
Lemma opens_first (ops : list Op) (args : A) :
  opens (trace (run body (Next :: ops) (Fresh args))) = opens (trace (enter body args)).
Proof.
  destruct (run_next body ops (Fresh args)) as (_ & _ & ->).
  rewrite opens_app.
  pose proof (opens_once body enter_handles resume_handles unwind_handles ops
                (snd (value (next body (Fresh args))))) as H.
  unfold next in *. rewrite trace_bind, value_bind in *. simpl trace. rewrite app_nil_r.
  destruct (value (enter body args)); simpl in *; lia.
Qed.

(** Pulled to the end, a generator whose device opened gives the chunks
    ahead, ends, and has released once. *)
Lemma fresh_exhausts (args : A) (chunks : list bytes) :
  opens (trace (enter body args)) = 1%nat ->
  chunks_ahead body chunks_left (Fresh args) = chunks ->
  exhausts body (Fresh args) chunks.
Proof.
  intros Ho Hc extra r.
  assert (Hd : final r = Done).
  { apply (pulls_final body chunks_left resume_chunks). rewrite Hc. lia. }
  repeat split.
  - unfold r. rewrite (pulls body chunks_left resume_chunks), Hc.
    rewrite firstn_all2 by lia. f_equal. f_equal. lia.
  - exact Hd.
  - destruct (session_handles body enter_handles resume_handles unwind_handles
                (repeat Next (List.length chunks + 1 + extra)) args) as (_ & _ & H).
    fold r in H. rewrite (H Hd). unfold r.
    replace (List.length chunks + 1 + extra)%nat
      with (S (List.length chunks + extra)) by lia.
    simpl repeat. rewrite opens_first. exact Ho.
Qed.

(** After [M] chunks the handle is still held and unreleased; discarding
    the generator then releases it, once. *)
Lemma fresh_abandoned (args : A) (M : nat) :
  opens (trace (enter body args)) = 1%nat ->
  (0 < M <= List.length (chunks_ahead body chunks_left (Fresh args)))%nat ->
  let r := run body (repeat Next M) (Fresh args) in
  let r' := run body (repeat Next M ++ [Close]) (Fresh args) in
  pulled r = map Chunk (firstn M (chunks_ahead body chunks_left (Fresh args)))
  /\ holds (final r) = 1%nat
  /\ releases (trace r) = 0%nat
  /\ pulled r' = pulled r
  /\ final r' = Done
  /\ releases (trace r') = 1%nat.
Proof.
  intros Ho HM r r'.
  assert (Hh : holds (final r) = 1%nat).
  { apply (pulls_final body chunks_left resume_chunks). exact HM. }
  assert (Hor : opens (trace r) = 1%nat).
  { unfold r. destruct M as [|M]; [lia|]. simpl repeat. now rewrite opens_first. }
  pose proof (handles_conserved body enter_handles resume_handles unwind_handles
                (repeat Next M) (Fresh args)) as Hc.
  fold r in Hc. simpl holds at 1 in Hc.
  destruct (run_app body (repeat Next M) [Close] (Fresh args)) as (Hp & Hf & Ht).
  fold r r' in Hp, Hf, Ht.
  assert (Hd : final r' = Done) by apply run_then_close.
  pose proof (handles_conserved body enter_handles resume_handles unwind_handles
                (repeat Next M ++ [Close]) (Fresh args)) as Hc'.
  fold r' in Hc'. rewrite Hd in Hc'. simpl holds in Hc'.
  assert (Hor' : opens (trace r') = 1%nat).
  { unfold r'. destruct M as [|M]; [lia|]. simpl repeat.
    change ((Next :: repeat Next M) ++ [Close]) with (Next :: (repeat Next M ++ [Close])).
    now rewrite opens_first. }
  repeat split; try lia.
  - unfold r. rewrite (pulls body chunks_left resume_chunks).
    replace (M - _)%nat with 0%nat by lia. simpl. now rewrite app_nil_r.
  - rewrite Hp. destruct (final r); simpl; now rewrite app_nil_r.
  - exact Hd.
Qed.

End Sessions.

(** *** Sessions of the two pipelines *)

Lemma opens_1_loop (prefix log : list Event) :
  opens prefix = 1%nat -> opens log = 0%nat -> opens (prefix ++ log) = 1%nat.
Proof. intros H1 H2. rewrite opens_app. lia. Qed.

Lemma camera_module_open_session be device_id resolution z :
  int device_id = inl z ->
  dev_opened (device be z (platform_api be)) = true ->
  opens (trace (enter (camera_module.generate_frames_body be) (device_id, resolution)))
  = 1%nat
  /\ chunks_ahead (camera_module.generate_frames_body be)
       (fun l => chunks_of be no_params (camera_module.pending l))
       (camera_module.generate_frames device_id resolution)
     = chunks_of be no_params (dev_frames (device be z (platform_api be))).
Proof.
  intros Hint Ho.
  destruct (camera_module_enter_open be device_id resolution z Hint Ho) as (Hv & Ht).
  cbv zeta in Hv, Ht. split.
  - rewrite Ht. apply opens_1_loop; [reflexivity|].
    apply camera_module_streaming_handles.
  - unfold camera_module.generate_frames, chunks_ahead. rewrite Hv.
    pose proof (camera_module_streaming_chunks be device_id
                  (configured z (device be z (platform_api be)) resolution)
                  (dev_frames (device be z (platform_api be)))) as H.
    destruct (value (camera_module.streaming _ _ _ _)); now rewrite H.
Qed.

Lemma CameraManager_open_session be self device_id resolution :
  dev_opened (device be device_id (Some (CameraManager.backend self))) = true ->
  opens (trace (enter (CameraManager.generate_frames_body be self) (device_id, resolution)))
  = 1%nat
  /\ chunks_ahead (CameraManager.generate_frames_body be self)
       (fun l => chunks_of be quality_80 (CameraManager.pending l))
       (CameraManager.generate_frames device_id resolution)
     = chunks_of be quality_80
         (dev_frames (device be device_id (Some (CameraManager.backend self)))).
Proof.
  intro Ho.
  destruct (CameraManager_enter_open be self device_id resolution Ho) as (Hv & Ht).
  cbv zeta in Hv, Ht. split.
  - rewrite Ht, app_assoc. apply opens_1_loop.
    + destruct (negb _ || negb _); reflexivity.
    + apply CameraManager_streaming_handles.
  - unfold CameraManager.generate_frames, chunks_ahead. rewrite Hv.
    pose proof (CameraManager_streaming_chunks be device_id
                  (configured device_id
                     (device be device_id (Some (CameraManager.backend self))) resolution)
                  (dev_frames (device be device_id (Some (CameraManager.backend self)))))
      as H.
    destruct (value (CameraManager.streaming _ _ _ _)); now rewrite H.
Qed.

Lemma camera_module_exhausts be device_id resolution z :
  int device_id = inl z ->
  dev_opened (device be z (platform_api be)) = true ->
  exhausts (camera_module.generate_frames_body be)
    (camera_module.generate_frames device_id resolution)
    (chunks_of be no_params (dev_frames (device be z (platform_api be)))).
Proof.
  intros Hint Ho.
  destruct (camera_module_open_session be device_id resolution z Hint Ho) as (H1 & H2).
  apply (fresh_exhausts (camera_module.generate_frames_body be)
           (fun l => chunks_of be no_params (camera_module.pending l))).
  - intro l. apply camera_module_streaming_chunks.
  - apply camera_module_enter_handles.
  - intro l. apply camera_module_streaming_handles.
  - apply camera_module_unwind_handles.
  - exact H1.
  - exact H2.
Qed.

Lemma CameraManager_exhausts be self device_id resolution :
  dev_opened (device be device_id (Some (CameraManager.backend self))) = true ->
  exhausts (CameraManager.generate_frames_body be self)
    (CameraManager.generate_frames device_id resolution)
    (chunks_of be quality_80
       (dev_frames (device be device_id (Some (CameraManager.backend self))))).
Proof.
  intro Ho.
  destruct (CameraManager_open_session be self device_id resolution Ho) as (H1 & H2).
  apply (fresh_exhausts (CameraManager.generate_frames_body be self)
           (fun l => chunks_of be quality_80 (CameraManager.pending l))).
  - intro l. apply CameraManager_streaming_chunks.
  - apply CameraManager_enter_handles.
  - intro l. apply CameraManager_streaming_handles.
  - apply CameraManager_unwind_handles.
  - exact H1.
  - exact H2.
Qed.

(** When every frame compresses there is one unit per frame. *)
Lemma chunks_of_all be params frames :
  forallb (compresses be params) frames = true ->
  chunks_of be params frames
  = map (fun frame => multipart_unit (jpeg be params frame)) frames.
Proof.
  intro H. unfold chunks_of. f_equal.
  induction frames as [|frame frames IH]; [reflexivity|].
  simpl in *. apply andb_prop in H. destruct H as (-> & H). now rewrite IH.
Qed.

(** When exactly the frame at position [k] fails to compress, the frames
    kept are all the others, in order. *)
Lemma filter_all_but {T : Type} (p : T -> bool) (d : T) (frames : list T) (k : nat) :
  (k < List.length frames)%nat ->
  p (nth k frames d) = false ->
  (forall j, (j < List.length frames)%nat -> j <> k -> p (nth j frames d) = true) ->
  filter p frames = firstn k frames ++ skipn (S k) frames.
Proof.
  revert k. induction frames as [|frame frames IH]; intros k Hk Hf Hothers.
  - simpl in Hk. lia.
  - destruct k as [|k].
    + simpl in Hf. simpl. rewrite Hf.
      assert (Hall : forallb p frames = true).
      { apply forallb_forall. intros x Hx. apply (In_nth _ _ d) in Hx.
        destruct Hx as (j & Hj & <-). apply (Hothers (S j)); simpl; lia. }
      clear - Hall. induction frames as [|x xs IHx]; [reflexivity|].
      simpl in *. apply andb_prop in Hall. destruct Hall as (-> & Hall).
      now rewrite IHx.
    + assert (Hp : p frame = true) by (apply (Hothers 0%nat); simpl; lia).
      simpl. rewrite Hp. f_equal.
      apply IH.
      * simpl in Hk. lia.
      * exact Hf.
      * intros j Hj Hne. apply (Hothers (S j)); simpl in *; lia.
Qed.

Lemma length_all_but {T : Type} (frames : list T) (k : nat) :
  (k < List.length frames)%nat ->
  List.length (firstn k frames ++ skipn (S k) frames) = (List.length frames - 1)%nat.
Proof. intro H. rewrite length_app, length_firstn, length_skipn. lia. Qed.

(** *** Device enumeration *)

Lemma dict_set_fresh {V : Type} (d : dict Z V) (k : Z) (v : V) :
  ~ In k (keys d) -> dict_set d k v = d ++ [(k, v)].
Proof.
  induction d as [|(k', v') d IH]; intro H; [reflexivity|].
  simpl in *. destruct (Z.eqb_spec k' k) as [->|Hne].
  - exfalso. apply H. now left.
  - f_equal. apply IH. intro Hin. apply H. now right.
Qed.

Lemma fold_found be api (xs : list Z) (acc : dict Z string) :
  NoDup xs ->
  (forall i, In i xs -> ~ In i (keys acc)) ->
  fold_left (fun d i => if dev_opened (device be i api)
                        then dict_set d i (f ["Device "; str i]) else d) xs acc
  = acc ++ found be api xs.
Proof.
  revert acc. induction xs as [|x xs IH]; intros acc Hnd Hfresh.
  - unfold found. simpl. now rewrite app_nil_r.
  - inversion Hnd as [|? ? Hx Hnd']; subst. simpl fold_left. unfold found. simpl filter.
    destruct (dev_opened (device be x api)).
    + rewrite dict_set_fresh by (apply Hfresh; now left).
      rewrite IH; [|exact Hnd'|].
      * unfold found. simpl. now rewrite <- app_assoc.
      * intros i Hi Hin. unfold keys in Hin. rewrite map_app in Hin.
        apply in_app_or in Hin. destruct Hin as [Hin|[<-|[]]].
        -- apply (Hfresh i); [now right | exact Hin].
        -- apply Hx. exact Hi.
    + apply IH; [exact Hnd'|]. intros i Hi. apply Hfresh. now right.
Qed.

Lemma range_spec (n : nat) (i : Z) : In i (range n) <-> 0 <= i < Z.of_nat n.
Proof.
  unfold range. rewrite in_map_iff. split.
  - intros (k & <- & Hk). apply in_seq in Hk. lia.
  - intro H. exists (Z.to_nat i). split; [lia|]. apply in_seq. lia.
Qed.

Lemma range_NoDup (n : nat) : NoDup (range n).
Proof.
  unfold range. apply Injective_map_NoDup; [|apply seq_NoDup].
  intros x y H. lia.
Qed.

Lemma range_sorted (n : nat) : StronglySorted Z.lt (range n).
Proof.
  unfold range. generalize 0%nat as start.
  induction n as [|n IH]; intro start; simpl; constructor.
  - apply IH.
  - apply Forall_forall. intros i Hi. apply in_map_iff in Hi.
    destruct Hi as (k & <- & Hk). apply in_seq in Hk. lia.
Qed.

Lemma filter_sorted (p : Z -> bool) (xs : list Z) :
  StronglySorted Z.lt xs -> StronglySorted Z.lt (filter p xs).
Proof.
  induction 1 as [|x xs Hs IH Hx]; simpl; [constructor|].
  destruct (p x); [|exact IH]. constructor; [exact IH|].
  apply Forall_forall. intros y Hy. apply filter_In in Hy.
  rewrite Forall_forall in Hx. apply Hx. tauto.
Qed.

Lemma keys_found be api xs :
  keys (found be api xs) = filter (fun i => dev_opened (device be i api)) xs.
Proof. unfold keys, found. rewrite map_map. simpl. apply map_id. Qed.

Lemma found_spec be api xs i text :
  In (i, text) (found be api xs)
  <-> In i xs /\ dev_opened (device be i api) = true /\ text = label i.
Proof.
  unfold found. rewrite in_map_iff. split.
  - intros (j & Hj & Hin). inversion Hj; subst. apply filter_In in Hin. tauto.
  - intros (Hi & Ho & ->). exists i. split; [reflexivity|]. apply filter_In. tauto.
Qed.

(** Probing a list of indices leaves no handle open and releases as
    often as a device reported open. *)
Lemma probes_balanced be api (xs : list Z) :
  let log := flat_map (probe_log be api) xs in
  open_calls log = List.length xs
  /\ opens log = List.length (filter (fun i => dev_opened (device be i api)) xs)
  /\ releases log = opens log
  /\ open_handles log = [].
Proof.
  induction xs as [|x xs (IH1 & IH2 & IH3 & IH4)]; cbv zeta in *.
  - repeat split.
  - change (flat_map (probe_log be api) (x :: xs))
      with (probe_log be api x ++ flat_map (probe_log be api) xs).
    unfold open_handles in *.
    rewrite open_calls_app, opens_app, releases_app, fold_left_app, IH1, IH2, IH3.
    unfold probe_log. simpl filter.
    destruct (dev_opened (device be x api)); cbn; rewrite ?Z.eqb_refl; auto.
Qed.

Lemma camera_module_enumeration be :
  value (camera_module.get_available_cameras be) = found be (platform_api be) (range 10)
  /\ trace (camera_module.get_available_cameras be)
     = flat_map (probe_log be (platform_api be)) (range 10).
Proof.
  unfold camera_module.get_available_cameras. cbv zeta.
  rewrite <- (app_nil_l (found _ _ _)).
  rewrite <- (fold_found be (platform_api be) (range 10) []);
    [|apply range_NoDup | intros i _ []].
  generalize (range 10) as xs. generalize (@nil (Z * string)) as acc.
  intros acc xs. revert acc.
  induction xs as [|x xs IH]; intro acc; [split; reflexivity|].
  simpl for_. rewrite value_bind, trace_bind. simpl fold_left. simpl flat_map.
  match goal with
  | |- context [for_ xs _ (value ?m)] => destruct (IH (value m)) as (-> & ->)
  end.
  unfold probe_log at 1, platform_api.
  destruct (String.eqb (platform_system be) "Windows"); straight_line;
    destruct (dev_opened (device be x _)); split; reflexivity.
Qed.

Lemma CameraManager_enumeration be self :
  value (CameraManager.get_available_cameras be self)
  = found be (Some (CameraManager.backend self)) (range 10)
  /\ trace (CameraManager.get_available_cameras be self)
     = flat_map (probe_log be (Some (CameraManager.backend self))) (range 10).
Proof.
  unfold CameraManager.get_available_cameras. cbv zeta.
  rewrite <- (app_nil_l (found _ _ _)).
  rewrite <- (fold_found be (Some (CameraManager.backend self)) (range 10) []);
    [|apply range_NoDup | intros i _ []].
  generalize (range 10) as xs. generalize (@nil (Z * string)) as acc.
  intros acc xs. revert acc.
  induction xs as [|x xs IH]; intro acc; [split; reflexivity|].
  simpl for_. rewrite value_bind, trace_bind. simpl fold_left. simpl flat_map.
  match goal with
  | |- context [for_ xs _ (value ?m)] => destruct (IH (value m)) as (-> & ->)
  end.
  unfold probe_log at 1. straight_line.
  destruct (dev_opened (device be x _)); split; reflexivity.
Qed.

(** *** Claims about enumeration *)

(** C6, as the code has it: enumeration attempts ten opens, releases
    exactly the handles that reported open, and leaves none open when it
    returns; a slot that fails to open is not released. *)
Theorem C6_enumeration_releases_what_it_opened :
  forall be : Backend,
    (let log := trace (camera_module.get_available_cameras be) in
     open_calls log = 10%nat
     /\ releases log = opens log
     /\ opens log
        = List.length (filter (fun i => dev_opened (device be i (platform_api be)))
                         (range 10))
     /\ open_handles log = [])
    /\ (forall self,
          let api := Some (CameraManager.backend self) in
          let log := trace (CameraManager.get_available_cameras be self) in
          open_calls log = 10%nat
          /\ releases log = opens log
          /\ opens log
             = List.length (filter (fun i => dev_opened (device be i api)) (range 10))
          /\ open_handles log = []).
Proof.
  intro be. split; [|intro self]; cbv zeta.
  - destruct (camera_module_enumeration be) as (_ & ->).
    destruct (probes_balanced be (platform_api be) (range 10)) as (H1 & H2 & H3 & H4).
    auto.
  - destruct (CameraManager_enumeration be self) as (_ & ->).
    destruct (probes_balanced be (Some (CameraManager.backend self)) (range 10))
      as (H1 & H2 & H3 & H4).
    auto.
Qed.

(** C6 as stated fails: on a host with a camera in slot 0 only, ten open
    calls are made and one release; with no camera at all, ten and none. *)
Lemma C6_open_calls_outnumber_releases :
  (let log := trace (camera_module.get_available_cameras (bench (camera []))) in
   open_calls log = 10%nat /\ releases log = 1%nat /\ releases log <> open_calls log)
  /\ (let log := trace (CameraManager.get_available_cameras (bench absent)
                         {| CameraManager.backend := cv2.CAP_ANY |}) in
      open_calls log = 10%nat /\ releases log = 0%nat /\ releases log <> open_calls log).
Proof. cbv zeta. repeat split; try reflexivity; vm_compute; discriminate. Qed.

(** C7, as the code has it: enumeration takes no bound; it probes the
    indices 0 to 9 and returns, in ascending index order, exactly those
    that opened, each mapped to its label; the empty mapping means that
    none opened. *)
Theorem C7_enumeration_lists_opened_indices_below_ten :
  forall be : Backend,
    (let d := value (camera_module.get_available_cameras be) in
     let api := platform_api be in
     (forall i text, In (i, text) d
                     <-> 0 <= i < 10 /\ dev_opened (device be i api) = true
                         /\ text = label i)
     /\ (forall i, In i (keys d) <-> 0 <= i < 10 /\ dev_opened (device be i api) = true)
     /\ StronglySorted Z.lt (keys d)
     /\ (d = [] <-> forall i, 0 <= i < 10 -> dev_opened (device be i api) = false))
    /\ (forall self,
          let d := value (CameraManager.get_available_cameras be self) in
          let api := Some (CameraManager.backend self) in
          (forall i text, In (i, text) d
                          <-> 0 <= i < 10 /\ dev_opened (device be i api) = true
                              /\ text = label i)
          /\ (forall i, In i (keys d)
                        <-> 0 <= i < 10 /\ dev_opened (device be i api) = true)
          /\ StronglySorted Z.lt (keys d)
          /\ (d = [] <-> forall i, 0 <= i < 10 -> dev_opened (device be i api) = false)).
Proof.
  assert (G : forall be api,
             let d := found be api (range 10) in
             (forall i text, In (i, text) d
                             <-> 0 <= i < 10 /\ dev_opened (device be i api) = true
                                 /\ text = label i)
             /\ (forall i, In i (keys d)
                           <-> 0 <= i < 10 /\ dev_opened (device be i api) = true)
             /\ StronglySorted Z.lt (keys d)
             /\ (d = [] <-> forall i, 0 <= i < 10 -> dev_opened (device be i api) = false)).
  { intros be api d.
    assert (Hk : forall i, In i (keys d)
                           <-> 0 <= i < 10 /\ dev_opened (device be i api) = true).
    { intro i. unfold d. rewrite keys_found, filter_In, range_spec.
      change (Z.of_nat 10) with 10. tauto. }
    split; [|split; [exact Hk|split]].
    - intros i text. unfold d. rewrite found_spec, range_spec.
      change (Z.of_nat 10) with 10. tauto.
    - unfold d. rewrite keys_found. apply filter_sorted, range_sorted.
    - split.
      + intros Hd i Hi. destruct (dev_opened (device be i api)) eqn:Ho; [|reflexivity].
        assert (Hin : In i (keys d)) by (apply Hk; auto).
        rewrite Hd in Hin. destruct Hin.
      + intro Hnone. clearbody d. destruct d as [|(i, text) d']; [reflexivity|].
        exfalso. destruct (proj1 (Hk i) (or_introl eq_refl)) as (Hi & Ho).
        rewrite (Hnone i Hi) in Ho. discriminate. }
  intro be. split; [|intro self]; cbv zeta.
  - destruct (camera_module_enumeration be) as (-> & _). apply G.
  - destruct (CameraManager_enumeration be self) as (-> & _). apply G.
Qed.

(** C7 as stated fails: there is no bound to pass.  On a host where
    every slot opens, the keys are 0 to 9 whatever bound is meant: not
    within [0, 3), and without 10 and 11 that a bound of 12 would add. *)
Lemma C7_no_bound_parameter :
  let d := value (camera_module.get_available_cameras crowded) in
  keys d = [0; 1; 2; 3; 4; 5; 6; 7; 8; 9]
  /\ ~ (forall maxIndex, 0 <= maxIndex ->
        forall i, In i (keys d) -> 0 <= i < maxIndex)
  /\ ~ (forall maxIndex, 0 <= maxIndex ->
        forall i, 0 <= i < maxIndex ->
                  dev_opened (device crowded i (platform_api crowded)) = true ->
                  In i (keys d)).
Proof.
  cbv zeta. split; [reflexivity|]. split.
  - intro H. specialize (H 3 ltac:(lia) 9). 
    assert (Hin : In 9 (keys (value (camera_module.get_available_cameras crowded)))).
    { vm_compute. tauto. }
    apply H in Hin. lia.
  - intro H. specialize (H 12 ltac:(lia) 10 ltac:(lia) eq_refl).
    vm_compute in H. intuition discriminate.
Qed.

(** *** Claims about sessions that never stream *)

Lemma first_pull_of_returned {A L : Type} (body : Body A L) (args : A) :
  value (enter body args) = Returned ->
  pulled (run body [Next] (Fresh args)) = [StopIteration].
Proof.
  intro Hret. destruct (run_next body [] (Fresh args)) as (-> & _).
  unfold next. rewrite value_bind, Hret. reflexivity.
Qed.

(** An identifier that [int()] rejects ends the generator at its first
    pull; whatever the consumer does, no chunk is given, no device is
    opened and nothing is released. *)
Lemma rejected_identifier_session be device_id resolution e ops :
  int device_id = inr e ->
  let body := camera_module.generate_frames_body be in
  let g := camera_module.generate_frames device_id resolution in
  let r := run body ops g in
  pulled (run body [Next] g) = [StopIteration]
  /\ Forall (fun p => p = StopIteration) (pulled r)
  /\ open_calls (trace r) = 0%nat
  /\ releases (trace r) = 0%nat.
Proof.
  intros Hint body g r.
  pose proof (camera_module_enter_invalid be device_id resolution e Hint) as He.
  assert (Hret : value (enter body (device_id, resolution)) = Returned)
    by (unfold body; now rewrite He).
  pose proof (run_returned body (device_id, resolution) Hret ops) as (Hp & Ht & _).
  subst r g body. unfold camera_module.generate_frames.
  split; [|split; [exact Hp|]].
  - apply first_pull_of_returned. exact Hret.
  - rewrite He in Ht. destruct Ht as [-> | ->]; split; reflexivity.
Qed.

(** C4: when the device does not open, the generator ends normally at its
    first pull, gives no chunk, and releases nothing: zero release calls,
    hence never two. *)
Theorem C4_open_failure_yields_nothing :
  forall be resolution ops,
    (forall device_id z,
        int device_id = inl z ->
        dev_opened (device be z (platform_api be)) = false ->
        let body := camera_module.generate_frames_body be in
        let g := camera_module.generate_frames device_id resolution in
        let r := run body ops g in
        pulled (run body [Next] g) = [StopIteration]
        /\ Forall (fun p => p = StopIteration) (pulled r)
        /\ releases (trace r) = 0%nat
        /\ (releases (trace r) <= 1)%nat)
    /\ (forall self device_id,
          dev_opened (device be device_id (Some (CameraManager.backend self))) = false ->
          let body := CameraManager.generate_frames_body be self in
          let g := CameraManager.generate_frames device_id resolution in
          let r := run body ops g in
          pulled (run body [Next] g) = [StopIteration]
          /\ Forall (fun p => p = StopIteration) (pulled r)
          /\ releases (trace r) = 0%nat
          /\ (releases (trace r) <= 1)%nat).
Proof.
  intros be resolution ops. split.
  - intros device_id z Hint Hc body g r.
    pose proof (camera_module_enter_closed be device_id resolution z Hint Hc) as He.
    assert (Hret : value (enter body (device_id, resolution)) = Returned)
      by (unfold body; now rewrite He).
    pose proof (run_returned body (device_id, resolution) Hret ops) as (Hp & Ht & _).
    subst r g body. unfold camera_module.generate_frames.
    assert (H0 : releases (trace (run (camera_module.generate_frames_body be) ops
                                    (Fresh (device_id, resolution)))) = 0%nat).
    { rewrite He in Ht. destruct Ht as [-> | ->]; reflexivity. }
    repeat split; [apply first_pull_of_returned; exact Hret | exact Hp | exact H0 | lia].
  - intros self device_id Hc body g r.
    pose proof (CameraManager_enter_closed be self device_id resolution Hc) as He.
    assert (Hret : value (enter body (device_id, resolution)) = Returned)
      by (unfold body; now rewrite He).
    pose proof (run_returned body (device_id, resolution) Hret ops) as (Hp & Ht & _).
    subst r g body. unfold CameraManager.generate_frames.
    assert (H0 : releases (trace (run (CameraManager.generate_frames_body be self) ops
                                    (Fresh (device_id, resolution)))) = 0%nat).
    { rewrite He in Ht. destruct Ht as [-> | ->]; reflexivity. }
    repeat split; [apply first_pull_of_returned; exact Hret | exact Hp | exact H0 | lia].
Qed.

(** C4 on a host without cameras, for slot 3. *)
Lemma C4_witness_no_camera :
  (let body := camera_module.generate_frames_body (bench absent) in
   let g := camera_module.generate_frames (PyStr "3") (640, 480) in
   let r := run body [Next; Next; Close] g in
   pulled (run body [Next] g) = [StopIteration]
   /\ Forall (fun p => p = StopIteration) (pulled r)
   /\ releases (trace r) = 0%nat
   /\ (releases (trace r) <= 1)%nat)
  /\ (let self := {| CameraManager.backend := cv2.CAP_ANY |} in
      let body := CameraManager.generate_frames_body (bench absent) self in
      let g := CameraManager.generate_frames 3 (640, 480) in
      let r := run body [Next; Next; Close] g in
      pulled (run body [Next] g) = [StopIteration]
      /\ Forall (fun p => p = StopIteration) (pulled r)
      /\ releases (trace r) = 0%nat
      /\ (releases (trace r) <= 1)%nat).
Proof.
  split.
  - exact (proj1 (C4_open_failure_yields_nothing (bench absent) (640, 480)
                    [Next; Next; Close]) (PyStr "3") 3 eq_refl eq_refl).
  - exact (proj2 (C4_open_failure_yields_nothing (bench absent) (640, 480)
                    [Next; Next; Close]) {| CameraManager.backend := cv2.CAP_ANY |} 3
                 eq_refl).
Defined.

(** In the embedding on integers, the first pull's second call, right
    after the announcing print, is the open of index [z], whatever [z]
    is; when that open fails the pull ends the generator through the
    open-failure branch and no chunk is ever given. *)
Lemma open_follows_the_print :
  forall be resolution z,
    (forall device_id,
        int device_id = inl z ->
        let body := camera_module.generate_frames_body be in
        let g := camera_module.generate_frames device_id resolution in
        let api := platform_api be in
        (exists text rest,
            trace (next body g)
            = Print text :: Open z api (dev_opened (device be z api)) :: rest)
        /\ (dev_opened (device be z api) = false ->
            next body g
            = ((StopIteration, Done),
               [Print (f ["Attempting to open device "; format device_id;
                          " with resolution "; str (fst resolution); "x";
                          str (snd resolution); "..."]);
                Open z api false;
                Print (f ["Error: Could not open video device "; format device_id;
                          "."])])
            /\ empty_sequence body g))
    /\ (forall self,
          let body := CameraManager.generate_frames_body be self in
          let g := CameraManager.generate_frames z resolution in
          let api := Some (CameraManager.backend self) in
          (exists text rest,
              trace (next body g)
              = Print text :: Open z api (dev_opened (device be z api)) :: rest)
          /\ (dev_opened (device be z api) = false ->
              next body g
              = ((StopIteration, Done),
                 [Print (f ["Attempting to open device "; str z;
                            " with resolution "; str (fst resolution); "x";
                            str (snd resolution); "..."]);
                  Open z api false;
                  Print (f ["Error: Could not open video device "; str z; "."])])
              /\ empty_sequence body g)).
Proof.
  intros be resolution z. split.
  - intros device_id Hint body g api.
    assert (Hclosed : dev_opened (device be z api) = false ->
                      enter body (device_id, resolution)
                      = (Returned,
                         [Print (f ["Attempting to open device "; format device_id;
                                    " with resolution "; str (fst resolution); "x";
                                    str (snd resolution); "..."]);
                          Open z api false;
                          Print (f ["Error: Could not open video device ";
                                    format device_id; "."])])).
    { intro Hc. apply (camera_module_enter_closed be device_id resolution z Hint Hc). }
    split.
    + unfold g, camera_module.generate_frames, next. rewrite trace_bind.
      destruct (dev_opened (device be z api)) eqn:Ho.
      * destruct (camera_module_enter_open be device_id resolution z Hint Ho) as (_ & Ht).
        unfold body. rewrite Ht. eexists. eexists. reflexivity.
      * rewrite (Hclosed eq_refl). eexists. eexists. reflexivity.
    + intro Hc. split.
      * unfold g, camera_module.generate_frames, next. rewrite (Hclosed Hc). reflexivity.
      * apply returned_empty_sequence. now rewrite (Hclosed Hc).
  - intros self body g api.
    assert (Hclosed : dev_opened (device be z api) = false ->
                      enter body (z, resolution)
                      = (Returned,
                         [Print (f ["Attempting to open device "; str z;
                                    " with resolution "; str (fst resolution); "x";
                                    str (snd resolution); "..."]);
                          Open z api false;
                          Print (f ["Error: Could not open video device "; str z; "."])])).
    { intro Hc. apply (CameraManager_enter_closed be self z resolution Hc). }
    split.
    + unfold g, CameraManager.generate_frames, next. rewrite trace_bind.
      destruct (dev_opened (device be z api)) eqn:Ho.
      * destruct (CameraManager_enter_open be self z resolution Ho) as (_ & Ht).
        unfold body. rewrite Ht. eexists. eexists. reflexivity.
      * rewrite (Hclosed eq_refl). eexists. eexists. reflexivity.
    + intro Hc. split.
      * unfold g, CameraManager.generate_frames, next. rewrite (Hclosed Hc). reflexivity.
      * apply returned_empty_sequence. now rewrite (Hclosed Hc).
Qed.

(** *** Claims about streaming sessions *)

(** C1, as the code has it: when the device opens, delivers exactly [N]
    frames before a read fails, and every one of them compresses, pulling
    gives exactly [N] chunks, one per frame in read order, each the
    multipart unit around that frame's JPEG bytes; every later pull ends
    in [StopIteration], and one release has been issued in all. *)
Theorem C1_one_chunk_per_frame_then_stop :
  forall be resolution N extra,
    (forall device_id z,
        int device_id = inl z ->
        let dev := device be z (platform_api be) in
        dev_opened dev = true ->
        List.length (dev_frames dev) = N ->
        forallb (compresses be no_params) (dev_frames dev) = true ->
        let r := run (camera_module.generate_frames_body be)
                     (repeat Next (N + 1 + extra))
                     (camera_module.generate_frames device_id resolution) in
        pulled r
        = map (fun frame => Chunk (multipart_unit (jpeg be no_params frame)))
              (dev_frames dev)
          ++ repeat StopIteration (1 + extra)
        /\ final r = Done
        /\ releases (trace r) = 1%nat)
    /\ (forall self device_id,
          let dev := device be device_id (Some (CameraManager.backend self)) in
          dev_opened dev = true ->
          List.length (dev_frames dev) = N ->
          forallb (compresses be quality_80) (dev_frames dev) = true ->
          let r := run (CameraManager.generate_frames_body be self)
                       (repeat Next (N + 1 + extra))
                       (CameraManager.generate_frames device_id resolution) in
          pulled r
          = map (fun frame => Chunk (multipart_unit (jpeg be quality_80 frame)))
                (dev_frames dev)
            ++ repeat StopIteration (1 + extra)
          /\ final r = Done
          /\ releases (trace r) = 1%nat).
Proof.
  intros be resolution N extra. split.
  - intros device_id z Hint dev Ho HN Hall.
    pose proof (camera_module_exhausts be device_id resolution z Hint Ho extra) as H.
    fold dev in H. rewrite (chunks_of_all be no_params _ Hall) in H.
    rewrite length_map, HN, map_map in H. exact H.
  - intros self device_id dev Ho HN Hall.
    pose proof (CameraManager_exhausts be self device_id resolution Ho extra) as H.
    fold dev in H. rewrite (chunks_of_all be quality_80 _ Hall) in H.
    rewrite length_map, HN, map_map in H. exact H.
Qed.

(** C1 on a camera that delivers two samples. *)
Lemma C1_witness_two_frames :
  let be := bench (camera [[x01]; [x02]]) in
  (let r := run (camera_module.generate_frames_body be) (repeat Next (2 + 1 + 0))
                (camera_module.generate_frames (PyInt 0) (640, 480)) in
   pulled r
   = map (fun frame => Chunk (multipart_unit (jpeg be no_params frame))) [[x01]; [x02]]
     ++ repeat StopIteration (1 + 0)
   /\ final r = Done
   /\ releases (trace r) = 1%nat)
  /\ (let self := {| CameraManager.backend := cv2.CAP_ANY |} in
      let r := run (CameraManager.generate_frames_body be self) (repeat Next (2 + 1 + 0))
                   (CameraManager.generate_frames 0 (640, 480)) in
      pulled r
      = map (fun frame => Chunk (multipart_unit (jpeg be quality_80 frame))) [[x01]; [x02]]
        ++ repeat StopIteration (1 + 0)
      /\ final r = Done
      /\ releases (trace r) = 1%nat).
Proof.
  split.
  - exact (proj1 (C1_one_chunk_per_frame_then_stop (bench (camera [[x01]; [x02]]))
                    (640, 480) 2 0)
                 (PyInt 0) 0 eq_refl eq_refl eq_refl eq_refl).
  - exact (proj2 (C1_one_chunk_per_frame_then_stop (bench (camera [[x01]; [x02]]))
                    (640, 480) 2 0)
                 {| CameraManager.backend := cv2.CAP_ANY |} 0 eq_refl eq_refl eq_refl).
Defined.

(** C1 as stated fails: a camera that opens and delivers exactly one
    frame before its read fails, a frame the encoder refuses, gives no
    chunk at all, where the claim asks for one. *)
Lemma C1_uncompressed_frame_gives_no_chunk :
  let be := bench (camera [[]]) in
  let self := {| CameraManager.backend := cv2.CAP_ANY |} in
  let r1 := run (camera_module.generate_frames_body be) (repeat Next 2)
                (camera_module.generate_frames (PyInt 0) (640, 480)) in
  let r2 := run (CameraManager.generate_frames_body be self) (repeat Next 2)
                (CameraManager.generate_frames 0 (640, 480)) in
  dev_opened (device be 0 (platform_api be)) = true
  /\ dev_opened (device be 0 (Some cv2.CAP_ANY)) = true
  /\ count is_read_ok (trace r1) = 1%nat
  /\ count is_read_ok (trace r2) = 1%nat
  /\ pulled r1 = [StopIteration; StopIteration]
  /\ pulled r2 = [StopIteration; StopIteration]
  /\ pulled r1 <> [Chunk (multipart_unit (jpeg be no_params [])); StopIteration]
  /\ pulled r2 <> [Chunk (multipart_unit (jpeg be quality_80 [])); StopIteration].
Proof. cbv zeta. repeat split; try reflexivity; vm_compute; discriminate. Qed.

(** C5: when the device opens and delivers [N] frames of which exactly
    the one at position [k] fails to compress, pulling gives [N - 1]
    chunks, those of the other frames in read order, the loop going on
    past frame [k]; then [StopIteration], with one release in all. *)
Theorem C5_failed_compression_skips_one_frame :
  forall be resolution N k extra,
    (forall device_id z,
        int device_id = inl z ->
        let dev := device be z (platform_api be) in
        dev_opened dev = true ->
        List.length (dev_frames dev) = N ->
        (k < N)%nat ->
        compresses be no_params (nth k (dev_frames dev) []) = false ->
        (forall j, (j < N)%nat -> j <> k ->
                   compresses be no_params (nth j (dev_frames dev) []) = true) ->
        let kept := firstn k (dev_frames dev) ++ skipn (S k) (dev_frames dev) in
        let r := run (camera_module.generate_frames_body be)
                     (repeat Next (N + extra))
                     (camera_module.generate_frames device_id resolution) in
        List.length kept = (N - 1)%nat
        /\ pulled r
           = map (fun frame => Chunk (multipart_unit (jpeg be no_params frame))) kept
             ++ repeat StopIteration (1 + extra)
        /\ final r = Done
        /\ releases (trace r) = 1%nat)
    /\ (forall self device_id,
          let dev := device be device_id (Some (CameraManager.backend self)) in
          dev_opened dev = true ->
          List.length (dev_frames dev) = N ->
          (k < N)%nat ->
          compresses be quality_80 (nth k (dev_frames dev) []) = false ->
          (forall j, (j < N)%nat -> j <> k ->
                     compresses be quality_80 (nth j (dev_frames dev) []) = true) ->
          let kept := firstn k (dev_frames dev) ++ skipn (S k) (dev_frames dev) in
          let r := run (CameraManager.generate_frames_body be self)
                       (repeat Next (N + extra))
                       (CameraManager.generate_frames device_id resolution) in
          List.length kept = (N - 1)%nat
          /\ pulled r
             = map (fun frame => Chunk (multipart_unit (jpeg be quality_80 frame))) kept
               ++ repeat StopIteration (1 + extra)
          /\ final r = Done
          /\ releases (trace r) = 1%nat).
Proof.
  intros be resolution N k extra. split.
  - intros device_id z Hint dev Ho HN Hk Hf Hothers kept r.
    assert (Hlen : List.length kept = (N - 1)%nat).
    { unfold kept. rewrite length_all_but; lia. }
    split; [exact Hlen|].
    pose proof (camera_module_exhausts be device_id resolution z Hint Ho extra) as H.
    fold dev in H. unfold chunks_of in H.
    rewrite (filter_all_but (compresses be no_params) [] (dev_frames dev) k) in H;
      [|lia|exact Hf|rewrite HN; exact Hothers].
    fold kept in H. rewrite length_map, Hlen, map_map in H.
    replace (N - 1 + 1 + extra)%nat with (N + extra)%nat in H by lia. exact H.
  - intros self device_id dev Ho HN Hk Hf Hothers kept r.
    assert (Hlen : List.length kept = (N - 1)%nat).
    { unfold kept. rewrite length_all_but; lia. }
    split; [exact Hlen|].
    pose proof (CameraManager_exhausts be self device_id resolution Ho extra) as H.
    fold dev in H. unfold chunks_of in H.
    rewrite (filter_all_but (compresses be quality_80) [] (dev_frames dev) k) in H;
      [|lia|exact Hf|rewrite HN; exact Hothers].
    fold kept in H. rewrite length_map, Hlen, map_map in H.
    replace (N - 1 + 1 + extra)%nat with (N + extra)%nat in H by lia. exact H.
Qed.

Lemma only_the_middle_frame_fails (j : nat) :
  (j < 3)%nat -> j <> 1%nat ->
  fst (marker_encoder ".jpg" (nth j [[x01]; []; [x03]] []) []) = true
  /\ fst (marker_encoder ".jpg" (nth j [[x01]; []; [x03]] []) quality_80) = true.
Proof.
  intros Hj Hne. destruct j as [|[|[|j]]]; try lia; split; reflexivity.
Qed.

(** C5 on a camera whose second of three samples is the empty image. *)
Lemma C5_witness_middle_frame_fails :
  let be := bench (camera [[x01]; []; [x03]]) in
  (let r := run (camera_module.generate_frames_body be) (repeat Next (3 + 0))
                (camera_module.generate_frames (PyInt 0) (640, 480)) in
   List.length (firstn 1 [[x01]; []; [x03]] ++ skipn 2 [[x01]; []; [x03]]) = (3 - 1)%nat
   /\ pulled r
      = map (fun frame => Chunk (multipart_unit (jpeg be no_params frame)))
            (firstn 1 [[x01]; []; [x03]] ++ skipn 2 [[x01]; []; [x03]])
        ++ repeat StopIteration (1 + 0)
   /\ final r = Done
   /\ releases (trace r) = 1%nat)
  /\ (let self := {| CameraManager.backend := cv2.CAP_ANY |} in
      let r := run (CameraManager.generate_frames_body be self) (repeat Next (3 + 0))
                   (CameraManager.generate_frames 0 (640, 480)) in
      List.length (firstn 1 [[x01]; []; [x03]] ++ skipn 2 [[x01]; []; [x03]]) = (3 - 1)%nat
      /\ pulled r
         = map (fun frame => Chunk (multipart_unit (jpeg be quality_80 frame)))
               (firstn 1 [[x01]; []; [x03]] ++ skipn 2 [[x01]; []; [x03]])
           ++ repeat StopIteration (1 + 0)
      /\ final r = Done
      /\ releases (trace r) = 1%nat).
Proof.
  split.
  - exact (proj1 (C5_failed_compression_skips_one_frame
                    (bench (camera [[x01]; []; [x03]])) (640, 480) 3 1 0)
                 (PyInt 0) 0 eq_refl eq_refl eq_refl (le_S 2 2 (le_n 2)) eq_refl
                 (fun j Hj Hne => proj1 (only_the_middle_frame_fails j Hj Hne))).
  - exact (proj2 (C5_failed_compression_skips_one_frame
                    (bench (camera [[x01]; []; [x03]])) (640, 480) 3 1 0)
                 {| CameraManager.backend := cv2.CAP_ANY |} 0 eq_refl eq_refl (le_S 2 2 (le_n 2))
                 eq_refl
                 (fun j Hj Hne => proj2 (only_the_middle_frame_fails j Hj Hne))).
Defined.


Lemma camera_module_session_handles be args ops :
  let r := run (camera_module.generate_frames_body be) ops (Fresh args) in
  (opens (trace r) <= 1
   /\ releases (trace r) <= opens (trace r)
   /\ (final r = Done -> releases (trace r) = opens (trace r)))%nat.
Proof.
  apply session_handles.
  - apply camera_module_enter_handles.
  - intro l. apply camera_module_streaming_handles.
  - apply camera_module_unwind_handles.
Qed.

Lemma CameraManager_session_handles be self args ops :
  let r := run (CameraManager.generate_frames_body be self) ops (Fresh args) in
  (opens (trace r) <= 1
   /\ releases (trace r) <= opens (trace r)
   /\ (final r = Done -> releases (trace r) = opens (trace r)))%nat.
Proof.
  apply session_handles.
  - apply CameraManager_enter_handles.
  - intro l. apply CameraManager_streaming_handles.
  - apply CameraManager_unwind_handles.
Qed.

(** *** Which handle a session holds and releases *)

Section Held.

Context {A L : Type} (body : Body A L) (handle_of : L -> Z).
Context (P : A -> Prop) (I : L -> Prop) (Q : Event -> Prop).

Hypothesis enter_held : forall args, P args ->
  fold_left track (trace (enter body args)) []
  = held_by handle_of (snd (settle (A:=A) (value (enter body args))))
  /\ Forall Q (trace (enter body args))
  /\ kept P I (snd (settle (A:=A) (value (enter body args)))).

Hypothesis resume_held : forall l, I l ->
  fold_left track (trace (resume body l)) [handle_of l]
  = held_by handle_of (snd (settle (A:=A) (value (resume body l))))
  /\ Forall Q (trace (resume body l))
  /\ kept P I (snd (settle (A:=A) (value (resume body l)))).

Hypothesis unwind_held : forall l, I l ->
  fold_left track (trace (unwind body l)) [handle_of l] = []
  /\ Forall Q (trace (unwind body l)).

(** Replaying the log of a session from the handle the generator held
    at its start leaves exactly the handle it holds at its end; every
    call satisfies [Q]; the locals keep [I]. *)
Lemma session_held (ops : list Op) (g : Generator A L) :
  kept P I g ->
  fold_left track (trace (run body ops g)) (held_by handle_of g)
  = held_by handle_of (final (run body ops g))
  /\ Forall Q (trace (run body ops g))
  /\ kept P I (final (run body ops g)).
Proof.
  revert ops g.
  apply (run_invariant body (fun g t g' =>
           kept P I g ->
           fold_left track t (held_by handle_of g) = held_by handle_of g'
           /\ Forall Q t /\ kept P I g')).
  - intros g K. repeat split; [constructor | exact K].
  - intros g1 t1 g2 t2 g3 H1 H2 K.
    destruct (H1 K) as (F1 & Q1 & K2). destruct (H2 K2) as (F2 & Q2 & K3).
    rewrite fold_left_app, F1. repeat split; [exact F2 | | exact K3].
    apply Forall_app. split; assumption.
  - intros [args | l |] K; unfold next; rewrite ?trace_bind, ?value_bind, ?trace_ret,
      ?value_ret, ?app_nil_r.
    + exact (enter_held args K).
    + exact (resume_held l K).
    + repeat split; constructor.
  - intros [args | l |] K; unfold close; rewrite ?trace_bind, ?value_bind, ?trace_ret,
      ?value_ret, ?app_nil_r.
    + repeat split; constructor.
    + destruct (unwind_held l K) as (F & HQ). repeat split; assumption.
    + repeat split; constructor.
Qed.

End Held.

(** The only release the loop issues is that of the capture it was
    given, and a suspended generator keeps that capture. *)
Lemma camera_module_streaming_held be device_id cap pending :
  let r := camera_module.streaming be device_id cap pending in
  fold_left track (trace r) [cap_index cap]
  = held_by (fun l => cap_index (camera_module.cap l))
            (snd (settle (A:=PyVal * (Z * Z)) (value r)))
  /\ Forall (fun e => forall i, e = Release i -> i = cap_index cap) (trace r)
  /\ match value r with
     | Yielded _ l => camera_module.cap l = cap /\ camera_module.device_id l = device_id
     | Returned => True
     end.
Proof.
  induction pending as [|frame pending IH]; simpl camera_module.streaming; cbv zeta in *.
  - unfold camera_module.finally_. straight_line. cbn [fold_left track remove_handle].
    rewrite Z.eqb_refl. repeat split.
    repeat constructor; try discriminate. intros i [= <-]. reflexivity.
  - straight_line. destruct (fst (encoder be ".jpg" frame [])); straight_line.
    + cbn [fold_left track held_by settle snd camera_module.cap]. repeat split.
      repeat constructor; discriminate.
    + destruct IH as (IH1 & IH2 & IH3). cbn [fold_left track]. repeat split.
      * exact IH1.
      * repeat constructor; try discriminate. exact IH2.
      * exact IH3.
Qed.

Lemma CameraManager_streaming_held be device_id cap pending :
  let r := CameraManager.streaming be device_id cap pending in
  fold_left track (trace r) [cap_index cap]
  = held_by (fun l => cap_index (CameraManager.cap l))
            (snd (settle (A:=Z * (Z * Z)) (value r)))
  /\ Forall (fun e => forall i, e = Release i -> i = cap_index cap) (trace r)
  /\ match value r with
     | Yielded _ l => CameraManager.cap l = cap /\ CameraManager.device_id l = device_id
     | Returned => True
     end.
Proof.
  induction pending as [|frame pending IH]; simpl CameraManager.streaming; cbv zeta in *.
  - unfold CameraManager.finally_. straight_line. cbn [fold_left track remove_handle].
    rewrite Z.eqb_refl. repeat split.
    repeat constructor; try discriminate. intros i [= <-]. reflexivity.
  - straight_line.
    destruct (fst (encoder be ".jpg" frame [cv2.IMWRITE_JPEG_QUALITY; 80])); straight_line.
    + cbn [fold_left track held_by settle snd CameraManager.cap]. repeat split.
      repeat constructor; discriminate.
    + destruct IH as (IH1 & IH2 & IH3). cbn [fold_left track]. repeat split.
      * exact IH1.
      * repeat constructor; try discriminate. exact IH2.
      * exact IH3.
Qed.

(** In every session of [camera_module.generate_frames] the handles
    open at the end of the log are the one the generator still holds;
    a release is only ever that of the index [int(device_id)]; and a
    suspended generator holds the capture of that index. *)
Lemma camera_module_held be device_id ops g :
  let K := kept (fun args => fst args = device_id)
                (fun l => camera_module.device_id l = device_id
                          /\ int device_id = inl (cap_index (camera_module.cap l))) in
  let r := run (camera_module.generate_frames_body be) ops g in
  K g ->
  fold_left track (trace r) (held_by (fun l => cap_index (camera_module.cap l)) g)
  = held_by (fun l => cap_index (camera_module.cap l)) (final r)
  /\ Forall (fun e => forall i, e = Release i -> int device_id = inl i) (trace r)
  /\ K (final r).
Proof.
  cbv zeta. revert ops g.
  apply (session_held (camera_module.generate_frames_body be)
           (fun l => cap_index (camera_module.cap l))
           (fun args => fst args = device_id)
           (fun l => camera_module.device_id l = device_id
                     /\ int device_id = inl (cap_index (camera_module.cap l)))
           (fun e => forall i, e = Release i -> int device_id = inl i)).
  - intros (d, res) Hd. cbn [fst] in Hd. subst d.
    destruct (int device_id) as [z|e] eqn:Hint.
    + destruct (dev_opened (device be z (platform_api be))) eqn:Ho.
      * destruct (camera_module_enter_open be device_id res z Hint Ho) as (Hv & Ht).
        cbv zeta in Hv, Ht. rewrite Hv, Ht, fold_left_app.
        destruct (camera_module_streaming_held be device_id
                    (configured z (device be z (platform_api be)) res)
                    (dev_frames (device be z (platform_api be)))) as (F & HQ & HI).
        cbv zeta in F, HQ, HI. repeat split.
        -- exact F.
        -- apply Forall_app. split; [repeat constructor; discriminate|].
           eapply Forall_impl; [|exact HQ]. intros e He i Hi. now rewrite (He i Hi).
        -- destruct (value (camera_module.streaming _ _ _ _)) as [c l|]; [|exact I].
           destruct HI as (Hc & Hd). cbn [settle snd kept]. rewrite Hc, Hd.
           split; reflexivity.
      * rewrite (camera_module_enter_closed be device_id res z Hint Ho).
        repeat split. repeat constructor; discriminate.
    + rewrite (camera_module_enter_invalid be device_id res e Hint).
        repeat split. repeat constructor; discriminate.
  - intros l (Hd & Hz). cbn [resume camera_module.generate_frames_body].
    destruct (camera_module_streaming_held be (camera_module.device_id l)
                (camera_module.cap l) (camera_module.pending l)) as (F & HQ & HI).
    cbv zeta in F, HQ, HI. repeat split.
    + exact F.
    + eapply Forall_impl; [|exact HQ]. intros e He i Hi. now rewrite (He i Hi).
    + destruct (value (camera_module.streaming _ _ _ _)) as [c l'|]; [|exact I].
      destruct HI as (Hc & Hd'). cbn [settle snd kept]. rewrite Hc, Hd'.
      split; assumption.
  - intros l (Hd & Hz). cbn [unwind camera_module.generate_frames_body].
    unfold camera_module.finally_. straight_line. cbn [fold_left track remove_handle].
    rewrite Z.eqb_refl. split; [reflexivity|].
    repeat constructor; try discriminate. intros i [= <-]. exact Hz.
Qed.

Lemma camera_module_session_held be device_id resolution ops :
  let r := run (camera_module.generate_frames_body be) ops
               (camera_module.generate_frames device_id resolution) in
  open_handles (trace r)
  = held_by (fun l => cap_index (camera_module.cap l)) (final r)
  /\ Forall (fun e => forall i, e = Release i -> int device_id = inl i) (trace r)
  /\ kept (fun args => fst args = device_id)
          (fun l => camera_module.device_id l = device_id
                    /\ int device_id = inl (cap_index (camera_module.cap l)))
          (final r).
Proof.
  exact (camera_module_held be device_id ops
           (camera_module.generate_frames device_id resolution) eq_refl).
Qed.

(** The same for [CameraManager.generate_frames], whose index is the
    identifier itself. *)
Lemma CameraManager_held be self device_id ops g :
  let K := kept (fun args => fst args = device_id)
                (fun l => CameraManager.device_id l = device_id
                          /\ cap_index (CameraManager.cap l) = device_id) in
  let r := run (CameraManager.generate_frames_body be self) ops g in
  K g ->
  fold_left track (trace r) (held_by (fun l => cap_index (CameraManager.cap l)) g)
  = held_by (fun l => cap_index (CameraManager.cap l)) (final r)
  /\ Forall (fun e => forall i, e = Release i -> i = device_id) (trace r)
  /\ K (final r).
Proof.
  cbv zeta. revert ops g.
  apply (session_held (CameraManager.generate_frames_body be self)
           (fun l => cap_index (CameraManager.cap l))
           (fun args => fst args = device_id)
           (fun l => CameraManager.device_id l = device_id
                     /\ cap_index (CameraManager.cap l) = device_id)
           (fun e => forall i, e = Release i -> i = device_id)).
  - intros (d, res) Hd. cbn [fst] in Hd. subst d.
    destruct (dev_opened (device be device_id (Some (CameraManager.backend self)))) eqn:Ho.
    + destruct (CameraManager_enter_open be self device_id res Ho) as (Hv & Ht).
      cbv zeta in Hv, Ht. rewrite Hv, Ht, app_assoc, fold_left_app.
      destruct (CameraManager_streaming_held be device_id
                  (configured device_id
                     (device be device_id (Some (CameraManager.backend self))) res)
                  (dev_frames (device be device_id (Some (CameraManager.backend self)))))
        as (F & HQ & HI).
      cbv zeta in F, HQ, HI. repeat split.
      * destruct (negb _ || negb _); exact F.
      * apply Forall_app. split; [|exact HQ].
        destruct (negb _ || negb _); repeat constructor; discriminate.
      * destruct (value (CameraManager.streaming _ _ _ _)) as [c l|]; [|exact I].
        destruct HI as (Hc & Hd). cbn [settle snd kept]. rewrite Hc, Hd.
        split; reflexivity.
    + rewrite (CameraManager_enter_closed be self device_id res Ho).
      repeat split. repeat constructor; discriminate.
  - intros l (Hd & Hz). cbn [resume CameraManager.generate_frames_body].
    destruct (CameraManager_streaming_held be (CameraManager.device_id l)
                (CameraManager.cap l) (CameraManager.pending l)) as (F & HQ & HI).
    cbv zeta in F, HQ, HI. repeat split.
    + exact F.
    + eapply Forall_impl; [|exact HQ]. intros e He i Hi. now rewrite (He i Hi).
    + destruct (value (CameraManager.streaming _ _ _ _)) as [c l'|]; [|exact I].
      destruct HI as (Hc & Hd'). cbn [settle snd kept]. rewrite Hc, Hd'.
      split; assumption.
  - intros l (Hd & Hz). cbn [unwind CameraManager.generate_frames_body].
    unfold CameraManager.finally_. straight_line. cbn [fold_left track remove_handle].
    rewrite Z.eqb_refl. split; [reflexivity|].
    repeat constructor; try discriminate. intros i [= <-]. exact Hz.
Qed.

Lemma CameraManager_session_held be self device_id resolution ops :
  let r := run (CameraManager.generate_frames_body be self) ops
               (CameraManager.generate_frames device_id resolution) in
  open_handles (trace r)
  = held_by (fun l => cap_index (CameraManager.cap l)) (final r)
  /\ Forall (fun e => forall i, e = Release i -> i = device_id) (trace r)
  /\ kept (fun args => fst args = device_id)
          (fun l => CameraManager.device_id l = device_id
                    /\ cap_index (CameraManager.cap l) = device_id)
          (final r).
Proof.
  exact (CameraManager_held be self device_id ops
           (CameraManager.generate_frames device_id resolution) eq_refl).
Qed.

(** Discarding a generator suspended at its [yield] runs the [finally]
    block on the capture in its locals. *)
Lemma run_close_suspended {A L : Type} (body : Body A L) (ops : list Op)
      (g : Generator A L) (l : L) :
  final (run body ops g) = Suspended l ->
  trace (run body (ops ++ [Close]) g) = trace (run body ops g) ++ trace (unwind body l).
Proof.
  intro Hf. destruct (run_app body ops [Close] g) as (_ & _ & ->). rewrite Hf.
  destruct (run_close body [] (Suspended l)) as (_ & _ & ->).
  unfold close. rewrite trace_bind, trace_ret, value_bind, value_ret.
  change (trace (run body [] Done)) with (@nil Event). now rewrite !app_nil_r.
Qed.

(** C2: whatever the consumer does, at most one release is ever issued,
    and a release is always that of the handle the session opened: the
    capture of index [int(device_id)].  Once the generator has ended, by
    itself or by being discarded, no handle is left open, and if the
    device had opened exactly one release has been issued.  In
    particular a consumer that stops after [M] chunks while chunks
    remain has seen no release yet and the handle is still open;
    discarding the generator then prints the releasing line and releases
    that handle, and nothing else. *)
Theorem C2_released_exactly_once_on_every_path :
  forall be resolution,
    (forall device_id,
        let body := camera_module.generate_frames_body be in
        let g := camera_module.generate_frames device_id resolution in
        (forall ops, (releases (trace (run body ops g)) <= 1)%nat)
        /\ (forall ops i,
              In (Release i) (trace (run body ops g)) -> int device_id = inl i)
        /\ (forall ops,
              final (run body ops g) = Done -> open_handles (trace (run body ops g)) = [])
        /\ (forall ops,
              let r := run body (ops ++ [Close]) g in
              final r = Done
              /\ (opens (trace r) = 1%nat -> releases (trace r) = 1%nat)
              /\ (opens (trace r) = 0%nat -> releases (trace r) = 0%nat)
              /\ open_handles (trace r) = [])
        /\ (forall z M,
              int device_id = inl z ->
              let dev := device be z (platform_api be) in
              dev_opened dev = true ->
              (0 < M <= List.length (chunks_of be no_params (dev_frames dev)))%nat ->
              let r := run body (repeat Next M) g in
              let r' := run body (repeat Next M ++ [Close]) g in
              pulled r = map Chunk (firstn M (chunks_of be no_params (dev_frames dev)))
              /\ releases (trace r) = 0%nat
              /\ open_handles (trace r) = [z]
              /\ final r' = Done
              /\ trace r'
                 = trace r ++ [Print (f ["Releasing device "; format device_id; "..."]);
                               Release z]
              /\ releases (trace r') = 1%nat
              /\ open_handles (trace r') = []))
    /\ (forall self device_id,
          let body := CameraManager.generate_frames_body be self in
          let g := CameraManager.generate_frames device_id resolution in
          (forall ops, (releases (trace (run body ops g)) <= 1)%nat)
          /\ (forall ops i, In (Release i) (trace (run body ops g)) -> i = device_id)
          /\ (forall ops,
                final (run body ops g) = Done -> open_handles (trace (run body ops g)) = [])
          /\ (forall ops,
                let r := run body (ops ++ [Close]) g in
                final r = Done
                /\ (opens (trace r) = 1%nat -> releases (trace r) = 1%nat)
                /\ (opens (trace r) = 0%nat -> releases (trace r) = 0%nat)
                /\ open_handles (trace r) = [])
          /\ (forall M,
                let dev := device be device_id (Some (CameraManager.backend self)) in
                dev_opened dev = true ->
                (0 < M <= List.length (chunks_of be quality_80 (dev_frames dev)))%nat ->
                let r := run body (repeat Next M) g in
                let r' := run body (repeat Next M ++ [Close]) g in
                pulled r = map Chunk (firstn M (chunks_of be quality_80 (dev_frames dev)))
                /\ releases (trace r) = 0%nat
                /\ open_handles (trace r) = [device_id]
                /\ final r' = Done
                /\ trace r'
                   = trace r ++ [Print (f ["Releasing device "; str device_id; "..."]);
                                 Release device_id]
                /\ releases (trace r') = 1%nat
                /\ open_handles (trace r') = [])).
Proof.
  intros be resolution. split.
  - intros device_id body g.
    assert (Hdone : forall ops, final (run body ops g) = Done ->
                                open_handles (trace (run body ops g)) = []).
    { intros ops Hd.
      destruct (camera_module_session_held be device_id resolution ops) as (H & _).
      fold body g in H. rewrite H, Hd. reflexivity. }
    split; [|split; [|split; [exact Hdone|split]]].
    + intro ops.
      pose proof (camera_module_session_handles be (device_id, resolution) ops) as H.
      cbv zeta in H. unfold g, body, camera_module.generate_frames. lia.
    + intros ops i Hin.
      destruct (camera_module_session_held be device_id resolution ops) as (_ & HQ & _).
      fold body g in HQ. rewrite Forall_forall in HQ. exact (HQ _ Hin i eq_refl).
    + intros ops r.
      pose proof (camera_module_session_handles be (device_id, resolution)
                    (ops ++ [Close])) as (H1 & H2 & H3).
      assert (Hd : final r = Done) by apply run_then_close.
      specialize (H3 Hd). fold body in H3.
      split; [exact Hd|]. split; [|split]; [| |exact (Hdone _ Hd)];
        unfold r, g, camera_module.generate_frames; intro; lia.
    + intros z M Hint dev Ho HM r r'.
      destruct (camera_module_open_session be device_id resolution z Hint Ho) as (H1 & H2).
      fold dev in H2. rewrite <- H2 in HM.
      pose proof (fresh_abandoned (camera_module.generate_frames_body be)
                    (fun l => chunks_of be no_params (camera_module.pending l))
                    (fun l => camera_module_streaming_chunks be _ _ _)
                    (camera_module_enter_handles be)
                    (fun l => camera_module_streaming_handles be _ _ _)
                    (camera_module_unwind_handles be)
                    (device_id, resolution) M H1 HM) as (Hp & Hh & Hr & _ & Hd & Hr').
      unfold camera_module.generate_frames in H2. rewrite H2 in Hp.
      destruct (camera_module_session_held be device_id resolution (repeat Next M))
        as (Ht & _ & Hk).
      fold body g r in Ht, Hk.
      change (holds (final r) = 1%nat) in Hh. change (releases (trace r) = 0%nat) in Hr.
      change (final r' = Done) in Hd. change (releases (trace r') = 1%nat) in Hr'.
      destruct (final r) as [args | l |] eqn:Hf; try discriminate Hh.
      destruct Hk as (Hid & Hz). rewrite Hint in Hz. injection Hz as Hz.
      assert (Hlog : trace r'
                     = trace r ++ [Print (f ["Releasing device "; format device_id; "..."]);
                                   Release z]).
      { unfold r'. rewrite (run_close_suspended body (repeat Next M) g l Hf).
        fold r. f_equal. cbn [unwind body camera_module.generate_frames_body].
        unfold camera_module.finally_. straight_line. now rewrite Hid, <- Hz. }
      repeat split; try assumption.
      * rewrite Ht. cbn [held_by]. now rewrite <- Hz.
      * exact (Hdone _ Hd).
  - intros self device_id body g.
    assert (Hdone : forall ops, final (run body ops g) = Done ->
                                open_handles (trace (run body ops g)) = []).
    { intros ops Hd.
      destruct (CameraManager_session_held be self device_id resolution ops) as (H & _).
      fold body g in H. rewrite H, Hd. reflexivity. }
    split; [|split; [|split; [exact Hdone|split]]].
    + intro ops.
      pose proof (CameraManager_session_handles be self (device_id, resolution) ops) as H.
      cbv zeta in H. unfold g, body, CameraManager.generate_frames. lia.
    + intros ops i Hin.
      destruct (CameraManager_session_held be self device_id resolution ops)
        as (_ & HQ & _).
      fold body g in HQ. rewrite Forall_forall in HQ. exact (HQ _ Hin i eq_refl).
    + intros ops r.
      pose proof (CameraManager_session_handles be self (device_id, resolution)
                    (ops ++ [Close])) as (H1 & H2 & H3).
      assert (Hd : final r = Done) by apply run_then_close.
      specialize (H3 Hd). fold body in H3.
      split; [exact Hd|]. split; [|split]; [| |exact (Hdone _ Hd)];
        unfold r, g, CameraManager.generate_frames; intro; lia.
    + intros M dev Ho HM r r'.
      destruct (CameraManager_open_session be self device_id resolution Ho) as (H1 & H2).
      fold dev in H2. rewrite <- H2 in HM.
      pose proof (fresh_abandoned (CameraManager.generate_frames_body be self)
                    (fun l => chunks_of be quality_80 (CameraManager.pending l))
                    (fun l => CameraManager_streaming_chunks be _ _ _)
                    (CameraManager_enter_handles be self)
                    (fun l => CameraManager_streaming_handles be _ _ _)
                    (CameraManager_unwind_handles be self)
                    (device_id, resolution) M H1 HM) as (Hp & Hh & Hr & _ & Hd & Hr').
      unfold CameraManager.generate_frames in H2. rewrite H2 in Hp.
      destruct (CameraManager_session_held be self device_id resolution (repeat Next M))
        as (Ht & _ & Hk).
      fold body g r in Ht, Hk.
      change (holds (final r) = 1%nat) in Hh. change (releases (trace r) = 0%nat) in Hr.
      change (final r' = Done) in Hd. change (releases (trace r') = 1%nat) in Hr'.
      destruct (final r) as [args | l |] eqn:Hf; try discriminate Hh.
      destruct Hk as (Hid & Hz).
      assert (Hlog : trace r'
                     = trace r ++ [Print (f ["Releasing device "; str device_id; "..."]);
                                   Release device_id]).
      { unfold r'. rewrite (run_close_suspended body (repeat Next M) g l Hf).
        fold r. f_equal. cbn [unwind body CameraManager.generate_frames_body].
        unfold CameraManager.finally_. straight_line. now rewrite Hid, Hz. }
      repeat split; try assumption.
      * rewrite Ht. cbn [held_by]. now rewrite Hz.
      * exact (Hdone _ Hd).
Qed.

(** C2 on a camera with three samples whose consumer leaves after two
    chunks: the handle of slot 0 is open until the generator is
    discarded, and that discard releases slot 0. *)
Lemma C2_witness_leave_after_two_of_three :
  let be := bench (camera [[x01]; [x02]; [x03]]) in
  (let body := camera_module.generate_frames_body be in
   let g := camera_module.generate_frames (PyInt 0) (640, 480) in
   let r := run body (repeat Next 2) g in
   let r' := run body (repeat Next 2 ++ [Close]) g in
   pulled r = map Chunk (firstn 2 (chunks_of be no_params [[x01]; [x02]; [x03]]))
   /\ releases (trace r) = 0%nat
   /\ open_handles (trace r) = [0]
   /\ final r' = Done
   /\ trace r' = trace r ++ [Print "Releasing device 0..."; Release 0]
   /\ releases (trace r') = 1%nat
   /\ open_handles (trace r') = [])
  /\ (let self := {| CameraManager.backend := cv2.CAP_ANY |} in
      let body := CameraManager.generate_frames_body be self in
      let g := CameraManager.generate_frames 0 (640, 480) in
      let r := run body (repeat Next 2) g in
      let r' := run body (repeat Next 2 ++ [Close]) g in
      pulled r = map Chunk (firstn 2 (chunks_of be quality_80 [[x01]; [x02]; [x03]]))
      /\ releases (trace r) = 0%nat
      /\ open_handles (trace r) = [0]
      /\ final r' = Done
      /\ trace r' = trace r ++ [Print "Releasing device 0..."; Release 0]
      /\ releases (trace r') = 1%nat
      /\ open_handles (trace r') = []).
Proof.
  split.
  - apply (proj2 (proj2 (proj2 (proj2 (proj1 (C2_released_exactly_once_on_every_path
                                  (bench (camera [[x01]; [x02]; [x03]])) (640, 480))
                               (PyInt 0))))) 0 2%nat eq_refl eq_refl).
    vm_compute. split; repeat constructor.
  - apply (proj2 (proj2 (proj2 (proj2 (proj2 (C2_released_exactly_once_on_every_path
                                  (bench (camera [[x01]; [x02]; [x03]])) (640, 480))
                               {| CameraManager.backend := cv2.CAP_ANY |} 0)))) 2%nat eq_refl).
    vm_compute. split; repeat constructor.
Defined.

(** *** Encoder parameters *)

Lemma encodes_with_app params (l1 l2 : list Event) :
  encodes_with params l1 -> encodes_with params l2 -> encodes_with params (l1 ++ l2).
Proof.
  intros (H1 & H1') (H2 & H2'). split.
  - unfold encode_params. rewrite flat_map_app. apply Forall_app. split; assumption.
  - rewrite !count_app. congruence.
Qed.

Lemma session_encodes {A L : Type} (body : Body A L) (params : list Z) :
  (forall args, encodes_with params (trace (enter body args))) ->
  (forall l, encodes_with params (trace (resume body l))) ->
  (forall l, encodes_with params (trace (unwind body l))) ->
  forall ops g, encodes_with params (trace (run body ops g)).
Proof.
  intros He Hr Hu.
  apply (run_invariant body (fun _ t _ => encodes_with params t)).
  - intros _. split; [constructor | reflexivity].
  - intros _ t1 _ t2 _. apply encodes_with_app.
  - intros [args | l |]; unfold next; rewrite ?trace_bind, ?trace_ret, ?app_nil_r.
    + apply He.
    + apply Hr.
    + split; [constructor | reflexivity].
  - intros [args | l |]; unfold close; rewrite ?trace_bind, ?trace_ret, ?app_nil_r.
    + split; [constructor | reflexivity].
    + apply Hu.
    + split; [constructor | reflexivity].
Qed.

Lemma camera_module_enter_encodes be args :
  encodes_with no_params (trace (enter (camera_module.generate_frames_body be) args)).
Proof.
  destruct args as (device_id, resolution).
  destruct (int device_id) as [z|e] eqn:Hint.
  - destruct (dev_opened (device be z (platform_api be))) eqn:Ho.
    + destruct (camera_module_enter_open be device_id resolution z Hint Ho) as (_ & ->).
      apply encodes_with_app.
      * split; [constructor | reflexivity].
      * apply camera_module_streaming_encodes.
    + rewrite (camera_module_enter_closed be device_id resolution z Hint Ho).
      split; [constructor | reflexivity].
  - rewrite (camera_module_enter_invalid be device_id resolution e Hint).
    split; [constructor | reflexivity].
Qed.

Lemma CameraManager_enter_encodes be self args :
  encodes_with quality_80
    (trace (enter (CameraManager.generate_frames_body be self) args)).
Proof.
  destruct args as (device_id, resolution).
  destruct (dev_opened (device be device_id (Some (CameraManager.backend self)))) eqn:Ho.
  - destruct (CameraManager_enter_open be self device_id resolution Ho) as (_ & ->).
    apply encodes_with_app; [|apply encodes_with_app].
    + split; [constructor | reflexivity].
    + destruct (negb _ || negb _); split; try constructor; reflexivity.
    + apply CameraManager_streaming_encodes.
  - rewrite (CameraManager_enter_closed be self device_id resolution Ho).
    split; [constructor | reflexivity].
Qed.

(** C8, as the code has it: in every session of
    [CameraManager.generate_frames], each frame read is passed to one
    [imencode] call and every such call asks for JPEG quality 80.  The
    function [camera_module.generate_frames] encodes each frame read as
    well, but passes no parameters, hence no quality. *)
Theorem C8_quality_80_in_CameraManager_only :
  forall be resolution ops,
    (forall self device_id,
        let log := trace (run (CameraManager.generate_frames_body be self) ops
                              (CameraManager.generate_frames device_id resolution)) in
        Forall (fun params => params = [cv2.IMWRITE_JPEG_QUALITY; 80]
                              /\ quality_of params = Some 80)
               (encode_params log)
        /\ count is_encode log = count is_read_ok log)
    /\ (forall device_id,
          let log := trace (run (camera_module.generate_frames_body be) ops
                                (camera_module.generate_frames device_id resolution)) in
          Forall (fun params => params = [] /\ quality_of params = None)
                 (encode_params log)
          /\ count is_encode log = count is_read_ok log).
Proof.
  intros be resolution ops. split.
  - intros self device_id log.
    destruct (session_encodes (CameraManager.generate_frames_body be self) quality_80
                (CameraManager_enter_encodes be self)
                (fun l => CameraManager_streaming_encodes be _ _ _)
                (fun l => conj (Forall_nil _) eq_refl)
                ops (CameraManager.generate_frames device_id resolution)) as (H1 & H2).
    fold log in H1, H2. split; [|exact H2].
    eapply Forall_impl; [|exact H1]. intros params ->. split; reflexivity.
  - intros device_id log.
    destruct (session_encodes (camera_module.generate_frames_body be) no_params
                (camera_module_enter_encodes be)
                (fun l => camera_module_streaming_encodes be _ _ _)
                (fun l => conj (Forall_nil _) eq_refl)
                ops (camera_module.generate_frames device_id resolution)) as (H1 & H2).
    fold log in H1, H2. split; [|exact H2].
    eapply Forall_impl; [|exact H1]. intros params ->. split; reflexivity.
Qed.

(** C8 as stated fails on [camera_module.generate_frames]: its one
    encode call for a one-frame camera carries no parameters, so no
    quality of 80. *)
Lemma C8_camera_module_passes_no_quality :
  let be := bench (camera [[x01]]) in
  let log := trace (run (camera_module.generate_frames_body be) [Next; Next]
                        (camera_module.generate_frames (PyInt 0) (640, 480))) in
  count is_read_ok log = 1%nat
  /\ encode_params log = [[]]
  /\ ~ Forall (fun params => quality_of params = Some 80) (encode_params log).
Proof.
  cbv zeta. split; [reflexivity|]. split; [reflexivity|].
  intro H. vm_compute in H. inversion H as [|? ? Hq _]. discriminate Hq.
Qed.

(** *** The resolution read back *)

Lemma mismatch_spec (actual resolution : Z * Z) :
  negb (fst actual =? fst resolution) || negb (snd actual =? snd resolution) = true
  <-> actual <> resolution.
Proof.
  destruct actual as (aw, ah), resolution as (w, h). simpl.
  destruct (Z.eqb_spec aw w), (Z.eqb_spec ah h); simpl; split; congruence.
Qed.

Lemma trace_first_pull {A L : Type} (body : Body A L) (args : A) :
  trace (next body (Fresh args)) = trace (enter body args).
Proof. unfold next. now rewrite trace_bind, trace_ret, app_nil_r. Qed.

Lemma printed_app (l1 l2 : list Event) : printed (l1 ++ l2) = printed l1 ++ printed l2.
Proof. apply flat_map_app. Qed.

(** A property of every call a body issues holds of every call of a session. *)
Lemma session_forall {A L : Type} (body : Body A L) (P : Event -> Prop) :
  (forall args, Forall P (trace (enter body args))) ->
  (forall l, Forall P (trace (resume body l))) ->
  (forall l, Forall P (trace (unwind body l))) ->
  forall ops g, Forall P (trace (run body ops g)).
Proof.
  intros He Hr Hu.
  apply (run_invariant body (fun _ t _ => Forall P t)).
  - intros _. constructor.
  - intros _ t1 _ t2 _ H1 H2. apply Forall_app. split; assumption.
  - intros [args | l |]; unfold next; rewrite ?trace_bind, ?trace_ret, ?app_nil_r;
      [apply He | apply Hr | constructor].
  - intros [args | l |]; unfold close; rewrite ?trace_bind, ?trace_ret, ?app_nil_r;
      [constructor | apply Hu | constructor].
Qed.

Lemma silent_not_printed (log : list Event) :
  Forall silent log -> ~ In mismatch_warning (printed log).
Proof.
  induction 1 as [|e log He _ IH]; [intros []|].
  destruct e; try exact IH.
  intros [->|Hin]; [now apply He | now apply IH].
Qed.

Ltac silence :=
  repeat (apply Forall_cons || apply Forall_nil);
  unfold silent, mismatch_warning, f; simpl String.concat; discriminate.

Lemma camera_module_streaming_silent be device_id cap pending :
  Forall silent (trace (camera_module.streaming be device_id cap pending)).
Proof.
  induction pending as [|frame pending IH]; simpl camera_module.streaming.
  - unfold camera_module.finally_. straight_line. silence.
  - straight_line. destruct (fst (encoder be ".jpg" frame [])); straight_line.
    + silence.
    + apply Forall_cons; [silence|]. apply Forall_cons; [silence|].
      apply Forall_cons; [silence|]. exact IH.
Qed.

Lemma CameraManager_streaming_silent be device_id cap pending :
  Forall silent (trace (CameraManager.streaming be device_id cap pending)).
Proof.
  induction pending as [|frame pending IH]; simpl CameraManager.streaming.
  - unfold CameraManager.finally_. straight_line. silence.
  - straight_line.
    destruct (fst (encoder be ".jpg" frame [cv2.IMWRITE_JPEG_QUALITY; 80]));
      straight_line.
    + silence.
    + apply Forall_cons; [silence|]. apply Forall_cons; [silence|].
      apply Forall_cons; [silence|]. exact IH.
Qed.

Lemma camera_module_enter_silent be args :
  Forall silent (trace (enter (camera_module.generate_frames_body be) args)).
Proof.
  destruct args as (device_id, resolution).
  destruct (int device_id) as [z|e] eqn:Hint.
  - destruct (dev_opened (device be z (platform_api be))) eqn:Ho.
    + destruct (camera_module_enter_open be device_id resolution z Hint Ho) as (_ & ->).
      apply Forall_app. split; [silence | apply camera_module_streaming_silent].
    + rewrite (camera_module_enter_closed be device_id resolution z Hint Ho). silence.
  - rewrite (camera_module_enter_invalid be device_id resolution e Hint). silence.
Qed.

Lemma camera_module_unwind_silent be l :
  Forall silent (trace (unwind (camera_module.generate_frames_body be) l)).
Proof.
  cbn [unwind camera_module.generate_frames_body]. unfold camera_module.finally_.
  straight_line. silence.
Qed.

Lemma camera_module_pulls be device_id resolution z n :
  int device_id = inl z ->
  dev_opened (device be z (platform_api be)) = true ->
  let chunks := chunks_of be no_params (dev_frames (device be z (platform_api be))) in
  pulled (run (camera_module.generate_frames_body be) (repeat Next n)
              (camera_module.generate_frames device_id resolution))
  = map Chunk (firstn n chunks) ++ repeat StopIteration (n - List.length chunks).
Proof.
  intros Hint Ho chunks.
  destruct (camera_module_open_session be device_id resolution z Hint Ho) as (_ & H).
  fold chunks in H. rewrite <- H.
  apply (pulls (camera_module.generate_frames_body be)
               (fun l => chunks_of be no_params (camera_module.pending l))).
  intro l. apply camera_module_streaming_chunks.
Qed.

Lemma CameraManager_pulls be self device_id resolution n :
  dev_opened (device be device_id (Some (CameraManager.backend self))) = true ->
  let chunks := chunks_of be quality_80
                  (dev_frames (device be device_id (Some (CameraManager.backend self)))) in
  pulled (run (CameraManager.generate_frames_body be self) (repeat Next n)
              (CameraManager.generate_frames device_id resolution))
  = map Chunk (firstn n chunks) ++ repeat StopIteration (n - List.length chunks).
Proof.
  intros Ho chunks.
  destruct (CameraManager_open_session be self device_id resolution Ho) as (_ & H).
  fold chunks in H. rewrite <- H.
  apply (pulls (CameraManager.generate_frames_body be self)
               (fun l => chunks_of be quality_80 (CameraManager.pending l))).
  intro l. apply CameraManager_streaming_chunks.
Qed.




(** *** Beyond the claims: enumeration one slot at a time *)

Lemma peak_app (l1 l2 : list Event) (held : list Z) :
  peak held (l1 ++ l2) = Nat.max (peak held l1) (peak (fold_left track l1 held) l2).
Proof.
  revert held. induction l1 as [|e l1 IH]; intro held; simpl.
  - destruct l2; simpl; lia.
  - rewrite IH. lia.
Qed.

Lemma probe_one_at_a_time be api (x : Z) :
  (peak [] (probe_log be api x) <= 1)%nat
  /\ fold_left track (probe_log be api x) [] = [].
Proof.
  unfold probe_log.
  destruct (dev_opened (device be x api)); cbn; rewrite ?Z.eqb_refl; split;
    reflexivity || lia.
Qed.

Lemma probes_one_at_a_time be api (xs : list Z) :
  let log := flat_map (probe_log be api) xs in
  (peak [] log <= 1)%nat
  /\ Forall (fun e => is_open_call e || is_release e = true) log.
Proof.
  induction xs as [|x xs (IH1 & IH2)]; cbv zeta in *.
  - split; [simpl; lia | constructor].
  - change (flat_map (probe_log be api) (x :: xs))
      with (probe_log be api x ++ flat_map (probe_log be api) xs).
    rewrite peak_app. split.
    + destruct (probe_one_at_a_time be api x) as (Hp & ->). lia.
    + apply Forall_app. split; [|exact IH2].
      unfold probe_log. destruct (dev_opened (device be x api)); repeat constructor.
Qed.

(** X1: while either enumeration runs, never more than one handle is
    open at once, and all it issues are open and release calls: it
    never reads a frame, sets a property or prints. *)
Theorem X1_enumeration_holds_one_handle_at_most :
  forall be : Backend,
    (let log := trace (camera_module.get_available_cameras be) in
     (peak [] log <= 1)%nat
     /\ Forall (fun e => is_open_call e || is_release e = true) log)
    /\ (forall self,
          let log := trace (CameraManager.get_available_cameras be self) in
          (peak [] log <= 1)%nat
          /\ Forall (fun e => is_open_call e || is_release e = true) log).
Proof.
  intro be. split; [|intro self]; cbv zeta.
  - destruct (camera_module_enumeration be) as (_ & ->). apply probes_one_at_a_time.
  - destruct (CameraManager_enumeration be self) as (_ & ->). apply probes_one_at_a_time.
Qed.

(** *** Beyond the claims: what a session's log looks like *)

Lemma camera_module_streaming_loop_events be device_id cap pending :
  Forall (fun e => is_loop_event e = true)
         (trace (camera_module.streaming be device_id cap pending)).
Proof.
  induction pending as [|frame pending IH]; simpl camera_module.streaming.
  - unfold camera_module.finally_. straight_line. repeat constructor.
  - straight_line. destruct (fst (encoder be ".jpg" frame [])); straight_line.
    + repeat constructor.
    + repeat (apply Forall_cons; [reflexivity|]). exact IH.
Qed.

Lemma CameraManager_streaming_loop_events be device_id cap pending :
  Forall (fun e => is_loop_event e = true)
         (trace (CameraManager.streaming be device_id cap pending)).
Proof.
  induction pending as [|frame pending IH]; simpl CameraManager.streaming.
  - unfold CameraManager.finally_. straight_line. repeat constructor.
  - straight_line.
    destruct (fst (encoder be ".jpg" frame [cv2.IMWRITE_JPEG_QUALITY; 80]));
      straight_line.
    + repeat constructor.
    + repeat (apply Forall_cons; [reflexivity|]). exact IH.
Qed.

Lemma release_is_last_nil : release_is_last [].
Proof. intros before after i H. destruct before; discriminate H. Qed.

Lemma release_is_last_cons (e : Event) (log : list Event) :
  is_release e = false -> release_is_last log -> release_is_last (e :: log).
Proof.
  intros He Hl before after i H. destruct before as [|b before]; simpl in H.
  - inversion H; subst. discriminate He.
  - inversion H; subst. eapply Hl. reflexivity.
Qed.

Lemma release_is_last_end (i : Z) : release_is_last [Release i].
Proof.
  intros before after j H. destruct before as [|b before]; simpl in H.
  - now inversion H.
  - inversion H as [[Hb Hr]]. destruct before; discriminate Hr.
Qed.

Lemma release_is_last_app (l1 l2 : list Event) :
  releases l1 = 0%nat -> release_is_last l2 -> release_is_last (l1 ++ l2).
Proof.
  induction l1 as [|e l1 IH]; intros H1 H2; [exact H2|].
  simpl. unfold releases, count in H1. simpl in H1.
  destruct (is_release e) eqn:He; [discriminate H1|].
  apply release_is_last_cons; [exact He|]. apply IH; assumption.
Qed.

Lemma loop_release_is_last (log : list Event) (i : Z) :
  releases log = 0%nat -> release_is_last (log ++ [Release i]).
Proof. intro H. apply release_is_last_app; [exact H | apply release_is_last_end]. Qed.

Lemma camera_module_streaming_release_last be device_id cap pending :
  release_is_last (trace (camera_module.streaming be device_id cap pending)).
Proof.
  induction pending as [|frame pending IH]; simpl camera_module.streaming.
  - unfold camera_module.finally_. straight_line.
    repeat (apply release_is_last_cons; [reflexivity|]). apply release_is_last_end.
  - straight_line. destruct (fst (encoder be ".jpg" frame [])); straight_line.
    + repeat (apply release_is_last_cons; [reflexivity|]). apply release_is_last_nil.
    + repeat (apply release_is_last_cons; [reflexivity|]). exact IH.
Qed.

Lemma CameraManager_streaming_release_last be device_id cap pending :
  release_is_last (trace (CameraManager.streaming be device_id cap pending)).
Proof.
  induction pending as [|frame pending IH]; simpl CameraManager.streaming.
  - unfold CameraManager.finally_. straight_line.
    repeat (apply release_is_last_cons; [reflexivity|]). apply release_is_last_end.
  - straight_line.
    destruct (fst (encoder be ".jpg" frame [cv2.IMWRITE_JPEG_QUALITY; 80]));
      straight_line.
    + repeat (apply release_is_last_cons; [reflexivity|]). apply release_is_last_nil.
    + repeat (apply release_is_last_cons; [reflexivity|]). exact IH.
Qed.

Lemma camera_module_enter_release_last be args :
  release_is_last (trace (enter (camera_module.generate_frames_body be) args)).
Proof.
  destruct args as (device_id, resolution).
  destruct (int device_id) as [z|e] eqn:Hint.
  - destruct (dev_opened (device be z (platform_api be))) eqn:Ho.
    + destruct (camera_module_enter_open be device_id resolution z Hint Ho) as (_ & ->).
      apply release_is_last_app; [reflexivity|].
      apply camera_module_streaming_release_last.
    + rewrite (camera_module_enter_closed be device_id resolution z Hint Ho).
      unfold trace; cbn [snd].
    repeat (apply release_is_last_cons; [reflexivity|]). apply release_is_last_nil.
  - rewrite (camera_module_enter_invalid be device_id resolution e Hint).
    unfold trace; cbn [snd].
    repeat (apply release_is_last_cons; [reflexivity|]). apply release_is_last_nil.
Qed.

Lemma CameraManager_enter_release_last be self args :
  release_is_last (trace (enter (CameraManager.generate_frames_body be self) args)).
Proof.
  destruct args as (device_id, resolution).
  destruct (dev_opened (device be device_id (Some (CameraManager.backend self)))) eqn:Ho.
  - destruct (CameraManager_enter_open be self device_id resolution Ho) as (_ & ->).
    apply release_is_last_app; [reflexivity|].
    apply release_is_last_app; [destruct (negb _ || negb _); reflexivity|].
    apply CameraManager_streaming_release_last.
  - rewrite (CameraManager_enter_closed be self device_id resolution Ho).
    unfold trace; cbn [snd].
    repeat (apply release_is_last_cons; [reflexivity|]). apply release_is_last_nil.
Qed.

Section ReleaseLast.

Context {A L : Type} (body : Body A L).

Hypothesis enter_handles : forall args,
  (opens (trace (enter body args))
     = releases (trace (enter body args))
       + holds (snd (settle (A:=A) (value (enter body args))))
   /\ opens (trace (enter body args)) <= 1)%nat.

Hypothesis resume_handles : forall l,
  (opens (trace (resume body l)) = 0
   /\ releases (trace (resume body l))
      + holds (snd (settle (A:=A) (value (resume body l)))) = 1)%nat.

Hypothesis enter_last : forall args, release_is_last (trace (enter body args)).
Hypothesis resume_last : forall l, release_is_last (trace (resume body l)).
Hypothesis unwind_last : forall l, release_is_last (trace (unwind body l)).

Lemma settle_not_held (step : Step L) :
  holds (snd (settle (A:=A) step)) = 0%nat -> snd (settle (A:=A) step) = Done.
Proof. destruct step; simpl; [discriminate | reflexivity]. Qed.

(** Once a release has been issued the generator has ended, so nothing
    can follow the release. *)
Lemma session_release_last (ops : list Op) (g : Generator A L) :
  release_is_last (trace (run body ops g)).
Proof.
  enough (H : (g = Done -> trace (run body ops g) = [] /\ final (run body ops g) = Done)
              /\ release_is_last (trace (run body ops g))
              /\ ((1 <= releases (trace (run body ops g)))%nat ->
                  final (run body ops g) = Done)) by apply H.
  revert ops g.
  apply (run_invariant body (fun g t g' =>
           (g = Done -> t = [] /\ g' = Done)
           /\ release_is_last t
           /\ ((1 <= releases t)%nat -> g' = Done))).
  - intro g. repeat split; auto.
    + apply release_is_last_nil.
    + cbn. lia.
  - intros g1 t1 g2 t2 g3 (Ha1 & Hb1 & Hc1) (Ha2 & Hb2 & Hc2). repeat split.
    + destruct (Ha1 H) as (-> & Hg2). destruct (Ha2 Hg2) as (-> & _). reflexivity.
    + destruct (Ha1 H) as (_ & Hg2). now destruct (Ha2 Hg2).
    + intros before after i Heq.
      destruct (Nat.eq_dec (releases t1) 0) as [Hz|Hnz].
      * apply (release_is_last_app t1 t2 Hz Hb2 before after i Heq).
      * destruct (Ha2 (Hc1 ltac:(lia))) as (-> & _). rewrite app_nil_r in Heq.
        apply (Hb1 before after i Heq).
    + rewrite releases_app. intro Hr.
      destruct (Nat.eq_dec (releases t1) 0) as [Hz|Hnz].
      * apply Hc2. lia.
      * now destruct (Ha2 (Hc1 ltac:(lia))).
  - intros [args | l |]; unfold next; rewrite ?trace_bind, ?value_bind, ?trace_ret,
      ?value_ret, ?app_nil_r.
    + repeat split; try discriminate; [apply enter_last|].
      intro Hr. apply settle_not_held. destruct (enter_handles args). lia.
    + repeat split; try discriminate; [apply resume_last|].
      intro Hr. apply settle_not_held. destruct (resume_handles l). lia.
    + repeat split; auto. apply release_is_last_nil.
  - intros [args | l |]; unfold close; rewrite ?trace_bind, ?value_bind, ?trace_ret,
      ?value_ret, ?app_nil_r.
    + repeat split; auto; try discriminate; apply release_is_last_nil.
    + repeat split; auto; try discriminate; apply unwind_last.
    + repeat split; auto; apply release_is_last_nil.
Qed.

End ReleaseLast.

(** X2: in every session of either pipeline, whatever the consumer
    does, the release is the last call of all: no read, encode, print or
    second release ever follows it. *)
Theorem X2_nothing_follows_the_release :
  forall be resolution ops,
    (forall device_id,
        release_is_last
          (trace (run (camera_module.generate_frames_body be) ops
                      (camera_module.generate_frames device_id resolution))))
    /\ (forall self device_id,
          release_is_last
            (trace (run (CameraManager.generate_frames_body be self) ops
                        (CameraManager.generate_frames device_id resolution)))).
Proof.
  intros be resolution ops. split.
  - intro device_id. apply session_release_last.
    + apply camera_module_enter_handles.
    + intro l. apply camera_module_streaming_handles.
    + apply camera_module_enter_release_last.
    + intro l. apply camera_module_streaming_release_last.
    + intro l. cbn [unwind camera_module.generate_frames_body].
      unfold camera_module.finally_. straight_line.
      apply release_is_last_cons; [reflexivity | apply release_is_last_end].
  - intros self device_id. apply session_release_last.
    + apply CameraManager_enter_handles.
    + intro l. apply CameraManager_streaming_handles.
    + apply CameraManager_enter_release_last.
    + intro l. apply CameraManager_streaming_release_last.
    + intro l. cbn [unwind CameraManager.generate_frames_body].
      unfold CameraManager.finally_. straight_line.
      apply release_is_last_cons; [reflexivity | apply release_is_last_end].
Qed.

(** *** Beyond the claims: the backend hint, the settling delay *)

Lemma loop_events_forall (P : Event -> Prop) (log : list Event) :
  (forall e, is_loop_event e = true -> P e) ->
  Forall (fun e => is_loop_event e = true) log -> Forall P log.
Proof. intros HP H. eapply Forall_impl; [exact HP | exact H]. Qed.

Lemma loop_events_count (p : Event -> bool) (log : list Event) :
  (forall e, is_loop_event e = true -> p e = false) ->
  Forall (fun e => is_loop_event e = true) log -> count p log = 0%nat.
Proof.
  intros Hp H. unfold count. induction H as [|e log He _ IH]; [reflexivity|].
  simpl. now rewrite (Hp e He).
Qed.

Lemma loop_event_opens_with (api : option Z) (e : Event) :
  is_loop_event e = true -> opens_with api e.
Proof. destruct e; simpl; intro H; try exact I; discriminate H. Qed.

Lemma probes_open_with be api (xs : list Z) :
  Forall (opens_with api) (flat_map (probe_log be api) xs).
Proof.
  induction xs as [|x xs IH]; [constructor|].
  change (flat_map (probe_log be api) (x :: xs))
    with (probe_log be api x ++ flat_map (probe_log be api) xs).
  apply Forall_app. split; [|exact IH].
  unfold probe_log. destruct (dev_opened (device be x api)); repeat constructor.
Qed.

Lemma camera_module_enter_opens_with be args :
  Forall (opens_with (platform_api be))
         (trace (enter (camera_module.generate_frames_body be) args)).
Proof.
  destruct args as (device_id, resolution).
  destruct (int device_id) as [z|e] eqn:Hint.
  - destruct (dev_opened (device be z (platform_api be))) eqn:Ho.
    + destruct (camera_module_enter_open be device_id resolution z Hint Ho) as (_ & ->).
      apply Forall_app. split; [repeat constructor|].
      apply (loop_events_forall _ _ (loop_event_opens_with _)).
      apply camera_module_streaming_loop_events.
    + rewrite (camera_module_enter_closed be device_id resolution z Hint Ho).
      repeat constructor.
  - rewrite (camera_module_enter_invalid be device_id resolution e Hint).
    repeat constructor.
Qed.

Lemma CameraManager_enter_opens_with be self args :
  Forall (opens_with (Some (CameraManager.backend self)))
         (trace (enter (CameraManager.generate_frames_body be self) args)).
Proof.
  destruct args as (device_id, resolution).
  destruct (dev_opened (device be device_id (Some (CameraManager.backend self)))) eqn:Ho.
  - destruct (CameraManager_enter_open be self device_id resolution Ho) as (_ & ->).
    apply Forall_app. split; [repeat constructor|].
    apply Forall_app. split; [destruct (negb _ || negb _); repeat constructor|].
    apply (loop_events_forall _ _ (loop_event_opens_with _)).
    apply CameraManager_streaming_loop_events.
  - rewrite (CameraManager_enter_closed be self device_id resolution Ho).
    repeat constructor.
Qed.

(** X3: constructing a [CameraManager] touches no device and fixes the
    backend hint: the one given, or else DirectShow on Windows and the
    automatic choice elsewhere.  Every open call the manager then makes,
    in enumeration and in every streaming session, passes that hint. *)
Theorem X3_manager_backend_reaches_every_open :
  forall be backend,
    let init := CameraManager.__init__ be backend in
    let self := value init in
    let hint := match backend with
                | Some given => given
                | None => if String.eqb (platform_system be) "Windows"
                          then cv2.CAP_DSHOW else cv2.CAP_ANY
                end in
    Forall (fun e => is_device_call e = false) (trace init)
    /\ CameraManager.backend self = hint
    /\ Forall (opens_with (Some hint)) (trace (CameraManager.get_available_cameras be self))
    /\ (forall device_id resolution ops,
          Forall (opens_with (Some hint))
                 (trace (run (CameraManager.generate_frames_body be self) ops
                             (CameraManager.generate_frames device_id resolution)))).
Proof.
  intros be backend init self hint.
  assert (Hb : CameraManager.backend self = hint) by (destruct backend; reflexivity).
  split; [repeat constructor|]. split; [exact Hb|]. rewrite <- Hb. split.
  - destruct (CameraManager_enumeration be self) as (_ & ->). apply probes_open_with.
  - intros device_id resolution ops. apply session_forall.
    + apply CameraManager_enter_opens_with.
    + intro l. apply (loop_events_forall _ _ (loop_event_opens_with _)).
      apply CameraManager_streaming_loop_events.
    + intro l. repeat constructor.
Qed.

(** X4: every open call of [camera_module], in enumeration and in every
    streaming session, is the two-argument call with DirectShow when
    [platform.system()] is "Windows" and the one-argument call otherwise. *)
Theorem X4_camera_module_backend_follows_platform :
  forall be,
    let api := if String.eqb (platform_system be) "Windows"
               then Some cv2.CAP_DSHOW else None in
    Forall (opens_with api) (trace (camera_module.get_available_cameras be))
    /\ (forall device_id resolution ops,
          Forall (opens_with api)
                 (trace (run (camera_module.generate_frames_body be) ops
                             (camera_module.generate_frames device_id resolution)))).
Proof.
  intros be api. change api with (platform_api be). split.
  - destruct (camera_module_enumeration be) as (_ & ->). apply probes_open_with.
  - intros device_id resolution ops. apply session_forall.
    + apply camera_module_enter_opens_with.
    + intro l. apply (loop_events_forall _ _ (loop_event_opens_with _)).
      apply camera_module_streaming_loop_events.
    + intro l. repeat constructor.
Qed.

(** Counts that grow only when a device opens. *)
Lemma session_count_per_open {A L : Type} (body : Body A L) (p : Event -> bool) (k : nat) :
  (forall args, count p (trace (enter body args)) = k * opens (trace (enter body args)))%nat ->
  (forall l, count p (trace (resume body l)) = k * opens (trace (resume body l)))%nat ->
  (forall l, count p (trace (unwind body l)) = k * opens (trace (unwind body l)))%nat ->
  forall ops g, (count p (trace (run body ops g)) = k * opens (trace (run body ops g)))%nat.
Proof.
  intros He Hr Hu.
  apply (run_invariant body (fun _ t _ => (count p t = k * opens t)%nat)).
  - intros _. cbn. lia.
  - intros _ t1 _ t2 _ H1 H2. rewrite count_app, opens_app. lia.
  - intros [args | l |]; unfold next; rewrite ?trace_bind, ?trace_ret, ?app_nil_r;
      [apply He | apply Hr | cbn; lia].
  - intros [args | l |]; unfold close; rewrite ?trace_bind, ?trace_ret, ?app_nil_r;
      [cbn; lia | apply Hu | cbn; lia].
Qed.

Lemma camera_module_count_per_open be (p : Event -> bool) (k : nat) :
  (forall e, is_loop_event e = true -> p e = false) ->
  (forall z a w h aw ah t1 t2,
      count p [Print t1; Open z a true; SetProp z cv2.CAP_PROP_FRAME_WIDTH w;
               SetProp z cv2.CAP_PROP_FRAME_HEIGHT h; Sleep 1;
               GetProp z cv2.CAP_PROP_FRAME_WIDTH aw;
               GetProp z cv2.CAP_PROP_FRAME_HEIGHT ah; Print t2] = k) ->
  (forall z a, p (Open z a false) = false) ->
  forall device_id resolution ops,
    let log := trace (run (camera_module.generate_frames_body be) ops
                          (camera_module.generate_frames device_id resolution)) in
    (count p log = k * opens log)%nat.
Proof.
  intros Hloop Hpro Hfail device_id resolution ops.
  assert (Hprint : forall t, p (Print t) = false) by (intro t; now apply Hloop).
  assert (Hs : forall d c pend,
             (count p (trace (camera_module.streaming be d c pend)) = 0
              /\ opens (trace (camera_module.streaming be d c pend)) = 0)%nat).
  { intros d c pend. split.
    - apply loop_events_count; [exact Hloop|].
      apply camera_module_streaming_loop_events.
    - apply camera_module_streaming_handles. }
  apply session_count_per_open.
  - intros (d, res). destruct (int d) as [z|e] eqn:Hint.
    + destruct (dev_opened (device be z (platform_api be))) eqn:Ho.
      * destruct (camera_module_enter_open be d res z Hint Ho) as (_ & ->).
        rewrite count_app, opens_app, Hpro.
        destruct (Hs d (configured z (device be z (platform_api be)) res)
                    (dev_frames (device be z (platform_api be)))) as (-> & ->).
        cbn. lia.
      * rewrite (camera_module_enter_closed be d res z Hint Ho).
        unfold count, trace. cbn [snd filter]. rewrite !Hprint, Hfail. cbn. lia.
    + rewrite (camera_module_enter_invalid be d res e Hint).
      unfold count, trace. cbn [snd filter]. rewrite !Hprint. cbn. lia.
  - intro l. cbn [resume camera_module.generate_frames_body].
    destruct (Hs (camera_module.device_id l) (camera_module.cap l)
                 (camera_module.pending l)) as (-> & ->). lia.
  - intro l. cbn [unwind camera_module.generate_frames_body].
    unfold camera_module.finally_. straight_line.
    unfold count. cbn [filter]. rewrite Hprint, (Hloop (Release _) eq_refl). cbn. lia.
Qed.

Lemma CameraManager_count_per_open be self (p : Event -> bool) (k : nat) :
  (forall e, is_loop_event e = true -> p e = false) ->
  (forall z a w h aw ah t1 t2,
      count p [Print t1; Open z a true; SetProp z cv2.CAP_PROP_FRAME_WIDTH w;
               SetProp z cv2.CAP_PROP_FRAME_HEIGHT h;
               GetProp z cv2.CAP_PROP_FRAME_WIDTH aw;
               GetProp z cv2.CAP_PROP_FRAME_HEIGHT ah; Print t2] = k) ->
  (forall z a, p (Open z a false) = false) ->
  forall device_id resolution ops,
    let log := trace (run (CameraManager.generate_frames_body be self) ops
                          (CameraManager.generate_frames device_id resolution)) in
    (count p log = k * opens log)%nat.
Proof.
  intros Hloop Hpro Hfail device_id resolution ops.
  assert (Hprint : forall t, p (Print t) = false) by (intro t; now apply Hloop).
  assert (Hs : forall d c pend,
             (count p (trace (CameraManager.streaming be d c pend)) = 0
              /\ opens (trace (CameraManager.streaming be d c pend)) = 0)%nat).
  { intros d c pend. split.
    - apply loop_events_count; [exact Hloop|].
      apply CameraManager_streaming_loop_events.
    - apply CameraManager_streaming_handles. }
  apply session_count_per_open.
  - intros (d, res).
    destruct (dev_opened (device be d (Some (CameraManager.backend self)))) eqn:Ho.
    + destruct (CameraManager_enter_open be self d res Ho) as (_ & ->).
      rewrite !count_app, !opens_app, Hpro.
      destruct (Hs d (configured d (device be d (Some (CameraManager.backend self))) res)
                  (dev_frames (device be d (Some (CameraManager.backend self)))))
        as (-> & ->).
      destruct (negb _ || negb _); unfold count; cbn [filter]; rewrite ?Hprint; cbn; lia.
    + rewrite (CameraManager_enter_closed be self d res Ho).
      unfold count, trace. cbn [snd filter]. rewrite !Hprint, Hfail. cbn. lia.
  - intro l. cbn [resume CameraManager.generate_frames_body].
    destruct (Hs (CameraManager.device_id l) (CameraManager.cap l)
                 (CameraManager.pending l)) as (-> & ->). lia.
  - intro l. cbn [unwind CameraManager.generate_frames_body].
    unfold CameraManager.finally_. straight_line.
    unfold count. cbn [filter]. rewrite Hprint, (Hloop (Release _) eq_refl). cbn. lia.
Qed.

(** X5: a session asks for the resolution once, with two [set] calls for
    each device that opened and none later.  The function version then
    waits once, one second, per opened device; the class version never
    sleeps. *)
Theorem X5_configured_once_and_only_the_function_sleeps :
  forall be resolution ops,
    (forall device_id,
        let log := trace (run (camera_module.generate_frames_body be) ops
                              (camera_module.generate_frames device_id resolution)) in
        (count is_set log = 2 * opens log)%nat
        /\ (count is_sleep log = 1 * opens log)%nat
        /\ Forall (fun e => is_sleep e = true -> e = Sleep 1) log)
    /\ (forall self device_id,
          let log := trace (run (CameraManager.generate_frames_body be self) ops
                                (CameraManager.generate_frames device_id resolution)) in
          (count is_set log = 2 * opens log)%nat
          /\ count is_sleep log = 0%nat).
Proof.
  intros be resolution ops. split.
  - intros device_id log. split; [|split].
    + apply camera_module_count_per_open; try reflexivity.
      intros e He. destruct e; try reflexivity; discriminate He.
    + apply camera_module_count_per_open; try reflexivity.
      intros e He. destruct e; try reflexivity; discriminate He.
    + apply session_forall.
      * intros (d, res). destruct (int d) as [z|e] eqn:Hint.
        -- destruct (dev_opened (device be z (platform_api be))) eqn:Ho.
           ++ destruct (camera_module_enter_open be d res z Hint Ho) as (_ & ->).
              apply Forall_app. split.
              ** repeat constructor; intro H; (reflexivity || discriminate H).
              ** apply (loop_events_forall _ (trace _)).
                 --- intros e He Hs. destruct e; discriminate.
                 --- apply camera_module_streaming_loop_events.
           ++ rewrite (camera_module_enter_closed be d res z Hint Ho).
              repeat constructor; intro H; discriminate H.
        -- rewrite (camera_module_enter_invalid be d res e Hint).
           repeat constructor; intro H; discriminate H.
      * intro l. apply (loop_events_forall _ (trace _)).
        -- intros e He Hs. destruct e; discriminate.
        -- apply camera_module_streaming_loop_events.
      * intro l. repeat constructor; intro H; discriminate H.
  - intros self device_id log. split.
    + apply CameraManager_count_per_open; try reflexivity.
      intros e He. destruct e; try reflexivity; discriminate He.
    + change (count is_sleep log = 0 * opens log)%nat.
      apply CameraManager_count_per_open; try reflexivity.
      intros e He. destruct e; try reflexivity; discriminate He.
Qed.

(** *** Beyond the claims: [int] reads back what [str] writes *)

(** One digit character read by [digits]. *)
Ltac read_digit acc :=
  match goal with
  | |- digits _ _ (?c :: ?rest) = _ =>
      let v := eval vm_compute in (digit_value c) in
      change (digits (Z.pos acc) true (c :: rest))
        with (digits (10 * Z.pos acc + v) true rest)
  end.

Lemma digits_of_uint_acc (d : Decimal.uint) (acc : positive) :
  digits (Z.pos acc) true (list_ascii_of_string (NilEmpty.string_of_uint d))
  = Some (Z.pos (Pos.of_uint_acc d acc)).
Proof.
  revert acc. induction d; intro acc; cbn [NilEmpty.string_of_uint list_ascii_of_string
                                           Pos.of_uint_acc];
    [reflexivity | read_digit acc; rewrite <- IHd; f_equal; lia ..].
Qed.

Lemma digits_of_uint (d : Decimal.uint) (after_digit : bool) :
  d <> Decimal.Nil \/ after_digit = true ->
  digits 0 after_digit (list_ascii_of_string (NilEmpty.string_of_uint d))
  = Some (Z.of_N (Pos.of_uint d)).
Proof.
  revert after_digit. induction d; intros after_digit H;
    cbn [NilEmpty.string_of_uint list_ascii_of_string Pos.of_uint].
  - destruct H as [H | ->]; [now elim H | reflexivity].
  - apply (IHd true). now right.
  - exact (digits_of_uint_acc d 1).
  - exact (digits_of_uint_acc d 2).
  - exact (digits_of_uint_acc d 3).
  - exact (digits_of_uint_acc d 4).
  - exact (digits_of_uint_acc d 5).
  - exact (digits_of_uint_acc d 6).
  - exact (digits_of_uint_acc d 7).
  - exact (digits_of_uint_acc d 8).
  - exact (digits_of_uint_acc d 9).
Qed.

(** The characters [str] writes: digits, after at most a minus sign. *)
Lemma uint_chars_are_digits (d : Decimal.uint) :
  Forall (fun c => is_digit c = true)
         (list_ascii_of_string (NilEmpty.string_of_uint d)).
Proof. induction d; simpl; constructor; auto. Qed.

Lemma lstrip_head (c : ascii) (s : list ascii) :
  is_space c = false -> lstrip (c :: s) = c :: s.
Proof. intro H. simpl. now rewrite H. Qed.

Lemma strip_id (s : list ascii) :
  Forall (fun c => is_space c = false) s -> strip s = s.
Proof.
  intro H. unfold strip.
  assert (Hl : forall t, Forall (fun c => is_space c = false) t -> lstrip t = t).
  { intros [|c t] Ht; [reflexivity|]. inversion Ht; subst. now apply lstrip_head. }
  rewrite (Hl s H), Hl, rev_involutive; [reflexivity|].
  apply Forall_rev. exact H.
Qed.

Lemma digit_is_plain (c : ascii) :
  is_digit c = true ->
  is_space c = false /\ Ascii.eqb c "-"%char = false /\ Ascii.eqb c "+"%char = false
  /\ Ascii.eqb c "x"%char = false.
Proof.
  destruct c as [[|] [|] [|] [|] [|] [|] [|] [|]]; intro H;
    try discriminate H; repeat split; reflexivity.
Qed.

Lemma int_of_uint_string (d : Decimal.uint) :
  d <> Decimal.Nil ->
  int_literal (NilEmpty.string_of_uint d) = Some (Z.of_N (Pos.of_uint d))
  /\ int_literal (String "-" (NilEmpty.string_of_uint d))
     = Some (- Z.of_N (Pos.of_uint d)).
Proof.
  intro Hd. pose proof (uint_chars_are_digits d) as Hc.
  pose proof (digits_of_uint d false (or_introl Hd)) as Hv.
  assert (Hplain : Forall (fun c => is_space c = false)
                          (list_ascii_of_string (NilEmpty.string_of_uint d))).
  { eapply Forall_impl; [|exact Hc]. intros c H. now apply digit_is_plain. }
  split; unfold int_literal.
  - rewrite (strip_id _ Hplain).
    destruct (list_ascii_of_string (NilEmpty.string_of_uint d)) as [|c rest] eqn:E.
    + destruct d; simpl in E; [now elim Hd | discriminate E ..].
    + inversion Hc as [|? ? Hdig _]; subst.
      destruct (digit_is_plain c Hdig) as (_ & -> & -> & _). exact Hv.
  - cbn [list_ascii_of_string]. rewrite strip_id.
    + change (Ascii.eqb "-"%char "-"%char) with true. cbv iota.
      now rewrite Hv.
    + constructor; [reflexivity | exact Hplain].
Qed.

(** The text [str] writes denotes the integer written. *)
Lemma literal_str (n : Z) : int_literal (str n) = Some n.
Proof.
  unfold str. destruct n as [|p|p]; [reflexivity | |].
  - cbn [Z.to_int NilZero.string_of_int]. unfold NilZero.string_of_uint.
    pose proof (DecimalPos.Unsigned.to_uint_nonnil p) as Hn.
    destruct (int_of_uint_string (Pos.to_uint p) Hn) as (H & _).
    rewrite DecimalPos.Unsigned.of_to in H.
    destruct (Pos.to_uint p); [now elim Hn | exact H ..].
  - cbn [Z.to_int NilZero.string_of_int]. unfold NilZero.string_of_uint.
    pose proof (DecimalPos.Unsigned.to_uint_nonnil p) as Hn.
    destruct (int_of_uint_string (Pos.to_uint p) Hn) as (_ & H).
    rewrite DecimalPos.Unsigned.of_to in H.
    destruct (Pos.to_uint p); [now elim Hn | exact H ..].
Qed.

(** [int(str(n))] is [n] for an integer written in no more digits than
    the limit; a text with more digits raises [ValueError]. *)
Lemma int_str (n : Z) : within_limit (str n) = true -> int (PyStr (str n)) = inl n.
Proof. intro H. unfold int, int_of_str. now rewrite H, literal_str. Qed.

Lemma int_beyond_limit (s : string) :
  within_limit s = false -> int (PyStr s) = inr ValueError.
Proof. intro H. unfold int, int_of_str. now rewrite H. Qed.

(** *** How many digits [str] writes *)

Lemma digit_count_uint (d : Decimal.uint) :
  digit_count (NilEmpty.string_of_uint d) = Z.of_nat (Decimal.nb_digits d).
Proof.
  unfold digit_count. f_equal.
  induction d; cbn [NilEmpty.string_of_uint list_ascii_of_string Decimal.nb_digits];
    [reflexivity | cbn [filter]; change (is_digit _) with true; cbn [List.length];
                   now rewrite IHd ..].
Qed.

Lemma of_uint_acc_lower (d : Decimal.uint) (acc : positive) :
  Z.pos acc * 10 ^ Z.of_nat (Decimal.nb_digits d) <= Z.pos (Pos.of_uint_acc d acc).
Proof.
  revert acc. induction d; intro acc; cbn [Decimal.nb_digits Pos.of_uint_acc];
    [rewrite Z.pow_0_r; lia | ..];
    rewrite Nat2Z.inj_succ, Z.pow_succ_r by lia;
    (eapply Z.le_trans; [|apply IHd]);
    pose proof (Z.pow_pos_nonneg 10 (Z.of_nat (Decimal.nb_digits d)) ltac:(lia) ltac:(lia));
    nia.
Qed.

(** The decimal writing of a positive number starts with a digit other
    than zero. *)
Lemma to_uint_head (p : positive) :
  exists l acc,
    N.pos p = N.pos (Pos.of_uint_acc l acc)
    /\ Decimal.nb_digits (Pos.to_uint p) = S (Decimal.nb_digits l).
Proof.
  pose proof (DecimalPos.Unsigned.of_to p) as Hof.
  pose proof (DecimalPos.Unsigned.to_of (Pos.to_uint p)) as Hto.
  rewrite Hof in Hto. cbn [N.to_uint] in Hto.
  pose proof (DecimalPos.Unsigned.to_uint_nonzero p) as Hnz.
  pose proof (DecimalPos.Unsigned.to_uint_nonnil p) as Hnn.
  destruct (Pos.to_uint p) as [|l|l|l|l|l|l|l|l|l|l];
    [now elim Hnn | | cbn [Pos.of_uint] in Hof; eexists _, _; split;
                      [symmetry; exact Hof | reflexivity] ..].
  exfalso. rewrite DecimalFacts.unorm_D0 in Hto.
  assert (Hl : l <> Decimal.Nil) by (intros ->; now apply Hnz).
  pose proof (DecimalFacts.nb_digits_unorm l Hl) as Hu.
  rewrite <- Hto in Hu. cbn [Decimal.nb_digits] in Hu. lia.
Qed.

(** It has no more digits than a power of ten above it has zeros. *)
Lemma nb_digits_to_uint (p : positive) (K : nat) :
  Z.pos p < 10 ^ Z.of_nat K -> (Decimal.nb_digits (Pos.to_uint p) <= K)%nat.
Proof.
  intro Hp. destruct (to_uint_head p) as (l & acc & H & ->). injection H as H.
  pose proof (of_uint_acc_lower l acc) as Hl. rewrite <- H in Hl.
  assert (Hlt : 10 ^ Z.of_nat (Decimal.nb_digits l) < 10 ^ Z.of_nat K).
  { pose proof (Z.pow_pos_nonneg 10 (Z.of_nat (Decimal.nb_digits l))
                  ltac:(lia) ltac:(lia)). nia. }
  apply Z.pow_lt_mono_r_iff in Hlt; lia.
Qed.

Lemma digit_count_str (n : Z) (K : nat) :
  (0 < K)%nat -> Z.abs n < 10 ^ Z.of_nat K -> digit_count (str n) <= Z.of_nat K.
Proof.
  intros HK Hn. unfold str.
  assert (Hpos : forall p, Z.pos p < 10 ^ Z.of_nat K ->
                           digit_count (NilZero.string_of_uint (Pos.to_uint p))
                           <= Z.of_nat K).
  { intros p Hp. unfold NilZero.string_of_uint.
    pose proof (DecimalPos.Unsigned.to_uint_nonnil p) as Hnn.
    pose proof (nb_digits_to_uint p K Hp) as Hb.
    pose proof (digit_count_uint (Pos.to_uint p)) as Hc.
    destruct (Pos.to_uint p); [now elim Hnn | rewrite Hc; lia ..]. }
  destruct n as [|p|p]; cbn [Z.to_int NilZero.string_of_int].
  - change (1 <= Z.of_nat K). lia.
  - apply Hpos. exact Hn.
  - change (digit_count (NilZero.string_of_uint (Pos.to_uint p)) <= Z.of_nat K).
    apply Hpos. exact Hn.
Qed.

(** An integer below [10 ^ 4300] in magnitude is written within the
    limit. *)
Lemma small_within_limit (n : Z) :
  Z.abs n < 10 ^ int_max_str_digits -> within_limit (str n) = true.
Proof.
  intro H. unfold within_limit. apply Z.leb_le.
  change int_max_str_digits with (Z.of_nat (Z.to_nat 4300)) in *.
  apply digit_count_str; [|exact H].
  apply Nat2Z.inj_lt. rewrite Z2Nat.id; lia.
Qed.

Lemma str_has_no_x (n : Z) :
  Forall (fun c => Ascii.eqb c "x"%char = false) (list_ascii_of_string (str n)).
Proof.
  assert (H : forall d, Forall (fun c => Ascii.eqb c "x"%char = false)
                               (list_ascii_of_string (NilEmpty.string_of_uint d))).
  { intro d. eapply Forall_impl; [|apply uint_chars_are_digits].
    intros c Hc. now apply digit_is_plain. }
  unfold str. destruct n as [|p|p]; cbn [Z.to_int NilZero.string_of_int].
  - repeat constructor.
  - unfold NilZero.string_of_uint.
    destruct (Pos.to_uint p) eqn:E; rewrite <- ?E; try apply H. repeat constructor.
  - cbn [list_ascii_of_string]. constructor; [reflexivity|].
    unfold NilZero.string_of_uint.
    destruct (Pos.to_uint p) eqn:E; rewrite <- ?E; try apply H. repeat constructor.
Qed.

Lemma split_without (sep : ascii) (s : string) :
  Forall (fun c => Ascii.eqb c sep = false) (list_ascii_of_string s) ->
  split sep s = [s].
Proof.
  induction s as [|c s IH]; intro H; [reflexivity|].
  cbn [list_ascii_of_string] in H. inversion H as [|? ? Hc Hs]; subst.
  cbn [split]. now rewrite Hc, (IH Hs).
Qed.

Lemma split_at_first (sep : ascii) (s1 s2 : string) :
  Forall (fun c => Ascii.eqb c sep = false) (list_ascii_of_string s1) ->
  split sep (String.append s1 (String sep s2)) = s1 :: split sep s2.
Proof.
  induction s1 as [|c s1 IH]; intro H.
  - cbn [String.append split]. now rewrite Ascii.eqb_refl.
  - cbn [list_ascii_of_string] in H. inversion H as [|? ? Hc Hs]; subst.
    cbn [String.append split]. now rewrite Hc, (IH Hs).
Qed.

(** The text [WIDTHxHEIGHT] written from two integers parses back. *)
Lemma parse_written (d w h : Z) :
  within_limit (str d) = true ->
  within_limit (str w) = true ->
  within_limit (str h) = true ->
  test2.parse (str d) (String.append (str w) (String "x" (str h))) = inl (d, (w, h)).
Proof.
  intros Hd Hw Hh. unfold test2.parse. rewrite (int_str d Hd).
  rewrite (split_at_first _ _ _ (str_has_no_x w)), (split_without _ _ (str_has_no_x h)).
  cbn [map]. now rewrite (int_str w Hw), (int_str h Hh).
Qed.

Lemma int_of_text (s : string) : int (PyStr s) <> inr TypeError.
Proof. unfold int. destruct (int_of_str s); discriminate. Qed.

Lemma unpack_two_error (items : list (Z + PyExc)) :
  Forall (fun item => item <> inr TypeError) items ->
  unpack_two items <> inr TypeError.
Proof.
  intro H.
  destruct items as [|[a|ea] [|[b|eb] [|[c|ec] rest]]]; simpl; try discriminate;
    repeat match goal with
           | H : Forall _ (_ :: _) |- _ => inversion H; subst; clear H
           end; congruence.
Qed.

Lemma parse_error (device_text res_text : string) :
  test2.parse device_text res_text <> inr TypeError.
Proof.
  unfold test2.parse. pose proof (int_of_text device_text) as Hd.
  destruct (int (PyStr device_text)) as [d|e]; [|congruence].
  pose proof (unpack_two_error
                (map (fun part => int (PyStr part)) (split "x"%char res_text))) as Hu.
  destruct (unpack_two _) as [(w, h)|e]; [discriminate|].
  enough (@inr (Z * Z) PyExc e <> inr TypeError) by congruence.
  apply Hu. apply Forall_forall. intros item Hin. apply in_map_iff in Hin.
  destruct Hin as (part & <- & _). apply int_of_text.
Qed.

(** *** Claims about the identifier *)

Lemma c_int_spec (z : Z) : c_int z = true <-> - 2147483648 <= z < 2147483648.
Proof.
  unfold c_int. change (2 ^ 31) with 2147483648.
  rewrite andb_true_iff, Z.leb_le, Z.ltb_lt. reflexivity.
Qed.

(** An integer the binding accepts is far below the digit limit. *)
Lemma c_int_within_limit (z : Z) : c_int z = true -> within_limit (str z) = true.
Proof.
  intro H. apply c_int_spec in H. unfold within_limit. apply Z.leb_le.
  apply Z.le_trans with (Z.of_nat 10); [|unfold int_max_str_digits; lia].
  apply digit_count_str; [lia|].
  change (10 ^ Z.of_nat 10) with 10000000000. lia.
Qed.

Lemma str_limited_c_int (z : Z) : c_int z = true -> str_limited z = inl (str z).
Proof. intro H. unfold str_limited. now rewrite (c_int_within_limit z H). Qed.

Lemma format_obj_int (device_id : PyVal) (z : Z) :
  int device_id = inl z -> c_int z = true ->
  format_obj (Val device_id) = inl (format device_id).
Proof.
  intros Hint Hc. destruct device_id as [|v|n|s]; try reflexivity.
  injection Hint as ->. cbn [format_obj format]. unfold str_limited.
  now rewrite (c_int_within_limit z Hc).
Qed.

(** An object that [int()] rejects is no [int], and an f-string can
    write it. *)
Lemma rejected_obj (device_id : PyObj) (e : Exc) :
  int_obj device_id = inr e ->
  (forall n, device_id <> Val (PyInt n))
  /\ exists text, format_obj device_id = inl text.
Proof.
  intro H. destruct device_id as [[|v|n|s]|[text t|negative|]]; cbn in H;
    try discriminate H; (split; [discriminate | eexists; reflexivity]).
Qed.

Lemma fields_three (a c : string) (bb : string + Exc) :
  f_fields [inl a; bb; inl c]
  = match bb with inl text => inl (f [a; text; c]) | inr e => inr e end.
Proof. destruct bb; reflexivity. Qed.

Lemma fields_attempting (text : string) (resolution : Z * Z) :
  within_limit (str (fst resolution)) = true ->
  within_limit (str (snd resolution)) = true ->
  f_fields [inl "Attempting to open device "; inl text; inl " with resolution ";
            str_limited (fst resolution); inl "x"; str_limited (snd resolution);
            inl "..."]
  = inl (f ["Attempting to open device "; text; " with resolution ";
            str (fst resolution); "x"; str (snd resolution); "..."]).
Proof. intros Hw Hh. unfold str_limited. rewrite Hw, Hh. reflexivity. Qed.

(** C3, as the code has it.  An identifier on which [int()] raises
    [ValueError] or [TypeError] (a text that is no number, [None], a NaN)
    makes [camera_module.generate_frames] return after its two lines,
    before any capture is constructed; whatever the consumer does, no
    chunk is given, no device opened and nothing released.
    [CameraManager.generate_frames] does not validate its identifier:
    whatever [int()] would reject is passed to [cv2.VideoCapture] right
    after the announcing line. *)
Theorem C3_malformed_identifier_opens_nothing :
  forall be resolution,
    (forall device_id e,
        within_limit (str (fst resolution)) = true ->
        within_limit (str (snd resolution)) = true ->
        int_obj device_id = inr (Builtin e) ->
        exists text,
          format_obj device_id = inl text
          /\ first_lines.camera_module_generate_frames be device_id resolution
             = (Ends,
                [Logged (Print (f ["Attempting to open device "; text;
                                   " with resolution "; str (fst resolution); "x";
                                   str (snd resolution); "..."]));
                 Logged (Print (f ["Error: Invalid device ID '"; text;
                                   "'. It must be an integer."]))])
          /\ constructions
               (snd (first_lines.camera_module_generate_frames be device_id resolution))
             = 0%nat)
    /\ (forall device_id e ops,
          int device_id = inr e ->
          let body := camera_module.generate_frames_body be in
          let g := camera_module.generate_frames device_id resolution in
          let r := run body ops g in
          pulled (run body [Next] g) = [StopIteration]
          /\ Forall (fun p => p = StopIteration) (pulled r)
          /\ open_calls (trace r) = 0%nat
          /\ releases (trace r) = 0%nat)
    /\ (forall binding self device_id e,
          within_limit (str (fst resolution)) = true ->
          within_limit (str (snd resolution)) = true ->
          int_obj device_id = inr e ->
          exists text outcome rest,
            format_obj device_id = inl text
            /\ first_lines.CameraManager_generate_frames be binding self device_id
                 resolution
               = (outcome,
                  Logged (Print (f ["Attempting to open device "; text;
                                    " with resolution "; str (fst resolution); "x";
                                    str (snd resolution); "..."]))
                  :: Construct device_id (Some (CameraManager.backend self)) :: rest)).
Proof.
  intros be resolution. split; [|split].
  - intros device_id e Hw Hh Hint.
    destruct (rejected_obj device_id _ Hint) as (_ & text & Hf).
    exists text. split; [exact Hf|].
    unfold first_lines.camera_module_generate_frames.
    rewrite Hf, (fields_attempting text resolution Hw Hh), Hint, fields_three.
    split; reflexivity.
  - intros device_id e ops Hint. exact (rejected_identifier_session be device_id resolution e ops Hint).
  - intros binding self device_id e Hw Hh Hint.
    destruct (rejected_obj device_id _ Hint) as (Hn & text & Hf).
    exists text.
    unfold first_lines.CameraManager_generate_frames.
    rewrite Hf, (fields_attempting text resolution Hw Hh), fields_three.
    destruct device_id as [[|v|n|s]|x]; try (now elim (Hn n));
      destruct (binding _ _); eexists; eexists; (split; [reflexivity|]); reflexivity.
Qed.

(** C3 at the identifier ['abc'] on a host with one camera: pulled
    twice and then discarded by the function; passed on to the binding
    by the class. *)
Lemma C3_witness_abc :
  (exists text,
      format_obj (Val (PyStr "abc")) = inl text
      /\ first_lines.camera_module_generate_frames (bench (camera [])) (Val (PyStr "abc"))
           (640, 480)
         = (Ends,
            [Logged (Print (f ["Attempting to open device "; text;
                               " with resolution "; str 640; "x"; str 480; "..."]));
             Logged (Print (f ["Error: Invalid device ID '"; text;
                               "'. It must be an integer."]))])
      /\ constructions
           (snd (first_lines.camera_module_generate_frames (bench (camera []))
                   (Val (PyStr "abc")) (640, 480)))
         = 0%nat)
  /\ (let body := camera_module.generate_frames_body (bench (camera [])) in
      let g := camera_module.generate_frames (PyStr "abc") (640, 480) in
      let r := run body [Next; Next; Close] g in
      pulled (run body [Next] g) = [StopIteration]
      /\ Forall (fun p => p = StopIteration) (pulled r)
      /\ open_calls (trace r) = 0%nat
      /\ releases (trace r) = 0%nat)
  /\ (exists text outcome rest,
         format_obj (Val (PyStr "abc")) = inl text
         /\ first_lines.CameraManager_generate_frames (bench (camera []))
              (fun _ _ => Unopened) {| CameraManager.backend := cv2.CAP_ANY |}
              (Val (PyStr "abc")) (640, 480)
            = (outcome,
               Logged (Print (f ["Attempting to open device "; text;
                                 " with resolution "; str 640; "x"; str 480; "..."]))
               :: Construct (Val (PyStr "abc")) (Some cv2.CAP_ANY) :: rest)).
Proof.
  split; [|split].
  - exact (proj1 (C3_malformed_identifier_opens_nothing (bench (camera [])) (640, 480))
                 (Val (PyStr "abc")) ValueError eq_refl eq_refl eq_refl).
  - exact (proj1 (proj2 (C3_malformed_identifier_opens_nothing (bench (camera []))
                           (640, 480)))
                 (PyStr "abc") ValueError [Next; Next; Close] eq_refl).
  - exact (proj2 (proj2 (C3_malformed_identifier_opens_nothing (bench (camera []))
                           (640, 480)))
                 (fun _ _ => Unopened) {| CameraManager.backend := cv2.CAP_ANY |}
                 (Val (PyStr "abc")) (Builtin ValueError) eq_refl eq_refl eq_refl).
Defined.

(** The claim as it is written fails in both implementations.  Given
    ['abc'], which [int()] rejects, [CameraManager.generate_frames]
    constructs a capture from it: one construction, not none.  Given
    the float infinity, on which [int()] raises [OverflowError],
    [camera_module.generate_frames] lets that exception out of the first
    pull instead of ending as an empty sequence. *)
Lemma C3_unvalidated_identifier_reaches_the_binding :
  int_obj (Val (PyStr "abc")) = inr (Builtin ValueError)
  /\ first_lines.CameraManager_generate_frames (bench absent) (fun _ _ => Unopened)
       {| CameraManager.backend := cv2.CAP_ANY |} (Val (PyStr "abc")) (640, 480)
     = (Ends,
        [Logged (Print "Attempting to open device abc with resolution 640x480...");
         Construct (Val (PyStr "abc")) (Some 0);
         Logged (Print "Error: Could not open video device abc.")])
  /\ constructions
       (snd (first_lines.CameraManager_generate_frames (bench absent)
               (fun _ _ => Unopened) {| CameraManager.backend := cv2.CAP_ANY |}
               (Val (PyStr "abc")) (640, 480)))
     <> 0%nat
  /\ int_obj (Float (Infinity false)) = inr OverflowError
  /\ first_lines.camera_module_generate_frames (bench absent) (Float (Infinity false))
       (640, 480)
     = (Raises OverflowError,
        [Logged (Print "Attempting to open device inf with resolution 640x480...")]).
Proof. repeat split; try reflexivity. discriminate. Qed.



(** An integer of more digits than the limit is not even announced:
    the f-string of the first line raises [ValueError], which nothing
    catches. *)
Lemma beyond_digit_limit_raises be binding self (n : Z) (resolution : Z * Z) :
  within_limit (str n) = false ->
  first_lines.camera_module_generate_frames be (Val (PyInt n)) resolution
  = (Raises (Builtin ValueError), [])
  /\ first_lines.CameraManager_generate_frames be binding self (Val (PyInt n)) resolution
     = (Raises (Builtin ValueError), []).
Proof.
  intro H.
  unfold first_lines.camera_module_generate_frames,
    first_lines.CameraManager_generate_frames.
  cbn [format_obj].
  assert (Hs : str_limited n = inr (Builtin ValueError))
    by (unfold str_limited; now rewrite H).
  rewrite !Hs. split; reflexivity.
Qed.


(** *** Beyond the claims: the routes of the Flask application *)

(** X6: [video_feed] never raises and touches no device, whatever the
    query holds: it always answers with a generator that has not started
    and the multipart content type, and all it issues is nothing at all
    or the one line of the fallback. *)
Theorem X6_video_feed_always_answers_with_an_unstarted_stream :
  forall args : test2.Args,
    exists device_id resolution,
      value (test2.video_feed args)
      = inl {| test2.response := Fresh (device_id, resolution);
               test2.mimetype := "multipart/x-mixed-replace; boundary=frame" |}
      /\ Forall (fun e => is_device_call e = false) (trace (test2.video_feed args))
      /\ (trace (test2.video_feed args) = []
          \/ trace (test2.video_feed args)
             = [Print "Invalid parameters received. Using defaults."])
      /\ (List.length (printed (trace (test2.video_feed args))) <= 1)%nat.
Proof.
  intro args. unfold test2.video_feed. cbv zeta.
  pose proof (parse_error (test2.get_default args "device" "0")
                          (test2.get_default args "resolution" "640x480")) as He.
  destruct (test2.parse _ _) as [(d, (w, h))|[|]].
  - exists d, (w, h). repeat split; [constructor | now left | cbn; lia].
  - exists 0, (640, 480). repeat split; [repeat constructor | now right | cbn; lia].
  - now elim He.
Qed.

(** X7: the fallback of [video_feed] is all or nothing.  When the
    identifier is not an integer, or the resolution is not two integers
    around one 'x', both are replaced: the stream is that of device 0 at
    640x480 and one line is printed, even if the other parameter was
    well formed. *)
Theorem X7_video_feed_falls_back_on_both_parameters :
  forall (args : test2.Args) e,
    let device_text := test2.get_default args "device" "0" in
    let res_text := test2.get_default args "resolution" "640x480" in
    int (PyStr device_text) = inr e
    \/ unpack_two (map (fun part => int (PyStr part)) (split "x"%char res_text)) = inr e ->
    test2.video_feed args
    = (inl {| test2.response := CameraManager.generate_frames 0 (640, 480);
              test2.mimetype := "multipart/x-mixed-replace; boundary=frame" |},
       [Print "Invalid parameters received. Using defaults."]).
Proof.
  intros args e device_text res_text H. unfold test2.video_feed. cbv zeta.
  fold device_text res_text.
  pose proof (parse_error device_text res_text) as He.
  assert (Hp : exists e', test2.parse device_text res_text = inr e').
  { unfold test2.parse. destruct H as [-> | H]; [now exists e|].
    destruct (int (PyStr device_text)) as [d|e']; [|now exists e'].
    rewrite H. now exists e. }
  destruct Hp as (e' & Hp). rewrite Hp in *. destruct e'; [reflexivity | now elim He].
Qed.

(** X7 for a valid identifier with a resolution that lacks its height. *)
Lemma X7_witness_device_2_resolution_640 :
  test2.video_feed [("device", "2"); ("resolution", "640")]
  = (inl {| test2.response := CameraManager.generate_frames 0 (640, 480);
            test2.mimetype := "multipart/x-mixed-replace; boundary=frame" |},
     [Print "Invalid parameters received. Using defaults."]).
Proof.
  exact (X7_video_feed_falls_back_on_both_parameters
           [("device", "2"); ("resolution", "640")] ValueError (or_intror eq_refl)).
Defined.

(** X8: a query written from integers is taken as it is: for every
    identifier and every width and height written within the digit
    limit, negative and zero included, [video_feed] answers silently
    with the stream of that device at that resolution.  A device text
    with more digits than the limit is no integer for [int()]: the
    fallback answers. *)
Theorem X8_video_feed_takes_written_integers_as_they_are :
  (forall (d w h : Z) (others : test2.Args),
      within_limit (str d) = true ->
      within_limit (str w) = true ->
      within_limit (str h) = true ->
      test2.video_feed (("device", str d)
                        :: ("resolution", String.append (str w) (String "x" (str h)))
                        :: others)
      = (inl {| test2.response := CameraManager.generate_frames d (w, h);
                test2.mimetype := "multipart/x-mixed-replace; boundary=frame" |},
         []))
  /\ (forall (text : string) (others : test2.Args),
        within_limit text = false ->
        test2.video_feed (("device", text) :: others)
        = (inl {| test2.response := CameraManager.generate_frames 0 (640, 480);
                  test2.mimetype := "multipart/x-mixed-replace; boundary=frame" |},
           [Print "Invalid parameters received. Using defaults."])).
Proof.
  split.
  - intros d w h others Hd Hw Hh. unfold test2.video_feed. cbv zeta.
    change (test2.get_default _ "device" "0") with (str d).
    change (test2.get_default _ "resolution" "640x480")
      with (String.append (str w) (String "x" (str h))).
    now rewrite parse_written.
  - intros text others Hlong. unfold test2.video_feed. cbv zeta.
    change (test2.get_default (("device", text) :: others) "device" "0") with text.
    unfold test2.parse. now rewrite (int_beyond_limit text Hlong).
Qed.

(** X8 for device 2 at 800x600, and for a device text of 4301 digits. *)
Lemma X8_witness_device_2_and_4301_digits :
  test2.video_feed [("device", "2"); ("resolution", "800x600")]
  = (inl {| test2.response := CameraManager.generate_frames 2 (800, 600);
            test2.mimetype := "multipart/x-mixed-replace; boundary=frame" |}, [])
  /\ test2.video_feed [("device", sevens 4301)]
     = (inl {| test2.response := CameraManager.generate_frames 0 (640, 480);
               test2.mimetype := "multipart/x-mixed-replace; boundary=frame" |},
        [Print "Invalid parameters received. Using defaults."]).
Proof.
  split.
  - exact (proj1 X8_video_feed_takes_written_integers_as_they_are 2 800 600 []
                 eq_refl eq_refl eq_refl).
  - apply (proj2 X8_video_feed_takes_written_integers_as_they_are (sevens 4301) []).
    vm_compute. reflexivity.
Defined.

(** X9: a parameter that is absent takes its default without the
    fallback: with no resolution the given device streams at 640x480,
    with no device the given resolution is used on device 0, and with
    neither the answer is device 0 at 640x480; nothing is printed.  The
    integers given are written within the digit limit. *)
Theorem X9_video_feed_defaults_for_absent_parameters :
  forall (args : test2.Args) (d w h : Z),
    let answer device_id resolution :=
      (inl {| test2.response := CameraManager.generate_frames device_id resolution;
              test2.mimetype := "multipart/x-mixed-replace; boundary=frame" |},
       @nil Event) in
    (within_limit (str d) = true ->
     test2.args_get args "device" = Some (str d) ->
     test2.args_get args "resolution" = None ->
     test2.video_feed args = answer d (640, 480))
    /\ (within_limit (str w) = true ->
        within_limit (str h) = true ->
        test2.args_get args "device" = None ->
        test2.args_get args "resolution"
        = Some (String.append (str w) (String "x" (str h))) ->
        test2.video_feed args = answer 0 (w, h))
    /\ (test2.args_get args "device" = None ->
        test2.args_get args "resolution" = None ->
        test2.video_feed args = answer 0 (640, 480)).
Proof.
  intros args d w h answer. unfold answer, test2.video_feed, test2.get_default.
  cbv zeta. repeat split.
  - intros Hd -> ->.
    change "640x480" with (String.append (str 640) (String "x" (str 480))).
    now rewrite parse_written.
  - intros Hw Hh -> ->. change "0" with (str 0). now rewrite parse_written.
  - intros -> ->. reflexivity.
Qed.

(** X9 for a query that names device 3 only, for one that names the
    resolution 800x600 only, and for an empty query. *)
Lemma X9_witness_device_3_only :
  test2.video_feed [("device", "3")]
  = (inl {| test2.response := CameraManager.generate_frames 3 (640, 480);
            test2.mimetype := "multipart/x-mixed-replace; boundary=frame" |}, [])
  /\ test2.video_feed [("resolution", "800x600")]
     = (inl {| test2.response := CameraManager.generate_frames 0 (800, 600);
               test2.mimetype := "multipart/x-mixed-replace; boundary=frame" |}, [])
  /\ test2.video_feed []
     = (inl {| test2.response := CameraManager.generate_frames 0 (640, 480);
               test2.mimetype := "multipart/x-mixed-replace; boundary=frame" |}, []).
Proof.
  split; [|split].
  - exact (proj1 (X9_video_feed_defaults_for_absent_parameters [("device", "3")] 3 0 0)
                 eq_refl eq_refl eq_refl).
  - exact (proj1 (proj2 (X9_video_feed_defaults_for_absent_parameters
                           [("resolution", "800x600")] 0 800 600))
                 eq_refl eq_refl eq_refl eq_refl).
  - exact (proj2 (proj2 (X9_video_feed_defaults_for_absent_parameters [] 0 0 0))
                 eq_refl eq_refl).
Defined.

(** X10: [index] calls the manager's enumeration exactly once on every
    request and issues nothing else; it hands the template the cameras
    that call returned, the four preset resolution names in order and
    the resolution text as received.  The selected device is what
    [int()] makes of the device text: the integer it denotes, nothing
    when the parameter is absent, is no integer, or has more digits than
    the limit; it is never checked against the cameras found.  With the
    [CameraManager] of [module1.py] every request therefore probes all
    ten slots anew and leaves none open. *)
Theorem X10_index_probes_on_every_request_and_trusts_the_query :
  forall (get_available_cameras : W (dict Z string)) (args : test2.Args),
    let r := test2.index get_available_cameras args in
    test2.cameras (value r) = value get_available_cameras
    /\ trace r = trace get_available_cameras
    /\ test2.template (value r) = "index.html"
    /\ test2.resolutions (value r) = ["640x480"; "800x600"; "1280x720"; "1920x1080"]
    /\ test2.selected_res (value r) = test2.get args "resolution"
    /\ test2.selected_device (value r)
       = match test2.args_get args "device" with
         | Some text => int_of_str text
         | None => None
         end
    /\ (forall d others,
          within_limit (str d) = true ->
          test2.selected_device
            (value (test2.index get_available_cameras (("device", str d) :: others)))
          = Some d)
    /\ (forall text others,
          within_limit text = false ->
          test2.selected_device
            (value (test2.index get_available_cameras (("device", text) :: others)))
          = None)
    /\ (forall be camera_manager,
          let r := test2.index (CameraManager.get_available_cameras be camera_manager)
                     args in
          let api := Some (CameraManager.backend camera_manager) in
          test2.cameras (value r) = found be api (range 10)
          /\ open_calls (trace r) = 10%nat
          /\ releases (trace r) = opens (trace r)
          /\ open_handles (trace r) = []).
Proof.
  intros m args r.
  assert (Hlog : forall m', trace (test2.index m' args) = trace m').
  { intro m'. unfold test2.index. cbv zeta. now rewrite trace_bind, trace_ret, app_nil_r. }
  repeat split.
  - apply Hlog.
  - unfold r, test2.index, test2.get. cbv zeta. rewrite value_bind, value_ret.
    cbn [test2.selected_device].
    destruct (test2.args_get args "device") as [text|]; [|reflexivity].
    unfold int. destruct (int_of_str text); reflexivity.
  - intros d others Hd. unfold test2.index, test2.get. cbv zeta.
    rewrite value_bind, value_ret. cbn [test2.selected_device].
    change (test2.args_get (("device", str d) :: others) "device") with (Some (str d)).
    cbv beta iota. now rewrite (int_str d Hd).
  - intros text others Hlong. unfold test2.index, test2.get. cbv zeta.
    rewrite value_bind, value_ret. cbn [test2.selected_device].
    change (test2.args_get (("device", text) :: others) "device") with (Some text).
    cbv beta iota. now rewrite (int_beyond_limit text Hlong).
  - destruct (CameraManager_enumeration be camera_manager) as (Hv & _). exact Hv.
  - rewrite Hlog. destruct (CameraManager_enumeration be camera_manager) as (_ & ->).
    apply (probes_balanced be (Some (CameraManager.backend camera_manager)) (range 10)).
  - rewrite Hlog. destruct (CameraManager_enumeration be camera_manager) as (_ & ->).
    apply (probes_balanced be (Some (CameraManager.backend camera_manager)) (range 10)).
  - rewrite Hlog. destruct (CameraManager_enumeration be camera_manager) as (_ & ->).
    apply (probes_balanced be (Some (CameraManager.backend camera_manager)) (range 10)).
Qed.

(** X10 for the queries [device=7] and a device text of 4301 digits. *)
Lemma X10_witness_device_7_and_4301_digits :
  let get_available_cameras :=
    CameraManager.get_available_cameras (bench absent)
      {| CameraManager.backend := cv2.CAP_ANY |} in
  test2.selected_device
    (value (test2.index get_available_cameras [("device", "7")])) = Some 7
  /\ test2.selected_device
       (value (test2.index get_available_cameras [("device", sevens 4301)])) = None.
Proof.
  intro m. split.
  - exact (proj1 (proj2 (proj2 (proj2 (proj2 (proj2 (proj2
             (X10_index_probes_on_every_request_and_trusts_the_query m [])))))))
             7 [] eq_refl).
  - apply (proj1 (proj2 (proj2 (proj2 (proj2 (proj2 (proj2 (proj2
             (X10_index_probes_on_every_request_and_trusts_the_query m []))))))))
             (sevens 4301) []).
    vm_compute. reflexivity.
Defined.

(** *** Beyond the claims: the script of [module1.py] *)

Section Demo.

Context {A L : Type} (body : Body A L) (chunks_left : L -> list bytes).

Hypothesis resume_chunks : forall l,
  match value (resume body l) with
  | Yielded c l' => chunks_left l = c :: chunks_left l'
  | Returned => chunks_left l = []
  end.

Hypothesis enter_handles : forall args,
  (opens (trace (enter body args))
     = releases (trace (enter body args))
       + holds (snd (settle (A:=A) (value (enter body args))))
   /\ opens (trace (enter body args)) <= 1)%nat.

Hypothesis resume_handles : forall l,
  (opens (trace (resume body l)) = 0
   /\ releases (trace (resume body l))
      + holds (snd (settle (A:=A) (value (resume body l)))) = 1)%nat.

Hypothesis unwind_handles : forall l,
  (opens (trace (unwind body l)) = 0 /\ releases (trace (unwind body l)) = 1)%nat.

Lemma next_handles (g : Generator A L) :
  (holds g + opens (trace (next body g))
   = releases (trace (next body g)) + holds (snd (value (next body g))))%nat.
Proof.
  pose proof (handles_conserved body enter_handles resume_handles unwind_handles
                [Next] g) as H.
  destruct (run_next body [] g) as (_ & Hf & Ht). rewrite Hf, Ht in H.
  change (trace (run body [] (snd (value (next body g))))) with (@nil Event) in H.
  change (final (run body [] (snd (value (next body g)))))
    with (snd (value (next body g))) in H.
  now rewrite app_nil_r in H.
Qed.

Lemma next_opens (g : Generator A L) :
  (opens (trace (next body g)) + unstarted (snd (value (next body g)))
   <= unstarted g)%nat.
Proof.
  pose proof (opens_once body enter_handles resume_handles unwind_handles [Next] g) as H.
  destruct (run_next body [] g) as (_ & Hf & Ht). rewrite Hf, Ht in H.
  change (trace (run body [] (snd (value (next body g))))) with (@nil Event) in H.
  change (final (run body [] (snd (value (next body g)))))
    with (snd (value (next body g))) in H.
  now rewrite app_nil_r in H.
Qed.

(** The loop pulls once per index while chunks come: it runs to its end
    exactly when there are as many chunks ahead as indices, and otherwise
    stops at the pull that ends the generator. *)
Lemma demo_loop_spec (indices : list Z) (g : Generator A L) :
  let r := module1.demo_loop body indices g in
  (holds g + opens (trace r) = releases (trace r) + holds (snd (value r)))%nat
  /\ (opens (trace r) + unstarted (snd (value r)) <= unstarted g)%nat
  /\ fst (value r)
     = (List.length indices <=? List.length (chunks_ahead body chunks_left g))%nat
  /\ (fst (value r) = false -> snd (value r) = Done)
  /\ (fst (value r) = true -> indices <> [] -> holds (snd (value r)) = 1%nat)
  /\ (indices <> [] -> exists rest, trace r = trace (next body g) ++ rest).
Proof.
  revert g. induction indices as [|i indices IH]; intro g; cbv zeta.
  - cbn. repeat split; try lia; try discriminate.
    + intros _ H. now elim H.
    + intro H. now elim H.
  - cbn [module1.demo_loop]. rewrite value_bind, trace_bind.
    pose proof (next_ahead body chunks_left resume_chunks g) as Ha.
    pose proof (next_handles g) as Hh. pose proof (next_opens g) as Ho.
    destruct (IH (snd (value (next body g)))) as (IH1 & IH0 & IH2 & IH3 & IH4 & _).
    destruct (fst (value (next body g))) as [frame|].
    + destruct Ha as (Ha & Hheld). rewrite Ha.
      rewrite value_bind, trace_bind, trace_print, !opens_app, !releases_app.
      change (opens [Print _]) with 0%nat. change (releases [Print _]) with 0%nat.
      cbn [List.length Nat.leb]. repeat split.
      * lia.
      * lia.
      * exact IH2.
      * exact IH3.
      * intros Ht _. destruct indices as [|j indices]; [exact Hheld|].
        apply IH4; [exact Ht | discriminate].
      * intros _. eexists. reflexivity.
    + destruct Ha as (Ha & Hd). rewrite Ha, Hd in *.
      rewrite value_ret, trace_ret, app_nil_r. cbn [fst snd List.length Nat.leb].
      repeat split; try discriminate.
      * exact Hh.
      * exact Ho.
      * intros _. exists []. now rewrite app_nil_r.
Qed.

End Demo.

Section DemoHeld.

Context {A L : Type} (body : Body A L) (handle_of : L -> Z) (K : Generator A L -> Prop).

Hypothesis next_held : forall g, K g ->
  fold_left track (trace (next body g)) (held_by handle_of g)
  = held_by handle_of (snd (value (next body g)))
  /\ K (snd (value (next body g))).

(** The loop of the script leaves open the handle its generator holds. *)
Lemma demo_loop_held (indices : list Z) (g : Generator A L) :
  K g ->
  let r := module1.demo_loop body indices g in
  fold_left track (trace r) (held_by handle_of g) = held_by handle_of (snd (value r))
  /\ K (snd (value r)).
Proof.
  revert g. induction indices as [|i indices IH]; intros g Kg; cbv zeta.
  - split; [reflexivity | exact Kg].
  - cbn [module1.demo_loop]. rewrite value_bind, trace_bind, fold_left_app.
    destruct (next_held g Kg) as (F & K').
    rewrite F. destruct (fst (value (next body g))) as [frame|].
    + rewrite value_bind, trace_bind, trace_print, fold_left_app. cbn [fold_left track].
      apply IH. exact K'.
    + rewrite value_ret, trace_ret. cbn [fold_left snd]. split; [reflexivity | exact K'].
Qed.

End DemoHeld.

Lemma CameraManager_next_held be self device_id g :
  let K := kept (fun args => fst args = device_id)
                (fun l => CameraManager.device_id l = device_id
                          /\ cap_index (CameraManager.cap l) = device_id) in
  let body := CameraManager.generate_frames_body be self in
  K g ->
  fold_left track (trace (next body g)) (held_by (fun l => cap_index (CameraManager.cap l)) g)
  = held_by (fun l => cap_index (CameraManager.cap l)) (snd (value (next body g)))
  /\ K (snd (value (next body g))).
Proof.
  intros K body Kg.
  destruct (CameraManager_held be self device_id [Next] g Kg) as (F & _ & K').
  destruct (run_next body [] g) as (_ & Hf & Ht). fold body in F, K'.
  rewrite Hf in F, K'. rewrite Ht in F.
  change (trace (run body [] (snd (value (next body g))))) with (@nil Event) in F.
  change (final (run body [] (snd (value (next body g)))))
    with (snd (value (next body g))) in F, K'.
  rewrite app_nil_r in F. split; assumption.
Qed.

Lemma close_done {A L : Type} (body : Body A L) (g : Generator A L) :
  value (close body g) = Done.
Proof. destruct g; reflexivity. Qed.

Lemma main_unfold be :
  let self := value (CameraManager.__init__ be None) in
  let cameras := found be (Some (CameraManager.backend self)) (range 10) in
  let probes := flat_map (probe_log be (Some (CameraManager.backend self))) (range 10) in
  let start := [Print (f ["CameraManager initialized using backend: ";
                          str (CameraManager.backend self)]);
                Print "Searching for available cameras..."] ++ probes in
  match keys cameras with
  | [] =>
      value (module1.main be) = (self, None)
      /\ trace (module1.main be) = start ++ [Print "No cameras found."]
  | first :: _ =>
      let loop := module1.demo_loop (CameraManager.generate_frames_body be self)
                    (range 5) (CameraManager.generate_frames first (640, 480)) in
      value (module1.main be) = (self, Some (snd (value loop)))
      /\ exists closing,
          trace (module1.main be)
          = start
            ++ [Print (f ["Available cameras: "; repr_cameras cameras]);
                Print (f [LF; "--- Starting stream from camera "; str first; " ---"]);
                Print "--- (This is a generator, in a real app you would use it in a streaming response) ---"]
            ++ trace loop ++ [Print closing]
  end.
Proof.
  intros self cameras probes start.
  destruct (CameraManager_enumeration be self) as (Hv & Ht).
  fold cameras in Hv. fold probes in Ht.
  unfold module1.main. rewrite !value_bind, !trace_bind. fold self.
  rewrite Hv, Ht, trace_print.
  change (trace (CameraManager.__init__ be None))
    with [Print (f ["CameraManager initialized using backend: ";
                    str (CameraManager.backend self)])].
  destruct (keys cameras) as [|first others]; cbv zeta.
  - rewrite value_bind, trace_bind, value_ret, trace_ret, trace_print, app_nil_r.
    split; [reflexivity|]. unfold start. now rewrite <- !app_assoc.
  - rewrite !value_bind, !trace_bind, !trace_print, value_ret, trace_ret, app_nil_r.
    split; [reflexivity|].
    destruct (fst (value (module1.demo_loop _ _ _))); rewrite trace_print;
      eexists; unfold start; rewrite <- !app_assoc; reflexivity.
Qed.

(** The run is the statements followed by the finalisation of whatever
    generator they left. *)
Lemma script_unfold be :
  let globals := value (module1.main be) in
  match snd globals with
  | None =>
      value (module1.script be) = None
      /\ trace (module1.script be) = trace (module1.main be)
  | Some g =>
      value (module1.script be) = Some Done
      /\ trace (module1.script be)
         = trace (module1.main be)
           ++ trace (close (CameraManager.generate_frames_body be (fst globals)) g)
  end.
Proof.
  cbv zeta. unfold module1.script. rewrite value_bind, trace_bind.
  destruct (snd (value (module1.main be))) as [g|].
  - rewrite value_bind, trace_bind, value_ret, trace_ret, app_nil_r, close_done.
    split; reflexivity.
  - rewrite value_ret, trace_ret, app_nil_r. split; reflexivity.
Qed.


(** *** Beyond the claims: what any consumer receives, and when frames are read *)

Lemma all_stop (ps : list Pulled) :
  Forall (fun p => p = StopIteration) ps ->
  ps = repeat StopIteration (List.length ps).
Proof. induction 1 as [|p ps -> _ IH]; [reflexivity|]. simpl. now f_equal. Qed.

Section Received.

Context {A L : Type} (body : Body A L) (chunks_left : L -> list bytes).

Hypothesis resume_chunks : forall l,
  match value (resume body l) with
  | Yielded c l' => chunks_left l = c :: chunks_left l'
  | Returned => chunks_left l = []
  end.

(** A generator that has ended answers every pull with [StopIteration]. *)
Lemma run_done_pulled (ops : list Op) :
  pulled (run body ops Done) = repeat StopIteration (pulls_asked ops).
Proof.
  induction ops as [|op ops IH]; [reflexivity|]. destruct op.
  - destruct (run_next body ops Done) as (-> & _ & _). simpl. now rewrite IH.
  - destruct (run_close body ops Done) as (-> & _ & _). exact IH.
Qed.

(** What the consumer receives: the chunks ahead, one for each pull made
    before the first discard and as long as chunks remain, and
    [StopIteration] for every other pull. *)
Lemma received_exactly (ops : list Op) (g : Generator A L) :
  let ahead := chunks_ahead body chunks_left g in
  let n := Nat.min (pulls_before_close ops) (List.length ahead) in
  pulled (run body ops g)
  = map Chunk (firstn n ahead) ++ repeat StopIteration (pulls_asked ops - n).
Proof.
  revert g. induction ops as [|op ops IH]; intro g; cbv zeta.
  - reflexivity.
  - destruct op.
    + destruct (run_next body ops g) as (-> & _ & _).
      pose proof (next_ahead body chunks_left resume_chunks g) as Ha.
      change (pulls_asked (Next :: ops)) with (S (pulls_asked ops)).
      cbn [pulls_before_close].
      destruct (fst (value (next body g))) as [c|].
      * destruct Ha as (Ha & _). rewrite Ha, IH. reflexivity.
      * destruct Ha as (Ha & ->). rewrite Ha, run_done_pulled.
        cbn [List.length]. rewrite Nat.min_0_r. reflexivity.
    + destruct (run_close body ops g) as (-> & _ & _).
      assert (Hd : value (close body g) = Done) by (destruct g; reflexivity).
      rewrite Hd, run_done_pulled.
      change (pulls_asked (Close :: ops)) with (pulls_asked ops).
      cbn [pulls_before_close Nat.min firstn map app]. now rewrite Nat.sub_0_r.
Qed.

End Received.

(** X12: whatever sequence of pulls and discards a consumer performs on
    a session whose device opened, what it receives is determined: the
    pulls made before the first discard receive the device's chunks, one
    per frame that compresses and in frame order, for as long as chunks
    remain; every other pull, and so every pull after the stream has
    ended or been discarded, receives [StopIteration].  No chunk is
    repeated, reordered or given after the end. *)
Theorem X12_any_consumer_receives_a_prefix_then_stops :
  forall be resolution ops,
    (forall device_id z,
        int device_id = inl z ->
        let dev := device be z (platform_api be) in
        dev_opened dev = true ->
        let chunks := chunks_of be no_params (dev_frames dev) in
        let n := Nat.min (pulls_before_close ops) (List.length chunks) in
        pulled (run (camera_module.generate_frames_body be) ops
                    (camera_module.generate_frames device_id resolution))
        = map Chunk (firstn n chunks) ++ repeat StopIteration (pulls_asked ops - n))
    /\ (forall self device_id,
          let dev := device be device_id (Some (CameraManager.backend self)) in
          dev_opened dev = true ->
          let chunks := chunks_of be quality_80 (dev_frames dev) in
          let n := Nat.min (pulls_before_close ops) (List.length chunks) in
          pulled (run (CameraManager.generate_frames_body be self) ops
                      (CameraManager.generate_frames device_id resolution))
          = map Chunk (firstn n chunks) ++ repeat StopIteration (pulls_asked ops - n)).
Proof.
  intros be resolution ops. split.
  - intros device_id z Hint dev Ho chunks n.
    destruct (camera_module_open_session be device_id resolution z Hint Ho) as (_ & H).
    fold dev in H. subst n chunks. rewrite <- H.
    apply (received_exactly (camera_module.generate_frames_body be)
             (fun l => chunks_of be no_params (camera_module.pending l))).
    intro l. apply camera_module_streaming_chunks.
  - intros self device_id dev Ho chunks n.
    destruct (CameraManager_open_session be self device_id resolution Ho) as (_ & H).
    fold dev in H. subst n chunks. rewrite <- H.
    apply (received_exactly (CameraManager.generate_frames_body be self)
             (fun l => chunks_of be quality_80 (CameraManager.pending l))).
    intro l. apply CameraManager_streaming_chunks.
Qed.

(** X12 for a consumer that pulls, discards, and pulls again on a camera
    with two samples: it receives the first chunk and then
    [StopIteration], not the second chunk. *)
Lemma X12_witness_pull_discard_pull :
  let be := bench (camera [[x01]; [x02]]) in
  pulled (run (camera_module.generate_frames_body be) [Next; Close; Next]
              (camera_module.generate_frames (PyInt 0) (640, 480)))
  = [Chunk (multipart_unit [xff; xd8; x01; xff; xd9]); StopIteration]
  /\ pulled (run (CameraManager.generate_frames_body be
                    {| CameraManager.backend := cv2.CAP_ANY |}) [Next; Close; Next]
                 (CameraManager.generate_frames 0 (640, 480)))
     = [Chunk (multipart_unit [xff; xd8; x01; xff; xd9]); StopIteration].
Proof.
  split.
  - exact (proj1 (X12_any_consumer_receives_a_prefix_then_stops
                    (bench (camera [[x01]; [x02]])) (640, 480) [Next; Close; Next])
                 (PyInt 0) 0 eq_refl eq_refl).
  - exact (proj2 (X12_any_consumer_receives_a_prefix_then_stops
                    (bench (camera [[x01]; [x02]])) (640, 480) [Next; Close; Next])
                 {| CameraManager.backend := cv2.CAP_ANY |} 0 eq_refl).
Defined.

Lemma camera_module_streaming_reads be device_id cap pending :
  let log := trace (camera_module.streaming be device_id cap pending) in
  count is_read log = (count is_encode_failure log + 1)%nat.
Proof.
  induction pending as [|frame pending IH]; simpl camera_module.streaming; cbv zeta in *.
  - unfold camera_module.finally_. straight_line. reflexivity.
  - straight_line. destruct (fst (encoder be ".jpg" frame [])); straight_line.
    + reflexivity.
    + change (Read ?i true :: Encode ?x ?p false :: Print ?t :: ?rest)
        with ([Read i true; Encode x p false; Print t] ++ rest).
      rewrite !count_app, IH. cbn. lia.
Qed.

Lemma CameraManager_streaming_reads be device_id cap pending :
  let log := trace (CameraManager.streaming be device_id cap pending) in
  count is_read log = (count is_encode_failure log + 1)%nat.
Proof.
  induction pending as [|frame pending IH]; simpl CameraManager.streaming; cbv zeta in *.
  - unfold CameraManager.finally_. straight_line. reflexivity.
  - straight_line.
    destruct (fst (encoder be ".jpg" frame [cv2.IMWRITE_JPEG_QUALITY; 80]));
      straight_line.
    + reflexivity.
    + change (Read ?i true :: Encode ?x ?p false :: Print ?t :: ?rest)
        with ([Read i true; Encode x p false; Print t] ++ rest).
      rewrite !count_app, IH. cbn. lia.
Qed.

Section Lazy.

Context {A L : Type} (body : Body A L).

Hypothesis enter_reads : forall args,
  (count is_read (trace (enter body args))
   <= count is_encode_failure (trace (enter body args)) + 1)%nat.

Hypothesis resume_reads : forall l,
  (count is_read (trace (resume body l))
   <= count is_encode_failure (trace (resume body l)) + 1)%nat.

Hypothesis unwind_reads : forall l, count is_read (trace (unwind body l)) = 0%nat.

(** A frame is read only to answer a pull, or to replace one that failed
    to compress. *)
Lemma session_reads (ops : list Op) (g : Generator A L) :
  (count is_read (trace (run body ops g))
   <= pulls_asked ops + count is_encode_failure (trace (run body ops g)))%nat.
Proof.
  revert g. induction ops as [|op ops IH]; intro g.
  - cbn. lia.
  - destruct op.
    + destruct (run_next body ops g) as (_ & _ & ->). rewrite !count_app.
      specialize (IH (snd (value (next body g)))).
      change (pulls_asked (Next :: ops)) with (S (pulls_asked ops)).
      assert (Hn : (count is_read (trace (next body g))
                    <= count is_encode_failure (trace (next body g)) + 1)%nat).
      { destruct g as [args | l |]; unfold next;
          rewrite ?trace_bind, ?trace_ret, ?app_nil_r;
          [apply enter_reads | apply resume_reads | cbn; lia]. }
      lia.
    + destruct (run_close body ops g) as (_ & _ & ->). rewrite !count_app.
      specialize (IH (value (close body g))).
      change (pulls_asked (Close :: ops)) with (pulls_asked ops).
      assert (Hc : count is_read (trace (close body g)) = 0%nat).
      { destruct g as [args | l |]; unfold close;
          rewrite ?trace_bind, ?trace_ret, ?app_nil_r;
          [reflexivity | apply unwind_reads | reflexivity]. }
      lia.
Qed.

End Lazy.

(** X13: neither pipeline reads ahead of its consumer.  In every
    session the number of [read] calls is at most the number of pulls
    asked plus the number of frames that failed to compress; discarding
    the generator reads nothing. *)
Theorem X13_frames_are_read_only_on_demand :
  forall be resolution ops,
    (forall device_id,
        let log := trace (run (camera_module.generate_frames_body be) ops
                              (camera_module.generate_frames device_id resolution)) in
        (count is_read log <= pulls_asked ops + count is_encode_failure log)%nat)
    /\ (forall self device_id,
          let log := trace (run (CameraManager.generate_frames_body be self) ops
                                (CameraManager.generate_frames device_id resolution)) in
          (count is_read log <= pulls_asked ops + count is_encode_failure log)%nat).
Proof.
  intros be resolution ops. split.
  - intros device_id log. apply session_reads.
    + intros (d, res). destruct (int d) as [z|e] eqn:Hint.
      * destruct (dev_opened (device be z (platform_api be))) eqn:Ho.
        -- destruct (camera_module_enter_open be d res z Hint Ho) as (_ & ->).
           rewrite !count_app.
           pose proof (camera_module_streaming_reads be d
                         (configured z (device be z (platform_api be)) res)
                         (dev_frames (device be z (platform_api be)))) as H.
           cbv zeta in H. rewrite H. cbn. lia.
        -- rewrite (camera_module_enter_closed be d res z Hint Ho). cbn. lia.
      * rewrite (camera_module_enter_invalid be d res e Hint). cbn. lia.
    + intro l. cbn [resume camera_module.generate_frames_body].
      pose proof (camera_module_streaming_reads be (camera_module.device_id l)
                    (camera_module.cap l) (camera_module.pending l)) as H.
      cbv zeta in H. lia.
    + intro l. reflexivity.
  - intros self device_id log. apply session_reads.
    + intros (d, res).
      destruct (dev_opened (device be d (Some (CameraManager.backend self)))) eqn:Ho.
      * destruct (CameraManager_enter_open be self d res Ho) as (_ & ->).
        rewrite !count_app.
        pose proof (CameraManager_streaming_reads be d
                      (configured d (device be d (Some (CameraManager.backend self))) res)
                      (dev_frames (device be d (Some (CameraManager.backend self)))))
          as H.
        cbv zeta in H. rewrite H. destruct (negb _ || negb _); cbn; lia.
      * rewrite (CameraManager_enter_closed be self d res Ho). cbn. lia.
    + intro l. cbn [resume CameraManager.generate_frames_body].
      pose proof (CameraManager_streaming_reads be (CameraManager.device_id l)
                    (CameraManager.cap l) (CameraManager.pending l)) as H.
      cbv zeta in H. lia.
    + intro l. reflexivity.
Qed.
